(** * dmxdev: the DVB demultiplexer device (drivers/media/dvb-core/dmxdev.c)

    A shallow embedding of the event queue, the output ring buffer, the
    filter state machine and the producer callbacks of dmxdev.c, and the
    properties of them that the design document states.

    Conventions.  C integers are [Z] with the conversions written out:
    [u32] is the reduction of an unsigned 32-bit object, [s32] the value of
    an [int].  A kernel function that can fail returns its negative errno,
    as in the source.  A pointer that may be NULL is an [option]. *)

From Stdlib Require Import ZArith Lia Bool.
From stdpp Require Import base list.

Local Open Scope Z_scope.

(** ** Machine integers *)

Definition u32 (x : Z) : Z := x mod 2 ^ 32.

Definition s32 (x : Z) : Z := (x + 2 ^ 31) mod 2 ^ 32 - 2 ^ 31.

(** ** errno values (include/uapi/asm-generic/errno-base.h and errno.h) *)

Definition EAGAIN : Z := 11.
Definition EWOULDBLOCK : Z := EAGAIN.
Definition ENOMEM : Z := 12.
Definition EFAULT : Z := 14.
Definition EBUSY : Z := 16.
Definition ENODEV : Z := 19.
Definition EINVAL : Z := 22.
Definition ENODATA : Z := 61.
Definition EOVERFLOW : Z := 75.
Definition ETIMEDOUT : Z := 110.
Definition ERESTARTSYS : Z := 512.

(** ** Filter events *)

(** [enum dmx_event]: the type tag of a filter event.  The enumerators are
    single bits that the event masks are tested against; the bit of each
    one is a parameter of the development ([event_bit] below). *)
Inductive dmx_event : Set :=
  | DMX_EVENT_NEW_PES
  | DMX_EVENT_NEW_SECTION
  | DMX_EVENT_NEW_REC_CHUNK
  | DMX_EVENT_NEW_PCR
  | DMX_EVENT_BUFFER_OVERFLOW
  | DMX_EVENT_SECTION_CRC_ERROR
  | DMX_EVENT_EOS
  | DMX_EVENT_NEW_ES_DATA
  | DMX_EVENT_MARKER
  | DMX_EVENT_NEW_INDEX_ENTRY
  | DMX_EVENT_SECTION_TIMEOUT
  | DMX_EVENT_SCRAMBLING_STATUS_CHANGE.

#[global] Instance dmx_event_eq_dec : EqDecision dmx_event.
Proof. solve_decision. Defined.

(** [event->params.pes] *)
Record dmx_pes_event_info : Set := {
  pes_base_offset : Z;
  pes_start_offset : Z;
  pes_total_length : Z;
  pes_actual_length : Z;
  pes_stc : Z;
  pes_flags : Z;
  pes_transport_error_indicator_counter : Z;
  pes_continuity_error_counter : Z;
  pes_ts_packets_num : Z
}.

(** [event->params.section]; [section_flags] is [None] where the code
    leaves the member unwritten. *)
Record dmx_section_event_info : Set := {
  section_base_offset : Z;
  section_start_offset : Z;
  section_total_length : Z;
  section_actual_length : Z;
  section_flags : option Z
}.

(** [event->params.recording_chunk] *)
Record dmx_rec_chunk_event_info : Set := {
  recording_chunk_offset : Z;
  recording_chunk_size : Z
}.

(** [event->params.es_data] *)
Record dmx_es_data_event_info : Set := {
  es_buf_handle : Z;
  es_cookie : Z;
  es_offset : Z;
  es_data_len : Z;
  es_pts_valid : Z;
  es_pts : Z;
  es_dts_valid : Z;
  es_dts : Z;
  es_stc : Z;
  es_transport_error_indicator_counter : Z;
  es_continuity_error_counter : Z;
  es_ts_packets_num : Z;
  es_ts_dropped_bytes : Z
}.

(** [struct dmx_filter_event]: the type tag and the member of the [params]
    union that the code fills in for it. *)
Inductive dmx_filter_event : Set :=
  | EvNewPes (pes : dmx_pes_event_info)
  | EvNewSection (section : dmx_section_event_info)
  | EvNewRecChunk (recording_chunk : dmx_rec_chunk_event_info)
  | EvNewPcr (pcr stc flags : Z)
  | EvBufferOverflow
  | EvSectionCrcError
  | EvEos
  | EvNewEsData (es_data : dmx_es_data_event_info)
  | EvMarker (id : Z)
  | EvNewIndexEntry (index : Z)
  | EvSectionTimeout
  | EvScramblingStatusChange (scrambling_status : Z).

(** [event->type] *)
Definition ev_type (event : dmx_filter_event) : dmx_event :=
  match event with
  | EvNewPes _ => DMX_EVENT_NEW_PES
  | EvNewSection _ => DMX_EVENT_NEW_SECTION
  | EvNewRecChunk _ => DMX_EVENT_NEW_REC_CHUNK
  | EvNewPcr _ _ _ => DMX_EVENT_NEW_PCR
  | EvBufferOverflow => DMX_EVENT_BUFFER_OVERFLOW
  | EvSectionCrcError => DMX_EVENT_SECTION_CRC_ERROR
  | EvEos => DMX_EVENT_EOS
  | EvNewEsData _ => DMX_EVENT_NEW_ES_DATA
  | EvMarker _ => DMX_EVENT_MARKER
  | EvNewIndexEntry _ => DMX_EVENT_NEW_INDEX_ENTRY
  | EvSectionTimeout => DMX_EVENT_SECTION_TIMEOUT
  | EvScramblingStatusChange _ => DMX_EVENT_SCRAMBLING_STATUS_CHANGE
  end.

(** ** Per-kind updaters of a data event *)

(** [dvb_dmxdev_update_pes_event].  [total_length <= bytes_read] compares an
    unsigned member with an [int], so the [int] is converted to unsigned. *)
Definition dvb_dmxdev_update_pes_event (event : dmx_pes_event_info)
    (bytes_read : Z) : Z * dmx_pes_event_info :=
  if pes_total_length event <=? u32 bytes_read then
    (s32 (pes_total_length event), event)
  else
    let total_length := u32 (pes_total_length event - bytes_read) in
    let start_delta := s32 (pes_start_offset event - pes_base_offset event) in
    if bytes_read <=? start_delta then
      (0, {| pes_base_offset := u32 (pes_base_offset event + bytes_read);
             pes_start_offset := pes_start_offset event;
             pes_total_length := total_length;
             pes_actual_length := pes_actual_length event;
             pes_stc := pes_stc event;
             pes_flags := pes_flags event;
             pes_transport_error_indicator_counter :=
               pes_transport_error_indicator_counter event;
             pes_continuity_error_counter := pes_continuity_error_counter event;
             pes_ts_packets_num := pes_ts_packets_num event |})
    else
      let start_delta := s32 (bytes_read - start_delta) in
      let start_offset := u32 (pes_start_offset event + start_delta) in
      (0, {| pes_base_offset := start_offset;
             pes_start_offset := start_offset;
             pes_total_length := total_length;
             pes_actual_length := u32 (pes_actual_length event - start_delta);
             pes_stc := pes_stc event;
             pes_flags := pes_flags event;
             pes_transport_error_indicator_counter :=
               pes_transport_error_indicator_counter event;
             pes_continuity_error_counter := pes_continuity_error_counter event;
             pes_ts_packets_num := pes_ts_packets_num event |}).

(** [dvb_dmxdev_update_section_event] *)
Definition dvb_dmxdev_update_section_event (event : dmx_section_event_info)
    (bytes_read : Z) : Z * dmx_section_event_info :=
  if section_total_length event <=? u32 bytes_read then
    (s32 (section_total_length event), event)
  else
    let total_length := u32 (section_total_length event - bytes_read) in
    let start_delta :=
      s32 (section_start_offset event - section_base_offset event) in
    if bytes_read <=? start_delta then
      (0, {| section_base_offset := u32 (section_base_offset event + bytes_read);
             section_start_offset := section_start_offset event;
             section_total_length := total_length;
             section_actual_length := section_actual_length event;
             section_flags := section_flags event |})
    else
      let start_delta := s32 (bytes_read - start_delta) in
      let start_offset := u32 (section_start_offset event + start_delta) in
      (0, {| section_base_offset := start_offset;
             section_start_offset := start_offset;
             section_total_length := total_length;
             section_actual_length :=
               u32 (section_actual_length event - start_delta);
             section_flags := section_flags event |}).

(** [dvb_dmxdev_update_rec_event] *)
Definition dvb_dmxdev_update_rec_event (event : dmx_rec_chunk_event_info)
    (bytes_read : Z) : Z * dmx_rec_chunk_event_info :=
  if recording_chunk_size event <=? u32 bytes_read then
    (s32 (recording_chunk_size event), event)
  else
    (0, {| recording_chunk_offset :=
             u32 (recording_chunk_offset event + bytes_read);
           recording_chunk_size :=
             u32 (recording_chunk_size event - bytes_read) |}).

(** The dispatch on [event->type] that [dvb_dmxdev_add_event] and both loops
    of [dvb_dmxdev_update_events] share: [Some (res, event')] for a data
    event ([data_event = 1]), [None] for any other ([data_event = 0]). *)
Definition update_data_event (event : dmx_filter_event) (bytes_read : Z)
    : option (Z * dmx_filter_event) :=
  match event with
  | EvNewPes p =>
      let '(res, p') := dvb_dmxdev_update_pes_event p bytes_read in
      Some (res, EvNewPes p')
  | EvNewSection s =>
      let '(res, s') := dvb_dmxdev_update_section_event s bytes_read in
      Some (res, EvNewSection s')
  | EvNewRecChunk r =>
      let '(res, r') := dvb_dmxdev_update_rec_event r bytes_read in
      Some (res, EvNewRecChunk r')
  | _ => None
  end.

(** What the two loops of [dvb_dmxdev_update_events] do to one PES event as
    successive calls bring the chunks [chunks] of drained bytes to it: a call
    that returns 0 leaves the event in the queue and uses its [bytes_read]
    up ([bytes_read = 0]); a call that returns [res <> 0] removes the event
    and takes [res] off [bytes_read].  The result is the number of bytes
    attributed to the event and the event while it is still queued. *)
Fixpoint pes_event_drain (event : dmx_pes_event_info) (chunks : list Z)
    : Z * option dmx_pes_event_info :=
  match chunks with
  | [] => (0, Some event)
  | bytes_read :: chunks =>
      let '(res, event') := dvb_dmxdev_update_pes_event event bytes_read in
      if res =? 0 then
        let '(n, pending) := pes_event_drain event' chunks in
        (bytes_read + n, pending)
      else (res, None)
  end.

(** Total of a list of chunk sizes. *)
Definition sum_bytes (chunks : list Z) : Z := foldr Z.add 0 chunks.

(** ** The output ring buffer

    [struct dvb_ringbuffer] is declared in dvb_ringbuffer.h; dmxdev.c uses
    its members [data], [size], [pread], [pwrite] and [error] directly.
    [data] is [None] when the pointer is NULL (no storage mapped). *)
Record dvb_ringbuffer : Set := {
  data : option (list Z);
  size : Z;
  pread : Z;
  pwrite : Z;
  error : Z
}.

Definition set_error (rbuf : dvb_ringbuffer) (e : Z) : dvb_ringbuffer :=
  {| data := data rbuf; size := size rbuf; pread := pread rbuf;
     pwrite := pwrite rbuf; error := e |}.

Definition set_data (rbuf : dvb_ringbuffer) (d : option (list Z))
    : dvb_ringbuffer :=
  {| data := d; size := size rbuf; pread := pread rbuf;
     pwrite := pwrite rbuf; error := error rbuf |}.

(** Modelled from the spec: the helper [dvb_ringbuffer_avail] of
    dvb_ringbuffer.c, which is not part of the sources at hand; "avail =
    (write_cursor - read_cursor) mod capacity". *)
Definition dvb_ringbuffer_avail (rbuf : dvb_ringbuffer) : Z :=
  (pwrite rbuf - pread rbuf) mod size rbuf.

(** Modelled from the spec: the helper [dvb_ringbuffer_empty]; the buffer is
    empty when nothing is available, the cursors being equal. *)
Definition dvb_ringbuffer_empty (rbuf : dvb_ringbuffer) : bool :=
  pread rbuf =? pwrite rbuf.

(** Modelled from the spec: the macro [DVB_RINGBUFFER_SKIP] of
    dvb_ringbuffer.h; the read cursor advances and "wraps on overflow of
    capacity". *)
Definition DVB_RINGBUFFER_SKIP (rbuf : dvb_ringbuffer) (num : Z)
    : dvb_ringbuffer :=
  {| data := data rbuf; size := size rbuf;
     pread := (pread rbuf + num) mod size rbuf;
     pwrite := pwrite rbuf; error := error rbuf |}.

(** Modelled from the spec: the macro [DVB_RINGBUFFER_PUSH]; the write
    cursor advances and wraps likewise. *)
Definition DVB_RINGBUFFER_PUSH (rbuf : dvb_ringbuffer) (num : Z)
    : dvb_ringbuffer :=
  {| data := data rbuf; size := size rbuf; pread := pread rbuf;
     pwrite := (pwrite rbuf + num) mod size rbuf; error := error rbuf |}.

(** The [len] bytes stored from cursor [pos] on, across the wrap. *)
Definition ring_bytes (d : list Z) (sz pos : Z) (len : nat) : list Z :=
  map (fun i : nat => default 0 (d !! Z.to_nat ((pos + Z.of_nat i) mod sz)))
      (seq 0 len).

(** Modelled from the spec: the helper [dvb_ringbuffer_read_user]; it copies
    [len] bytes from the read cursor on to the caller, across the wrap, and
    skips them.  The result is the return value, the bytes handed to the
    caller and the buffer.  The caller's memory is taken to be writable (no
    [-EFAULT]). *)
Definition dvb_ringbuffer_read_user (rbuf : dvb_ringbuffer) (len : Z)
    : Z * list Z * dvb_ringbuffer :=
  (len,
   ring_bytes (default [] (data rbuf)) (size rbuf) (pread rbuf) (Z.to_nat len),
   DVB_RINGBUFFER_SKIP rbuf len).

(** Storing [src] from cursor [pos] on, across the wrap. *)
Fixpoint ring_store (d : list Z) (sz pos : Z) (src : list Z) : list Z :=
  match src with
  | [] => d
  | b :: src => ring_store (<[Z.to_nat (pos mod sz) := b]> d) sz (pos + 1) src
  end.

(** Modelled from the spec: the helper [dvb_ringbuffer_write]; it stores the
    bytes at the write cursor, across the wrap, pushes the cursor and
    returns the length. *)
Definition dvb_ringbuffer_write (rbuf : dvb_ringbuffer) (src : list Z)
    : Z * dvb_ringbuffer :=
  (Z.of_nat (length src),
   DVB_RINGBUFFER_PUSH
     (set_data rbuf
        (option_map (fun d => ring_store d (size rbuf) (pwrite rbuf) src)
           (data rbuf)))
     (Z.of_nat (length src))).

(** Modelled from the spec: the helper [dvb_ringbuffer_reset]; "discards all
    data without flagging error", both cursors back at the start. *)
Definition dvb_ringbuffer_reset (rbuf : dvb_ringbuffer) : dvb_ringbuffer :=
  {| data := data rbuf; size := size rbuf; pread := 0; pwrite := 0;
     error := 0 |}.

(** Modelled from the spec: the helper [dvb_ringbuffer_flush]; "discards
    content", the read cursor catching up with the write cursor. *)
Definition dvb_ringbuffer_flush (rbuf : dvb_ringbuffer) : dvb_ringbuffer :=
  {| data := data rbuf; size := size rbuf; pread := pwrite rbuf;
     pwrite := pwrite rbuf; error := 0 |}.

(** Modelled from the spec: the helper [dvb_ringbuffer_free], for the
    instances at which the development is tried; "avail + free = capacity".
    The development itself takes the helper as a parameter. *)
Definition ring_free_by_spec (rbuf : dvb_ringbuffer) : Z :=
  size rbuf - dvb_ringbuffer_avail rbuf.

(** ** The event queue *)

(** [struct dmx_events_mask] *)
Record dmx_events_mask : Set := {
  disable_mask : Z;
  no_wakeup_mask : Z;
  wakeup_threshold : Z
}.

(** [struct dmxdev_events_queue]; [queue] is the array
    [queue[DMX_EVENT_QUEUE_SIZE]]. *)
Record dmxdev_events_queue : Set := {
  read_index : Z;
  write_index : Z;
  notified_index : Z;
  bytes_read_no_event : Z;
  current_event_data_size : Z;
  current_event_start_offset : Z;
  event_mask : dmx_events_mask;
  data_read_event_masked : Z;
  wakeup_events_counter : Z;
  queue : list dmx_filter_event
}.

Definition set_read_index (events : dmxdev_events_queue) (i : Z) :=
  {| read_index := i; write_index := write_index events;
     notified_index := notified_index events;
     bytes_read_no_event := bytes_read_no_event events;
     current_event_data_size := current_event_data_size events;
     current_event_start_offset := current_event_start_offset events;
     event_mask := event_mask events;
     data_read_event_masked := data_read_event_masked events;
     wakeup_events_counter := wakeup_events_counter events;
     queue := queue events |}.

Definition set_write_index (events : dmxdev_events_queue) (i : Z) :=
  {| read_index := read_index events; write_index := i;
     notified_index := notified_index events;
     bytes_read_no_event := bytes_read_no_event events;
     current_event_data_size := current_event_data_size events;
     current_event_start_offset := current_event_start_offset events;
     event_mask := event_mask events;
     data_read_event_masked := data_read_event_masked events;
     wakeup_events_counter := wakeup_events_counter events;
     queue := queue events |}.

Definition set_notified_index (events : dmxdev_events_queue) (i : Z) :=
  {| read_index := read_index events; write_index := write_index events;
     notified_index := i;
     bytes_read_no_event := bytes_read_no_event events;
     current_event_data_size := current_event_data_size events;
     current_event_start_offset := current_event_start_offset events;
     event_mask := event_mask events;
     data_read_event_masked := data_read_event_masked events;
     wakeup_events_counter := wakeup_events_counter events;
     queue := queue events |}.

Definition set_bytes_read_no_event (events : dmxdev_events_queue) (n : Z) :=
  {| read_index := read_index events; write_index := write_index events;
     notified_index := notified_index events;
     bytes_read_no_event := n;
     current_event_data_size := current_event_data_size events;
     current_event_start_offset := current_event_start_offset events;
     event_mask := event_mask events;
     data_read_event_masked := data_read_event_masked events;
     wakeup_events_counter := wakeup_events_counter events;
     queue := queue events |}.

Definition set_current_event_data_size (events : dmxdev_events_queue) (n : Z) :=
  {| read_index := read_index events; write_index := write_index events;
     notified_index := notified_index events;
     bytes_read_no_event := bytes_read_no_event events;
     current_event_data_size := n;
     current_event_start_offset := current_event_start_offset events;
     event_mask := event_mask events;
     data_read_event_masked := data_read_event_masked events;
     wakeup_events_counter := wakeup_events_counter events;
     queue := queue events |}.

Definition set_current_event_start_offset (events : dmxdev_events_queue)
    (n : Z) :=
  {| read_index := read_index events; write_index := write_index events;
     notified_index := notified_index events;
     bytes_read_no_event := bytes_read_no_event events;
     current_event_data_size := current_event_data_size events;
     current_event_start_offset := n;
     event_mask := event_mask events;
     data_read_event_masked := data_read_event_masked events;
     wakeup_events_counter := wakeup_events_counter events;
     queue := queue events |}.

Definition set_event_mask (events : dmxdev_events_queue)
    (m : dmx_events_mask) :=
  {| read_index := read_index events; write_index := write_index events;
     notified_index := notified_index events;
     bytes_read_no_event := bytes_read_no_event events;
     current_event_data_size := current_event_data_size events;
     current_event_start_offset := current_event_start_offset events;
     event_mask := m;
     data_read_event_masked := data_read_event_masked events;
     wakeup_events_counter := wakeup_events_counter events;
     queue := queue events |}.

Definition set_data_read_event_masked (events : dmxdev_events_queue) (n : Z) :=
  {| read_index := read_index events; write_index := write_index events;
     notified_index := notified_index events;
     bytes_read_no_event := bytes_read_no_event events;
     current_event_data_size := current_event_data_size events;
     current_event_start_offset := current_event_start_offset events;
     event_mask := event_mask events;
     data_read_event_masked := n;
     wakeup_events_counter := wakeup_events_counter events;
     queue := queue events |}.

Definition set_wakeup_events_counter (events : dmxdev_events_queue) (n : Z) :=
  {| read_index := read_index events; write_index := write_index events;
     notified_index := notified_index events;
     bytes_read_no_event := bytes_read_no_event events;
     current_event_data_size := current_event_data_size events;
     current_event_start_offset := current_event_start_offset events;
     event_mask := event_mask events;
     data_read_event_masked := data_read_event_masked events;
     wakeup_events_counter := n;
     queue := queue events |}.

Definition set_queue (events : dmxdev_events_queue)
    (q : list dmx_filter_event) :=
  {| read_index := read_index events; write_index := write_index events;
     notified_index := notified_index events;
     bytes_read_no_event := bytes_read_no_event events;
     current_event_data_size := current_event_data_size events;
     current_event_start_offset := current_event_start_offset events;
     event_mask := event_mask events;
     data_read_event_masked := data_read_event_masked events;
     wakeup_events_counter := wakeup_events_counter events;
     queue := q |}.

(** ** Filters and the device *)

(** [enum dmxdev_type] *)
Inductive dmxdev_type : Set :=
  | DMXDEV_TYPE_NONE
  | DMXDEV_TYPE_SEC
  | DMXDEV_TYPE_PES.

(** [enum dmxdev_state] *)
Inductive dmxdev_state : Set :=
  | DMXDEV_STATE_FREE
  | DMXDEV_STATE_ALLOCATED
  | DMXDEV_STATE_SET
  | DMXDEV_STATE_GO
  | DMXDEV_STATE_DONE
  | DMXDEV_STATE_TIMEDOUT.

#[global] Instance dmxdev_state_eq_dec : EqDecision dmxdev_state.
Proof. solve_decision. Defined.

(** Modelled from the spec: the values of the enumerators of
    [enum dmxdev_state], declared in dmxdev.h, which is not among the sources
    at hand; "Free -> Allocated -> Set -> Go -> Done | TimedOut", in this
    order, so that "state >= Go" is Go, Done or TimedOut. *)
Definition state_value (state : dmxdev_state) : Z :=
  match state with
  | DMXDEV_STATE_FREE => 0
  | DMXDEV_STATE_ALLOCATED => 1
  | DMXDEV_STATE_SET => 2
  | DMXDEV_STATE_GO => 3
  | DMXDEV_STATE_DONE => 4
  | DMXDEV_STATE_TIMEDOUT => 5
  end.

(** [enum dmx_output] *)
Inductive dmx_output : Set :=
  | DMX_OUT_DECODER
  | DMX_OUT_TAP
  | DMX_OUT_TS_TAP
  | DMX_OUT_TSDEMUX_TAP.

#[global] Instance dmx_output_eq_dec : EqDecision dmx_output.
Proof. solve_decision. Defined.

(** [enum dmx_buffer_mode] *)
Inductive dmx_buffer_mode : Set :=
  | DMX_BUFFER_MODE_INTERNAL
  | DMX_BUFFER_MODE_EXTERNAL.

#[global] Instance dmx_buffer_mode_eq_dec : EqDecision dmx_buffer_mode.
Proof. solve_decision. Defined.

(** [enum dmx_tsp_format_t], in the order of declaration that the range
    check of [dvb_dmxdev_set_tsp_out_format] relies on: 188 first, 192 with
    head last. *)
Definition DMX_TSP_FORMAT_188 : Z := 0.
Definition DMX_TSP_FORMAT_192_TAIL : Z := 1.
Definition DMX_TSP_FORMAT_192_HEAD : Z := 2.

(** Section filter flag (uapi dmx.h). *)
Definition DMX_ONESHOT : Z := 2.

(** The members of [struct dmx_sct_filter_params] that dmxdev.c acts on
    after the filter is set. *)
Record dmx_sct_filter_params : Set := {
  sec_pid : Z;
  sec_timeout : Z;
  sec_flags : Z
}.

(** The members of [struct dmx_pes_filter_params] likewise. *)
Record dmx_pes_filter_params : Set := {
  pes_pid : Z;
  pes_output : dmx_output;
  rec_chunk_size : Z
}.

(** [struct dmxdev_filter].  [sec] and [pes] are the two members of the
    [params] union; [timer] is the expiry time of the pending timer, whose
    function is [dvb_dmxdev_filter_timeout], or [None] when none is pending;
    [vb2_streaming] is [dvb_vb2_is_streaming(&vb2_ctx)]. *)
Record dmxdev_filter : Set := {
  type : dmxdev_type;
  state : dmxdev_state;
  buffer : dvb_ringbuffer;
  events : dmxdev_events_queue;
  sec : dmx_sct_filter_params;
  pes : dmx_pes_filter_params;
  eos_state : Z;
  todo : Z;
  secheader : list Z;
  buffer_mode : dmx_buffer_mode;
  dmx_tsp_format : Z;
  timer : option Z;
  vb2_streaming : bool
}.

Definition with_state (f : dmxdev_filter) (v : dmxdev_state) : dmxdev_filter :=
  {| type := type f; state := v; buffer := buffer f; events := events f;
     sec := sec f; pes := pes f; eos_state := eos_state f; todo := todo f;
     secheader := secheader f; buffer_mode := buffer_mode f;
     dmx_tsp_format := dmx_tsp_format f; timer := timer f; vb2_streaming
     := vb2_streaming f |}.

Definition with_buffer (f : dmxdev_filter) (v : dvb_ringbuffer) : dmxdev_filter :=
  {| type := type f; state := state f; buffer := v; events := events f;
     sec := sec f; pes := pes f; eos_state := eos_state f; todo := todo f;
     secheader := secheader f; buffer_mode := buffer_mode f;
     dmx_tsp_format := dmx_tsp_format f; timer := timer f; vb2_streaming
     := vb2_streaming f |}.

Definition with_events (f : dmxdev_filter) (v : dmxdev_events_queue) : dmxdev_filter :=
  {| type := type f; state := state f; buffer := buffer f; events := v;
     sec := sec f; pes := pes f; eos_state := eos_state f; todo := todo f;
     secheader := secheader f; buffer_mode := buffer_mode f;
     dmx_tsp_format := dmx_tsp_format f; timer := timer f; vb2_streaming
     := vb2_streaming f |}.


Definition with_todo (f : dmxdev_filter) (v : Z) : dmxdev_filter :=
  {| type := type f; state := state f; buffer := buffer f; events :=
     events f; sec := sec f; pes := pes f; eos_state := eos_state f; todo
     := v; secheader := secheader f; buffer_mode := buffer_mode f;
     dmx_tsp_format := dmx_tsp_format f; timer := timer f; vb2_streaming
     := vb2_streaming f |}.

Definition with_secheader (f : dmxdev_filter) (v : list Z) : dmxdev_filter :=
  {| type := type f; state := state f; buffer := buffer f; events :=
     events f; sec := sec f; pes := pes f; eos_state := eos_state f; todo
     := todo f; secheader := v; buffer_mode := buffer_mode f;
     dmx_tsp_format := dmx_tsp_format f; timer := timer f; vb2_streaming
     := vb2_streaming f |}.

Definition with_buffer_mode (f : dmxdev_filter) (v : dmx_buffer_mode) : dmxdev_filter :=
  {| type := type f; state := state f; buffer := buffer f; events :=
     events f; sec := sec f; pes := pes f; eos_state := eos_state f; todo
     := todo f; secheader := secheader f; buffer_mode := v; dmx_tsp_format
     := dmx_tsp_format f; timer := timer f; vb2_streaming := vb2_streaming
     f |}.

Definition with_dmx_tsp_format (f : dmxdev_filter) (v : Z) : dmxdev_filter :=
  {| type := type f; state := state f; buffer := buffer f; events :=
     events f; sec := sec f; pes := pes f; eos_state := eos_state f; todo
     := todo f; secheader := secheader f; buffer_mode := buffer_mode f;
     dmx_tsp_format := v; timer := timer f; vb2_streaming := vb2_streaming
     f |}.

Definition with_timer (f : dmxdev_filter) (v : option Z) : dmxdev_filter :=
  {| type := type f; state := state f; buffer := buffer f; events :=
     events f; sec := sec f; pes := pes f; eos_state := eos_state f; todo
     := todo f; secheader := secheader f; buffer_mode := buffer_mode f;
     dmx_tsp_format := dmx_tsp_format f; timer := v; vb2_streaming :=
     vb2_streaming f |}.

(** [struct dmxdev], seen from one of its filters: [filter] is the slot of
    [dmxdev->filter[]] under study, to which the [dev] pointer of the filter
    leads back; the DVR output buffer and its event queue are shared by the
    filters with output [DMX_OUT_TS_TAP]. *)
Record dmxdev : Set := {
  filter : dmxdev_filter;
  dvr_buffer : dvb_ringbuffer;
  dvr_output_events : dmxdev_events_queue;
  dvr_vb2_streaming : bool
}.

Definition with_filter (dev : dmxdev) (v : dmxdev_filter) : dmxdev :=
  {| filter := v; dvr_buffer := dvr_buffer dev; dvr_output_events :=
     dvr_output_events dev; dvr_vb2_streaming := dvr_vb2_streaming dev |}.

Definition with_dvr_buffer (dev : dmxdev) (v : dvb_ringbuffer) : dmxdev :=
  {| filter := filter dev; dvr_buffer := v; dvr_output_events :=
     dvr_output_events dev; dvr_vb2_streaming := dvr_vb2_streaming dev |}.

Definition with_dvr_output_events (dev : dmxdev) (v : dmxdev_events_queue) : dmxdev :=
  {| filter := filter dev; dvr_buffer := dvr_buffer dev; dvr_output_events
     := v; dvr_vb2_streaming := dvr_vb2_streaming dev |}.

(** [enum dmx_data_ready_status] *)
Inductive dmx_data_ready_status : Set :=
  | DMX_OK
  | DMX_OK_PES_END
  | DMX_OK_PCR
  | DMX_OK_EOS
  | DMX_OK_MARKER
  | DMX_CRC_ERROR
  | DMX_OVERRUN_ERROR
  | DMX_MISSED_ERROR
  | DMX_OK_DECODER_BUF
  | DMX_OK_IDX
  | DMX_OK_SCRAMBLING_STATUS.

#[global] Instance dmx_data_ready_status_eq_dec :
  EqDecision dmx_data_ready_status.
Proof. solve_decision. Defined.

(** [dmx_data_ready->pes_end] *)
Record dmx_pes_end_info : Set := {
  start_gap : Z;
  pes_end_actual_length : Z;
  pes_end_disc_indicator_set : Z;
  pes_length_mismatch : Z;
  pes_end_stc : Z;
  pes_end_tei_counter : Z;
  pes_end_cont_err_counter : Z;
  pes_end_ts_packets_num : Z
}.

(** [dmx_data_ready->buf] *)
Record dmx_decoder_buf_info : Set := {
  buf_handle : Z;
  buf_cookie : Z;
  buf_offset : Z;
  buf_len : Z;
  buf_pts_exists : Z;
  buf_pts : Z;
  buf_dts_exists : Z;
  buf_dts : Z;
  buf_stc : Z;
  buf_tei_counter : Z;
  buf_cont_err_counter : Z;
  buf_ts_packets_num : Z;
  buf_ts_dropped_bytes : Z
}.

(** [struct dmx_data_ready]; the members of its union side by side. *)
Record dmx_data_ready : Set := {
  status : dmx_data_ready_status;
  data_length : Z;
  pes_end : dmx_pes_end_info;
  buf : dmx_decoder_buf_info;
  pcr_pcr : Z;
  pcr_stc : Z;
  pcr_disc_indicator_set : Z;
  marker_id : Z;
  idx_event : Z;
  scrambling_bits : Z
}.

(** Flags passed in filter events (uapi dmx.h). *)
Definition DMX_FILTER_CC_ERROR : Z := 1.

(** Unsigned 64-bit reduction ([size_t]), for the comparisons that mix
    [ssize_t] and [size_t]. *)
Definition u64 (x : Z) : Z := x mod 2 ^ 64.

(** [dvb_dmxdev_flush_events] *)
Definition dvb_dmxdev_flush_events (events : dmxdev_events_queue)
    : dmxdev_events_queue :=
  {| read_index := 0; write_index := 0; notified_index := 0;
     bytes_read_no_event := 0;
     current_event_data_size := 0;
     current_event_start_offset := current_event_start_offset events;
     event_mask := event_mask events;
     data_read_event_masked := data_read_event_masked events;
     wakeup_events_counter := 0;
     queue := queue events |}.

(** ** Instances of the parameters

    The values at which the statements below are tried: an array of 32
    slots ("e.g. 32"), one bit per event type, in the order of the
    enumeration, and 250 ticks per second. *)
Definition queue_size_32 : Z := 32.

Definition event_bit_in_order (type : dmx_event) : Z :=
  match type with
  | DMX_EVENT_NEW_PES => 1
  | DMX_EVENT_NEW_SECTION => 2
  | DMX_EVENT_NEW_REC_CHUNK => 4
  | DMX_EVENT_NEW_PCR => 8
  | DMX_EVENT_BUFFER_OVERFLOW => 16
  | DMX_EVENT_SECTION_CRC_ERROR => 32
  | DMX_EVENT_EOS => 64
  | DMX_EVENT_NEW_ES_DATA => 128
  | DMX_EVENT_MARKER => 256
  | DMX_EVENT_NEW_INDEX_ENTRY => 512
  | DMX_EVENT_SECTION_TIMEOUT => 1024
  | DMX_EVENT_SCRAMBLING_STATUS_CHANGE => 2048
  end.

Definition ticks_250 : Z := 250.

(** [overflow_auto_flush] as it is initialised, and as [dvb_dmxdev_init]
    leaves it for a demux without [DMX_CAP_AUTO_BUFFER_FLUSH]. *)
Definition auto_flush_on : Z := 1.

Definition auto_flush_off : Z := 0.

(** The filter as [dvb_demux_open] leaves it: no storage behind the ring
    buffer of 8192 bytes, an empty event queue with ES-data events
    disabled, internal buffer mode, 188-byte packets. *)
Definition mask_at_open : dmx_events_mask :=
  {| disable_mask := 128; no_wakeup_mask := 0; wakeup_threshold := 1 |}.

Definition queue_at_open : dmxdev_events_queue :=
  {| read_index := 0; write_index := 0; notified_index := 0;
     bytes_read_no_event := 0; current_event_data_size := 0;
     current_event_start_offset := 0; event_mask := mask_at_open;
     data_read_event_masked := 0; wakeup_events_counter := 0;
     queue := replicate 32 EvBufferOverflow |}.

Definition buffer_at_open : dvb_ringbuffer :=
  {| data := None; size := 8192; pread := 0; pwrite := 0; error := 0 |}.

Definition filter_at_open : dmxdev_filter :=
  {| type := DMXDEV_TYPE_NONE; state := DMXDEV_STATE_ALLOCATED;
     buffer := buffer_at_open; events := queue_at_open;
     sec := {| sec_pid := 0; sec_timeout := 0; sec_flags := 0 |};
     pes := {| pes_pid := 0; pes_output := DMX_OUT_DECODER;
               rec_chunk_size := 0 |};
     eos_state := 0; todo := 0; secheader := [0; 0; 0];
     buffer_mode := DMX_BUFFER_MODE_INTERNAL;
     dmx_tsp_format := DMX_TSP_FORMAT_188; timer := None;
     vb2_streaming := false |}.

(** A mapped ring buffer of 16 bytes holding 0, 1, ..., 15, with the
    cursors at [pr] and [pw]. *)
Definition ring_16 (pr pw : Z) : dvb_ringbuffer :=
  {| data := Some (map Z.of_nat (seq 0 16)); size := 16; pread := pr;
     pwrite := pw; error := 0 |}.

(** A filter of type [ty] in state [st] over the buffer [b] and the event
    queue [q], with section timeout [timeout], PES output [output] and
    recording chunks of [chunk] bytes. *)
Definition filter_of (ty : dmxdev_type) (st : dmxdev_state)
    (b : dvb_ringbuffer) (q : dmxdev_events_queue) (timeout : Z)
    (output : dmx_output) (chunk : Z) : dmxdev_filter :=
  {| type := ty; state := st; buffer := b; events := q;
     sec := {| sec_pid := 18; sec_timeout := timeout; sec_flags := 0 |};
     pes := {| pes_pid := 256; pes_output := output;
               rec_chunk_size := chunk |};
     eos_state := 0; todo := 0; secheader := [0; 0; 0];
     buffer_mode := DMX_BUFFER_MODE_INTERNAL;
     dmx_tsp_format := DMX_TSP_FORMAT_188; timer := None;
     vb2_streaming := false |}.

(** The device around a filter, with the DVR output buffer [dvr]. *)
Definition device_of (f : dmxdev_filter) (dvr : dvb_ringbuffer) : dmxdev :=
  {| filter := f; dvr_buffer := dvr; dvr_output_events := queue_at_open;
     dvr_vb2_streaming := false |}.

(** A running section filter and a running recording filter (TS-demux tap)
    over [ring_16]. *)
Definition section_filter_16 (pr pw : Z) : dmxdev_filter :=
  filter_of DMXDEV_TYPE_SEC DMXDEV_STATE_GO (ring_16 pr pw) queue_at_open 0
    DMX_OUT_DECODER 0.

Definition recording_filter_16 (pr pw : Z) (q : dmxdev_events_queue)
    : dmxdev_filter :=
  filter_of DMXDEV_TYPE_PES DMXDEV_STATE_GO (ring_16 pr pw) q 0
    DMX_OUT_TSDEMUX_TAP 100.

(** The queue of a fresh filter whose consumer has disabled the event types
    of [bits]. *)
Definition queue_masked (bits : Z) : dmxdev_events_queue :=
  set_event_mask queue_at_open
    {| disable_mask := bits; no_wakeup_mask := 0; wakeup_threshold := 1 |}.

(** A queue that is full: one advance of [write_index] is [read_index]. *)
Definition queue_full : dmxdev_events_queue :=
  set_write_index (set_notified_index queue_at_open 31) 31.

(** A PES event of 100 bytes whose payload starts 10 bytes in. *)
Definition pes_event_100 : dmx_pes_event_info :=
  {| pes_base_offset := 0; pes_start_offset := 10; pes_total_length := 100;
     pes_actual_length := 90; pes_stc := 0; pes_flags := 0;
     pes_transport_error_indicator_counter := 0;
     pes_continuity_error_counter := 0; pes_ts_packets_num := 1 |}.

(** The queue of a fresh filter once that event has been stored in slot 0
    and the consumer has been notified of it. *)
Definition queue_with_pes : dmxdev_events_queue :=
  set_queue (set_write_index (set_notified_index queue_at_open 1) 1)
    (<[0%nat := EvNewPes pes_event_100]> (queue queue_at_open)).

(** The queue of a fresh filter with that event stored in slot 0 and not
    yet handed out; it counts as one wake-up event. *)
Definition queue_pes_pending : dmxdev_events_queue :=
  set_wakeup_events_counter
    (set_queue (set_write_index queue_at_open 1)
       (<[0%nat := EvNewPes pes_event_100]> (queue queue_at_open))) 1.

(** The storage of a ring buffer of 400 bytes that holds, from cursor 200
    on and across the wrap, a section of 303 bytes: the header 0x42, 0x01,
    0x2C and 300 payload bytes. *)
Definition section_byte (i : Z) : Z :=
  if i =? 0 then 66 else if i =? 1 then 1 else if i =? 2 then 44
  else i mod 256.

Definition section_storage : list Z :=
  map (fun i : nat => section_byte ((Z.of_nat i - 200) mod 400)) (seq 0 400).

Definition section_ring : dvb_ringbuffer :=
  {| data := Some section_storage; size := 400; pread := 200; pwrite := 103;
     error := 0 |}.

(** An allocator that always has memory, zeroed. *)
Definition vmalloc_zeroed (sz : Z) : option (list Z) :=
  Some (replicate (Z.to_nat sz) 0).




(** What other threads may do while a reader sleeps: the producer records
    an overflow on the filter's buffer; the filter is stopped and its
    storage unmapped; the storage of the DVR buffer is unmapped. *)
Definition overflow_now (dev : dmxdev) : dmxdev :=
  with_filter dev
    (with_buffer (filter dev) (set_error (buffer (filter dev)) (- EOVERFLOW))).

Definition stop_and_unmap (dev : dmxdev) : dmxdev :=
  with_filter dev
    (with_state
       (with_buffer (filter dev) (set_data (buffer (filter dev)) None))
       DMXDEV_STATE_SET).

Definition unmap_dvr (dev : dmxdev) : dmxdev :=
  with_dvr_buffer dev (set_data (dvr_buffer dev) None).

Section dmxdev.

(** What dmxdev.c takes from headers and helpers that are not among the
    sources at hand: the number of slots of the event array (dmxdev.h), the
    bit of each event type (the uapi header), the free space of a ring
    buffer ([dvb_ringbuffer_free], dvb_ringbuffer.c) and the timer tick
    rate. *)
Variable DMX_EVENT_QUEUE_SIZE : Z.
Variable event_bit : dmx_event -> Z.
Variable dvb_ringbuffer_free : dvb_ringbuffer -> Z.
Variable HZ : Z.

(** [mask & type] as a truth value. *)
Definition mask_test (mask : Z) (type : dmx_event) : bool :=
  negb (Z.land mask (event_bit type) =? 0).

(** [dvb_dmxdev_advance_event_idx] *)
Definition dvb_dmxdev_advance_event_idx (index : Z) : Z :=
  let index := u32 (index + 1) in
  if DMX_EVENT_QUEUE_SIZE <=? index then 0 else index.

(** [dvb_dmxdev_events_is_full] *)
Definition dvb_dmxdev_events_is_full (events : dmxdev_events_queue) : Z :=
  let new_write_index := dvb_dmxdev_advance_event_idx (write_index events) in
  if new_write_index =? read_index events then 1 else 0.

(** The first half of [dvb_dmxdev_add_event], "check if we are adding an
    event that user already read its data": [inl] is the early [return 0],
    [inr] goes on to the enqueue step with the event as the updater left
    it. *)
Definition add_event_credit (events : dmxdev_events_queue)
    (event : dmx_filter_event)
    : dmxdev_events_queue + dmxdev_events_queue * dmx_filter_event :=
  if bytes_read_no_event events =? 0 then inr (events, event)
  else
    match update_data_event event (s32 (bytes_read_no_event events)) with
    | Some (res, event') =>
        if res =? 0 then inr (set_bytes_read_no_event events 0, event')
        else
          inl (set_bytes_read_no_event events
                 (u32 (bytes_read_no_event events - res)))
    | None => inl events
    end.

(** [dvb_dmxdev_add_event]: the return value and the queue.  The store
    [events->queue[events->write_index] = *event] is stdpp's list insert; an
    index outside the array, which the insert ignores, does not arise once
    the index went through [dvb_dmxdev_advance_event_idx]. *)
Definition dvb_dmxdev_add_event (events : dmxdev_events_queue)
    (event : dmx_filter_event) : Z * dmxdev_events_queue :=
  if mask_test (disable_mask (event_mask events)) (ev_type event) then
    (0, events)
  else
    match add_event_credit events event with
    | inl events => (0, events)
    | inr (events, event) =>
        let new_write_index :=
          dvb_dmxdev_advance_event_idx (write_index events) in
        if new_write_index =? read_index events then (- EOVERFLOW, events)
        else
          let events :=
            set_write_index
              (set_queue events
                 (<[Z.to_nat (write_index events) := event]> (queue events)))
              new_write_index in
          if mask_test (no_wakeup_mask (event_mask events)) (ev_type event)
          then (0, events)
          else
            (0, set_wakeup_events_counter events
                  (u32 (wakeup_events_counter events + 1)))
    end.

(** [dvb_dmxdev_remove_event]: the return value, the event handed out and
    the queue; [None] stands for a read outside the array. *)
Definition dvb_dmxdev_remove_event (events : dmxdev_events_queue)
    : option (Z * option dmx_filter_event * dmxdev_events_queue) :=
  if notified_index events =? write_index events then
    Some (- ENODATA, None, events)
  else
    event ← queue events !! Z.to_nat (notified_index events);
    let events :=
      set_notified_index events
        (dvb_dmxdev_advance_event_idx (notified_index events)) in
    if mask_test (no_wakeup_mask (event_mask events)) (ev_type event) then
      Some (0, Some event, events)
    else
      Some (0, Some event,
            set_wakeup_events_counter events
              (u32 (wakeup_events_counter events - 1))).

(** The first loop of [dvb_dmxdev_update_events], over the events between
    [read_index] and [notified_index].  [fuel] bounds the number of turns;
    [None] is a loop that has not come to its end within it, or a read
    outside the array. *)
Fixpoint update_events_notified (fuel : nat) (events : dmxdev_events_queue)
    (bytes_read : Z) : option (dmxdev_events_queue * Z) :=
  if negb (read_index events =? notified_index events)
     && negb (bytes_read =? 0)
  then
    match fuel with
    | O => None
    | S fuel =>
        event ← queue events !! Z.to_nat (read_index events);
        match update_data_event event bytes_read with
        | Some (res, event') =>
            let events :=
              set_queue events
                (<[Z.to_nat (read_index events) := event']> (queue events)) in
            if res =? 0 then update_events_notified fuel events 0
            else
              update_events_notified fuel
                (set_read_index events
                   (dvb_dmxdev_advance_event_idx (read_index events)))
                (s32 (bytes_read - res))
        | None =>
            update_events_notified fuel
              (set_read_index events
                 (dvb_dmxdev_advance_event_idx (read_index events)))
              bytes_read
        end
    end
  else Some (events, bytes_read).

(** Taking a pending event off at [notified_index], in the second loop. *)
Definition drop_pending (events : dmxdev_events_queue)
    (event : dmx_filter_event) : dmxdev_events_queue :=
  let events' :=
    set_notified_index events
      (dvb_dmxdev_advance_event_idx (notified_index events)) in
  if mask_test (no_wakeup_mask (event_mask events)) (ev_type event) then events'
  else
    set_wakeup_events_counter events' (u32 (wakeup_events_counter events - 1)).

(** The second loop of [dvb_dmxdev_update_events], over the events between
    [notified_index] and [write_index]. *)
Fixpoint update_events_pending (fuel : nat) (events : dmxdev_events_queue)
    (bytes_read : Z) : option (dmxdev_events_queue * Z) :=
  if negb (notified_index events =? write_index events)
     && negb (bytes_read =? 0)
  then
    match fuel with
    | O => None
    | S fuel =>
        event ← queue events !! Z.to_nat (notified_index events);
        let '(events, bytes_read) :=
          match update_data_event event bytes_read with
          | Some (res, event') =>
              let events :=
                set_queue events
                  (<[Z.to_nat (notified_index events) := event']>
                     (queue events)) in
              if res =? 0 then (events, 0)
              else (drop_pending events event, s32 (bytes_read - res))
          | None => (drop_pending events event, bytes_read)
          end in
        update_events_pending fuel
          (set_read_index events (notified_index events)) bytes_read
    end
  else Some (events, bytes_read).

(** [dvb_dmxdev_update_events]: the queue after the call, which returns 0.
    Each loop gets as many turns as the array has slots. *)
Definition dvb_dmxdev_update_events (events : dmxdev_events_queue)
    (bytes_read : Z) : option dmxdev_events_queue :=
  if negb (data_read_event_masked events =? 0) then Some events
  else
    '(events, bytes_read) ←
      update_events_notified (Z.to_nat DMX_EVENT_QUEUE_SIZE) events bytes_read;
    if bytes_read =? 0 then Some events
    else
      '(events, bytes_read) ←
        update_events_pending (Z.to_nat DMX_EVENT_QUEUE_SIZE) events
          bytes_read;
      if negb (bytes_read =? 0) then
        Some (set_bytes_read_no_event events
                (u32 (bytes_read_no_event events + bytes_read)))
      else Some events.

(** The indices stay inside the array, which has its declared length. *)
Definition queue_wf (events : dmxdev_events_queue) : Prop :=
  0 <= read_index events < DMX_EVENT_QUEUE_SIZE
  /\ 0 <= write_index events < DMX_EVENT_QUEUE_SIZE
  /\ 0 <= notified_index events < DMX_EVENT_QUEUE_SIZE
  /\ Z.of_nat (length (queue events)) = DMX_EVENT_QUEUE_SIZE.

(** Number of slots in use, from [read_index] up to [write_index]. *)
Definition stored_events (events : dmxdev_events_queue) : Z :=
  (write_index events - read_index events) mod DMX_EVENT_QUEUE_SIZE.

(** ** Producer side *)

(** [dvb_dmxdev_buffer_write]; [len > free] compares a [size_t] with an
    [ssize_t]. *)
Definition dvb_dmxdev_buffer_write (buf : dvb_ringbuffer) (src : list Z)
    : Z * dvb_ringbuffer :=
  let len := Z.of_nat (length src) in
  if len =? 0 then (0, buf)
  else if negb (bool_decide (is_Some (data buf))) then (0, buf)
  else if u64 (dvb_ringbuffer_free buf) <? len then (- EOVERFLOW, buf)
  else dvb_ringbuffer_write buf src.

(** Length of a segment handed to a callback; a NULL segment has none. *)
Definition seg_len (seg : option (list Z)) : Z :=
  Z.of_nat (length (default [] seg)).

(** The output buffer and event queue that the TS callbacks select: those of
    the DVR device for [DMX_OUT_TS_TAP], the filter's own otherwise. *)
Definition ts_buffer (dev : dmxdev) : dvb_ringbuffer :=
  if decide (pes_output (pes (filter dev)) = DMX_OUT_TS_TAP)
  then dvr_buffer dev else buffer (filter dev).

Definition ts_events (dev : dmxdev) : dmxdev_events_queue :=
  if decide (pes_output (pes (filter dev)) = DMX_OUT_TS_TAP)
  then dvr_output_events dev else events (filter dev).

Definition with_ts_buffer (dev : dmxdev) (b : dvb_ringbuffer) : dmxdev :=
  if decide (pes_output (pes (filter dev)) = DMX_OUT_TS_TAP)
  then with_dvr_buffer dev b
  else with_filter dev (with_buffer (filter dev) b).

Definition with_ts_events (dev : dmxdev) (e : dmxdev_events_queue) : dmxdev :=
  if decide (pes_output (pes (filter dev)) = DMX_OUT_TS_TAP)
  then with_dvr_output_events dev e
  else with_filter dev (with_events (filter dev) e).

Definition ts_vb2_streaming (dev : dmxdev) : bool :=
  if decide (pes_output (pes (filter dev)) = DMX_OUT_TS_TAP)
  then dvr_vb2_streaming dev else vb2_streaming (filter dev).

(** Recording outputs: [DMX_OUT_TS_TAP] or [DMX_OUT_TSDEMUX_TAP]. *)
Definition is_rec_output (output : dmx_output) : bool :=
  bool_decide (output = DMX_OUT_TS_TAP)
  || bool_decide (output = DMX_OUT_TSDEMUX_TAP).

(** [dvb_dmxdev_section_callback], the two-segment write callback of a
    section feed.  [priv] is [filter->priv]; a segment is [None] when its
    pointer is NULL.  With vb2 streaming the data goes to
    [dvb_vb2_fill_buffer] and the ring buffer is left alone. *)
Definition dvb_dmxdev_section_callback (buffer1 buffer2 : option (list Z))
    (priv : option dmxdev) : Z * option dmxdev :=
  match priv with
  | None => (- EINVAL, None)
  | Some dev =>
      let f := filter dev in
      let len := seg_len buffer1 + seg_len buffer2 in
      if negb (vb2_streaming f) && negb (error (buffer f) =? 0) then
        (0, Some dev)
      else if negb (error (buffer f) =? 0)
              || negb (bool_decide (state f = DMXDEV_STATE_GO))
              || negb (eos_state f =? 0) then
        (0, Some dev)
      else if negb (mask_test (disable_mask (event_mask (events f)))
                      DMX_EVENT_NEW_SECTION)
              && negb (dvb_dmxdev_events_is_full (events f) =? 0) then
        (0, Some dev)
      else
        let oneshot (f : dmxdev_filter) :=
          if negb (Z.land (sec_flags (sec f)) DMX_ONESHOT =? 0)
          then with_state f DMXDEV_STATE_DONE else f in
        if vb2_streaming f then (0, Some (with_filter dev (oneshot f)))
        else if len =? 0 then
          match buffer1, buffer2 with
          | None, None =>
              (0, Some (with_filter dev
                          (with_events f
                             (snd (dvb_dmxdev_add_event (events f)
                                     EvSectionCrcError)))))
          | _, _ => (0, Some dev)
          end
        else
          let offset := pwrite (buffer f) in
          let f := with_timer f None in
          if u64 (dvb_ringbuffer_free (buffer f)) <? len then
            (0, Some (with_filter dev
                        (with_buffer f (set_error (buffer f) (- EOVERFLOW)))))
          else
            let b := snd (dvb_dmxdev_buffer_write (buffer f)
                            (default [] buffer1)) in
            let b := snd (dvb_dmxdev_buffer_write b (default [] buffer2)) in
            let event :=
              EvNewSection
                {| section_base_offset := u32 offset;
                   section_start_offset := u32 offset;
                   section_total_length := u32 len;
                   section_actual_length := u32 len;
                   section_flags := None |} in
            let f :=
              with_events (with_buffer f b)
                (snd (dvb_dmxdev_add_event (events f) event)) in
            (0, Some (with_filter dev (oneshot f)))
  end.

(** [dvb_dmxdev_ts_callback], the two-segment write callback of a TS
    feed. *)
Definition dvb_dmxdev_ts_callback (buffer1 buffer2 : option (list Z))
    (priv : option dmxdev) : Z * option dmxdev :=
  match priv with
  | None => (- EINVAL, None)
  | Some dev =>
      let f := filter dev in
      let len := seg_len buffer1 + seg_len buffer2 in
      if bool_decide (pes_output (pes f) = DMX_OUT_DECODER)
         || negb (bool_decide (state f = DMXDEV_STATE_GO))
         || negb (eos_state f =? 0) then
        (0, Some dev)
      else if ts_vb2_streaming dev then (0, Some dev)
      else if negb (error (ts_buffer dev) =? 0) then
        (error (ts_buffer dev), Some dev)
      else
        let events :=
          if current_event_data_size (ts_events dev) =? 0
          then set_current_event_start_offset (ts_events dev)
                 (u32 (pwrite (ts_buffer dev)))
          else ts_events dev in
        let dev := with_ts_events dev events in
        if u64 (dvb_ringbuffer_free (ts_buffer dev)) <? len then
          (- EOVERFLOW,
           Some (with_ts_buffer dev (set_error (ts_buffer dev) (- EOVERFLOW))))
        else if negb (len =? 0) then
          let b := snd (dvb_dmxdev_buffer_write (ts_buffer dev)
                          (default [] buffer1)) in
          let b := snd (dvb_dmxdev_buffer_write b (default [] buffer2)) in
          let dev := with_ts_buffer dev b in
          let events :=
            set_current_event_data_size events
              (u32 (current_event_data_size events + len)) in
          let events :=
            if is_rec_output (pes_output (pes f))
               && (rec_chunk_size (pes f) <=? current_event_data_size events)
            then
              let event :=
                EvNewRecChunk
                  {| recording_chunk_offset :=
                       current_event_start_offset events;
                     recording_chunk_size :=
                       current_event_data_size events |} in
              set_current_event_data_size
                (snd (dvb_dmxdev_add_event events event)) 0
            else events in
          (0, Some (with_ts_events dev events))
        else (0, Some dev)
  end.

(** [dvb_dmxdev_section_event_cb], the data-ready callback of a section
    feed. *)
Definition dvb_dmxdev_section_event_cb (priv : option dmxdev)
    (dmx_data_ready : dmx_data_ready) : Z * option dmxdev :=
  match priv with
  | None => (- EINVAL, None)
  | Some dev =>
      let f := filter dev in
      let add (event : dmx_filter_event) :=
        (0, Some (with_filter dev
                    (with_events f
                       (snd (dvb_dmxdev_add_event (events f) event))))) in
      if (error (buffer f) =? - ETIMEDOUT)
         || negb (bool_decide (state f = DMXDEV_STATE_GO))
         || negb (eos_state f =? 0) then
        (0, Some dev)
      else if data_length dmx_data_ready =? 0 then
        match status dmx_data_ready with
        | DMX_CRC_ERROR => add EvSectionCrcError
        | DMX_OK_EOS => add EvEos
        | DMX_OK_MARKER => add (EvMarker (marker_id dmx_data_ready))
        | DMX_OK_SCRAMBLING_STATUS =>
            add (EvScramblingStatusChange (scrambling_bits dmx_data_ready))
        | DMX_OVERRUN_ERROR =>
            (0, Some (with_filter dev
                        (with_buffer f (set_error (buffer f) (- EOVERFLOW)))))
        | _ => (0, Some dev)
        end
      else
        let event :=
          EvNewSection
            {| section_base_offset := u32 (pwrite (buffer f));
               section_start_offset := u32 (pwrite (buffer f));
               section_total_length := u32 (data_length dmx_data_ready);
               section_actual_length := u32 (data_length dmx_data_ready);
               section_flags :=
                 Some (if bool_decide
                            (status dmx_data_ready = DMX_MISSED_ERROR)
                       then DMX_FILTER_CC_ERROR else 0) |} in
        if dvb_ringbuffer_free (buffer f) <? data_length dmx_data_ready then
          (0, Some dev)
        else
          let '(res, events) := dvb_dmxdev_add_event (events f) event in
          (res,
           Some (with_filter dev
                   (with_buffer (with_events f events)
                      (DVB_RINGBUFFER_PUSH (buffer f)
                         (data_length dmx_data_ready)))))
  end.

(** The [while] loop of [dvb_dmxdev_ts_event_cb] that cuts the accumulated
    bytes into recording chunks; [None] when it has not come to its end
    within [fuel] turns. *)
Fixpoint rec_chunk_loop (fuel : nat) (events : dmxdev_events_queue)
    (chunk buffer_size : Z) : option dmxdev_events_queue :=
  if chunk <=? current_event_data_size events then
    match fuel with
    | O => None
    | S fuel =>
        let event :=
          EvNewRecChunk
            {| recording_chunk_offset := current_event_start_offset events;
               recording_chunk_size := chunk |} in
        let events :=
          set_current_event_data_size events
            (u32 (current_event_data_size events - chunk)) in
        let events :=
          set_current_event_start_offset events
            (u32 (u32 (current_event_start_offset events + chunk)
                  mod buffer_size)) in
        rec_chunk_loop fuel (snd (dvb_dmxdev_add_event events event))
          chunk buffer_size
    end
  else Some events.





(** ** Consumer side *)

(** What a reader meets while it sleeps in [wait_event_interruptible]:
    other threads (producer callbacks, control calls, teardown) that change
    the device, or a signal; [lock_interrupted] tells whether the
    [mutex_lock_interruptible] that follows the wait is interrupted by it. *)
Inductive wakeup : Type :=
  | Activity (run : dmxdev -> dmxdev)
  | Signal (lock_interrupted : bool).

(** The two ways [dvb_dmxdev_buffer_read] is called: with
    [(dfil, &dfil->buffer)] by the demux device and with
    [(NULL, &dmxdev->dvr_buffer)] by the DVR device. *)
Inductive read_from : Set :=
  | FromFilter
  | FromDvr.

Definition read_src (from : read_from) (dev : dmxdev) : dvb_ringbuffer :=
  match from with
  | FromFilter => buffer (filter dev)
  | FromDvr => dvr_buffer dev
  end.

Definition with_read_src (from : read_from) (dev : dmxdev)
    (src : dvb_ringbuffer) : dmxdev :=
  match from with
  | FromFilter => with_filter dev (with_buffer (filter dev) src)
  | FromDvr => with_dvr_buffer dev src
  end.

(** [filter && state != DMXDEV_STATE_GO && state != DMXDEV_STATE_DONE] *)
Definition filter_not_running (from : read_from) (dev : dmxdev) : bool :=
  match from with
  | FromFilter =>
      negb (bool_decide (state (filter dev) = DMXDEV_STATE_GO))
      && negb (bool_decide (state (filter dev) = DMXDEV_STATE_DONE))
  | FromDvr => false
  end.

(** [dvb_dmxdev_check_data], the condition a reader sleeps on. *)
Definition dvb_dmxdev_check_data (from : read_from) (dev : dmxdev) : bool :=
  let src := read_src from dev in
  negb (bool_decide (is_Some (data src)))
  || negb (dvb_ringbuffer_empty src)
  || negb (error src =? 0)
  || filter_not_running from dev.

(** [wait_event_interruptible(src->queue, dvb_dmxdev_check_data(...))]: the
    return value, whether the lock taken next is interrupted, the device
    as the reader finds it and the rest of what is to come.  [None] is a
    reader that is still asleep when [env] is used up. *)
Fixpoint wait_event_interruptible (from : read_from) (env : list wakeup)
    (dev : dmxdev) : option (Z * bool * dmxdev * list wakeup) :=
  if dvb_dmxdev_check_data from dev then Some (0, false, dev, env)
  else
    match env with
    | [] => None
    | Activity run :: env => wait_event_interruptible from env (run dev)
    | Signal lock_interrupted :: env =>
        Some (- ERESTARTSYS, lock_interrupted, dev, env)
    end.

(** What a read hands back: the return value, the bytes copied to the
    caller's buffer, the device and the rest of the environment. *)
Record read_result : Type := {
  ret : Z;
  user_buf : list Z;
  dev_after : dmxdev;
  env_after : list wakeup
}.

(** [return (count - todo) ? (count - todo) : ret], after the loop. *)
Definition read_return (count todo ret : Z) : Z :=
  if count - todo =? 0 then ret else count - todo.

(** The [for] loop of [dvb_dmxdev_buffer_read] with the return that follows
    it.  [None] is a reader asleep for good, or a loop that has not come to
    its end within [fuel] turns. *)
Fixpoint buffer_read_loop (fuel : nat) (from : read_from)
    (non_blocking : bool) (count todo ret : Z) (out : list Z)
    (env : list wakeup) (dev : dmxdev) : option read_result :=
  let leave (ret : Z) (dev : dmxdev) (env : list wakeup) :=
    Some {| ret := read_return count todo ret; user_buf := out;
            dev_after := dev; env_after := env |} in
  if todo <=? 0 then leave ret dev env
  else
    match fuel with
    | O => None
    | S fuel =>
        if non_blocking && dvb_ringbuffer_empty (read_src from dev) then
          leave (- EWOULDBLOCK) dev env
        else if match from with
                | FromFilter =>
                    bool_decide (state (filter dev) = DMXDEV_STATE_DONE)
                    && dvb_ringbuffer_empty (read_src from dev)
                | FromDvr => false
                end then
          leave ret dev env
        else
          '(wret, lock_interrupted, dev, env) ←
            wait_event_interruptible from env dev;
          let src := read_src from dev in
          if match from with
             | FromFilter => lock_interrupted
             | FromDvr => false
             end then
            Some {| ret := - ERESTARTSYS; user_buf := out; dev_after := dev;
                    env_after := env |}
          else if filter_not_running from dev then
            Some {| ret := - ENODEV; user_buf := out; dev_after := dev;
                    env_after := env |}
          else if wret <? 0 then leave wret dev env
          else if negb (bool_decide (is_Some (data src))) then
            Some {| ret := 0; user_buf := out; dev_after := dev;
                    env_after := env |}
          else if negb (error src =? 0) then
            leave (error src) (with_read_src from dev (set_error src 0)) env
          else
            let avail := dvb_ringbuffer_avail src in
            let avail := if todo <? avail then todo else avail in
            let '(r, bytes, src) := dvb_ringbuffer_read_user src avail in
            if r <? 0 then leave r (with_read_src from dev src) env
            else
              buffer_read_loop fuel from non_blocking count (todo - r) r
                (out ++ bytes) env (with_read_src from dev src)
    end.

(** [dvb_dmxdev_buffer_read].  A turn of the loop that goes on has copied at
    least one byte unless the cursors are out of range, so [count] turns
    are as many as the loop can take. *)
Definition dvb_dmxdev_buffer_read (from : read_from) (non_blocking : bool)
    (count : Z) (env : list wakeup) (dev : dmxdev) : option read_result :=
  let src := read_src from dev in
  if negb (bool_decide (is_Some (data src))) then
    Some {| ret := 0; user_buf := []; dev_after := dev; env_after := env |}
  else if negb (error src =? 0) then
    Some {| ret := error src; user_buf := [];
            dev_after := with_read_src from dev (set_error src 0);
            env_after := env |}
  else
    buffer_read_loop (Z.to_nat count) from non_blocking count count 0 []
      env dev.

(** [copy_from_user(dfil->secheader - dfil->todo, buf, result)]: the bytes
    just read go into the header array from index [-todo] on. *)
Fixpoint store_header (secheader : list Z) (i : nat) (bytes : list Z)
    : list Z :=
  match bytes with
  | [] => secheader
  | b :: bytes => store_header (<[i := b]> secheader) (S i) bytes
  end.

(** The second half of [dvb_dmxdev_read_sec]: the payload, at most
    [dfil->todo] bytes of it.  [done] bytes, [out], are already with the
    caller. *)
Definition read_sec_payload (non_blocking : bool) (count done : Z)
    (out : list Z) (env : list wakeup) (dev : dmxdev) : option read_result :=
  let count := if todo (filter dev) <? count then todo (filter dev)
               else count in
  r ← dvb_dmxdev_buffer_read FromFilter non_blocking count env dev;
  let result := s32 (ret r) in
  if result <? 0 then
    Some {| ret := result; user_buf := out ++ user_buf r;
            dev_after := dev_after r; env_after := env_after r |}
  else
    let dfil := filter (dev_after r) in
    Some {| ret := result + done; user_buf := out ++ user_buf r;
            dev_after :=
              with_filter (dev_after r) (with_todo dfil (todo dfil - result));
            env_after := env_after r |}.

(** [dvb_dmxdev_read_sec]; the caller's memory is taken to be readable, so
    that [copy_from_user] does not fail with [-EFAULT]. *)
Definition dvb_dmxdev_read_sec (non_blocking : bool) (count : Z)
    (env : list wakeup) (dev : dmxdev) : option read_result :=
  let dfil := filter dev in
  if todo dfil <=? 0 then
    let hcount := 3 + todo dfil in
    let hcount := if count <? hcount then count else hcount in
    if hcount =? 0 then
      Some {| ret := 0; user_buf := []; dev_after := dev; env_after := env |}
    else
      r ← dvb_dmxdev_buffer_read FromFilter non_blocking hcount env dev;
      let result := s32 (ret r) in
      let dev := dev_after r in
      let dfil := filter dev in
      if result <? 0 then
        Some {| ret := result; user_buf := user_buf r;
                dev_after := with_filter dev (with_todo dfil 0);
                env_after := env_after r |}
      else
        let dfil :=
          with_secheader dfil
            (store_header (secheader dfil) (Z.to_nat (- todo dfil))
               (user_buf r)) in
        let done := result in
        let count := count - result in
        let dfil := with_todo dfil (todo dfil - result) in
        if -3 <? todo dfil then
          Some {| ret := done; user_buf := user_buf r;
                  dev_after := with_filter dev dfil;
                  env_after := env_after r |}
        else
          let dfil :=
            with_todo dfil
              (Z.land
                 (Z.lor (Z.shiftl (default 0 (secheader dfil !! 1%nat)) 8)
                    (default 0 (secheader dfil !! 2%nat)))
                 4095) in
          if count =? 0 then
            Some {| ret := done; user_buf := user_buf r;
                    dev_after := with_filter dev dfil;
                    env_after := env_after r |}
          else
            read_sec_payload non_blocking count done (user_buf r)
              (env_after r) (with_filter dev dfil)
  else read_sec_payload non_blocking count 0 [] env dev.

(** [dvb_dmxdev_flush_data], as far as the device goes; what the engine does
    at [flush_buffer] is its own.  The output of a PES filter with
    [DMX_OUT_TS_TAP] is the DVR buffer. *)
Definition dvb_dmxdev_flush_data (dev : dmxdev) (length : Z) : dmxdev :=
  let f := filter dev in
  let flush (buffer : dvb_ringbuffer) (events : dmxdev_events_queue) :=
    let buffer := set_error (DVB_RINGBUFFER_SKIP buffer length) 0 in
    (buffer,
     set_current_event_start_offset (dvb_dmxdev_flush_events events)
       (u32 (pwrite buffer))) in
  match type f, pes_output (pes f) with
  | DMXDEV_TYPE_PES, DMX_OUT_TS_TAP =>
      let '(b, e) := flush (dvr_buffer dev) (dvr_output_events dev) in
      with_dvr_output_events (with_dvr_buffer dev b) e
  | _, _ =>
      let '(b, e) := flush (buffer f) (events f) in
      with_filter dev (with_events (with_buffer f b) e)
  end.

(** The global [overflow_auto_flush], as a call finds it: it is
    initialised to 1, and [dvb_dmxdev_init] sets it to 0 when the demux
    does not have [DMX_CAP_AUTO_BUFFER_FLUSH]. *)
Variable overflow_auto_flush : Z.

(** [dvb_dmxdev_auto_flush_buffer] *)
Definition dvb_dmxdev_auto_flush_buffer (dev : dmxdev)
    (buf : dvb_ringbuffer) : dmxdev :=
  if negb (overflow_auto_flush =? 0) then
    dvb_dmxdev_flush_data dev (dvb_ringbuffer_avail buf)
  else dev.


(** [dvb_dmxdev_release_data] *)
Definition dvb_dmxdev_release_data (dmxdevfilter : dmxdev_filter)
    (bytes_count : Z) : option (Z * dmxdev_filter) :=
  if negb (bool_decide (is_Some (data (buffer dmxdevfilter)))) then
    Some (- EINVAL, dmxdevfilter)
  else if bytes_count =? 0 then Some (0, dmxdevfilter)
  else if dvb_ringbuffer_avail (buffer dmxdevfilter) <? bytes_count then
    Some (- EINVAL, dmxdevfilter)
  else
    events ← dvb_dmxdev_update_events (events dmxdevfilter) (s32 bytes_count);
    Some (0,
          with_events
            (with_buffer dmxdevfilter
               (DVB_RINGBUFFER_SKIP (buffer dmxdevfilter) bytes_count))
            events).

(** [f_flags & O_ACCMODE] *)
Inductive access_mode : Set :=
  | O_RDONLY
  | O_WRONLY
  | O_RDWR.

(** [dvb_dvr_release_data] *)
Definition dvb_dvr_release_data (dev : dmxdev) (f_flags : access_mode)
    (bytes_count : Z) : option (Z * dmxdev) :=
  match f_flags with
  | O_RDONLY =>
      if bytes_count =? 0 then Some (0, dev)
      else if dvb_ringbuffer_avail (dvr_buffer dev) <? bytes_count then
        Some (- EINVAL, dev)
      else
        events ←
          dvb_dmxdev_update_events (dvr_output_events dev) (s32 bytes_count);
        Some (0,
              with_dvr_output_events
                (with_dvr_buffer dev
                   (DVB_RINGBUFFER_SKIP (dvr_buffer dev) bytes_count))
                events)
  | _ => Some (- EINVAL, dev)
  end.

(** ** Configuration and the section timer *)

(** [dvb_dmxdev_set_buffer_size]; [vmalloc_user] is the allocator, which
    answers [None] when it has no memory. *)
Definition dvb_dmxdev_set_buffer_size (vmalloc_user : Z -> option (list Z))
    (dmxdevfilter : dmxdev_filter) (sz : Z) : Z * dmxdev_filter :=
  let buf := buffer dmxdevfilter in
  if size buf =? sz then (0, dmxdevfilter)
  else if (sz =? 0)
          || bool_decide (buffer_mode dmxdevfilter = DMX_BUFFER_MODE_EXTERNAL)
  then (- EINVAL, dmxdevfilter)
  else if state_value DMXDEV_STATE_GO <=? state_value (state dmxdevfilter)
  then (- EBUSY, dmxdevfilter)
  else
    match vmalloc_user sz with
    | None => (- ENOMEM, dmxdevfilter)
    | Some newmem =>
        (0, with_buffer dmxdevfilter
              (dvb_ringbuffer_reset
                 {| data := Some newmem; size := sz; pread := pread buf;
                    pwrite := pwrite buf; error := error buf |}))
    end.

(** [dvb_dmxdev_set_tsp_out_format] *)
Definition dvb_dmxdev_set_tsp_out_format (dmxdevfilter : dmxdev_filter)
    (dmx_tsp_format : Z) : Z * dmxdev_filter :=
  if state_value DMXDEV_STATE_GO <=? state_value (state dmxdevfilter) then
    (- EBUSY, dmxdevfilter)
  else if (DMX_TSP_FORMAT_192_HEAD <? dmx_tsp_format)
          || (dmx_tsp_format <? DMX_TSP_FORMAT_188) then
    (- EINVAL, dmxdevfilter)
  else (0, with_dmx_tsp_format dmxdevfilter dmx_tsp_format).

(** [dvb_dmxdev_set_event_mask]; [event_mask] is [None] for a NULL
    pointer. *)
Definition dvb_dmxdev_set_event_mask (dmxdevfilter : dmxdev_filter)
    (event_mask : option dmx_events_mask) : Z * dmxdev_filter :=
  match event_mask with
  | None => (- EINVAL, dmxdevfilter)
  | Some event_mask =>
      if DMX_EVENT_QUEUE_SIZE <=? wakeup_threshold event_mask then
        (- EINVAL, dmxdevfilter)
      else if bool_decide (state dmxdevfilter = DMXDEV_STATE_GO) then
        (- EBUSY, dmxdevfilter)
      else
        let keep := Z.lnot (u32 (event_bit DMX_EVENT_BUFFER_OVERFLOW)) in
        (0, with_events dmxdevfilter
              (set_event_mask (events dmxdevfilter)
                 {| disable_mask := Z.land (disable_mask event_mask) keep;
                    no_wakeup_mask := Z.land (no_wakeup_mask event_mask) keep;
                    wakeup_threshold := wakeup_threshold event_mask |}))
  end.

(** [dvb_dmxdev_filter_timeout], the function of the filter's timer. *)
Definition dvb_dmxdev_filter_timeout (dmxdevfilter : dmxdev_filter)
    : dmxdev_filter :=
  let f :=
    with_buffer dmxdevfilter (set_error (buffer dmxdevfilter) (- ETIMEDOUT)) in
  let f := with_state f DMXDEV_STATE_TIMEDOUT in
  with_events f (snd (dvb_dmxdev_add_event (events f) EvSectionTimeout)).

(** [dvb_dmxdev_filter_timer], called by [dvb_dmxdev_filter_start] once a
    section filter has started; [jiffies] is the time of the call. *)
Definition dvb_dmxdev_filter_timer (jiffies : Z)
    (dmxdevfilter : dmxdev_filter) : dmxdev_filter :=
  let f := with_timer dmxdevfilter None in
  if negb (sec_timeout (sec f) =? 0) then
    with_timer f
      (Some (u64 (jiffies + 1
                  + u32 (HZ / 2 + HZ * sec_timeout (sec f)) / 1000)))
  else f.

(** The kernel's timer wheel at time [jiffies]: a pending timer that has
    reached its expiry is taken off and its function runs. *)
Definition run_timer (jiffies : Z) (dmxdevfilter : dmxdev_filter)
    : option dmxdev_filter :=
  match timer dmxdevfilter with
  | Some expires =>
      if expires <=? jiffies then
        Some (dvb_dmxdev_filter_timeout (with_timer dmxdevfilter None))
      else None
  | None => None
  end.

(** ** Events and status for the consumer *)

(** [dvb_dmxdev_get_event]: the return value, the event handed to the
    caller ([None] when the call fails) and the device.  With an overflow
    pending only [event->type] is written. *)
Definition dvb_dmxdev_get_event (dev : dmxdev)
    : option (Z * option dmx_filter_event * dmxdev) :=
  let f := filter dev in
  '(res, event, queue_after) ←
    (if error (buffer f) =? - EOVERFLOW
     then Some (0, Some EvBufferOverflow, events f)
     else dvb_dmxdev_remove_event (events f));
  match event with
  | None => Some (res, None, dev)
  | Some event =>
      let overflow :=
        bool_decide (ev_type event = DMX_EVENT_BUFFER_OVERFLOW) in
      let f := with_events f queue_after in
      let f :=
        if overflow
           || bool_decide (ev_type event = DMX_EVENT_SECTION_TIMEOUT)
        then with_buffer f (set_error (buffer f) 0) else f in
      let dev := with_filter dev f in
      let dev :=
        if overflow
        then dvb_dmxdev_auto_flush_buffer dev (buffer (filter dev))
        else dev in
      let f := filter dev in
      let dev :=
        if negb overflow && negb (data_read_event_masked (events f) =? 0)
        then
          with_filter dev
            (with_events f
               (set_read_index (events f)
                  (dvb_dmxdev_advance_event_idx (read_index (events f)))))
        else dev in
      Some (res, Some event, dev)
  end.

(** [struct dmx_buffer_status] (uapi dmx.h): [error] is an [int], the other
    members are [unsigned int]. *)
Record dmx_buffer_status : Set := {
  status_error : Z;
  status_fullness : Z;
  status_free_bytes : Z;
  status_read_offset : Z;
  status_write_offset : Z;
  status_size : Z
}.

(** [dvb_dmxdev_get_buffer_status].  [get_decoder_buff_status] is what the
    engine's function of that name returns and writes for a decoder filter,
    or [None] when the feed has no such function; [st_in] is the caller's
    structure as it comes in. *)
Definition dvb_dmxdev_get_buffer_status
    (get_decoder_buff_status : option (Z * dmx_buffer_status))
    (dev : dmxdev) (st_in : dmx_buffer_status)
    : Z * dmx_buffer_status * dmxdev :=
  let f := filter dev in
  let buf := buffer f in
  match type f, pes_output (pes f) with
  | DMXDEV_TYPE_PES, DMX_OUT_DECODER =>
      match get_decoder_buff_status with
      | Some (ret, st) => (ret, st, dev)
      | None => (- ENODEV, st_in, dev)
      end
  | _, _ =>
      if negb (bool_decide (is_Some (data buf))) then
        (- EINVAL, st_in, dev)
      else
        let st :=
          {| status_error := error buf;
             status_fullness := u32 (dvb_ringbuffer_avail buf);
             status_free_bytes := u32 (dvb_ringbuffer_free buf);
             status_read_offset := u32 (pread buf);
             status_write_offset := u32 (pwrite buf);
             status_size := u32 (size buf) |} in
        let dev := with_filter dev (with_buffer f (set_error buf 0)) in
        let dev :=
          if status_error st =? - EOVERFLOW
          then dvb_dmxdev_auto_flush_buffer dev (buffer (filter dev))
          else dev in
        (0, st, dev)
  end.

(** [dvb_dmxdev_flush_buffer]; [flush_result] is what the engine returns at
    [flush_buffer], 0 when the feed has no such function. *)
Definition dvb_dmxdev_flush_buffer (flush_result : Z) (dev : dmxdev)
    : Z * dmxdev :=
  if negb (bool_decide (state (filter dev) = DMXDEV_STATE_GO)) then
    (- EINVAL, dev)
  else
    (flush_result,
     dvb_dmxdev_flush_data dev (dvb_ringbuffer_avail (buffer (filter dev)))).

(** [dvb_dmxdev_get_event_mask]; [mask] is [None] for a NULL
    pointer, and the result is what the pointer leads to afterwards. *)
Definition dvb_dmxdev_get_event_mask (dmxdevfilter : dmxdev_filter)
    (mask : option dmx_events_mask) : Z * option dmx_events_mask :=
  match mask with
  | None => (- EINVAL, None)
  | Some _ => (0, Some (event_mask (events dmxdevfilter)))
  end.

(** The bits of a poll mask (the kernel's poll.h). *)
Variable POLLIN : Z.
Variable POLLPRI : Z.
Variable POLLERR : Z.
Variable POLLRDNORM : Z.

(** [dvb_demux_poll]; [vb2_poll] is what [dvb_vb2_poll] returns for a
    filter that streams through vb2.  The return type is [unsigned int]. *)
Definition dvb_demux_poll (vb2_poll : Z) (priv : option dmxdev_filter) : Z :=
  match priv with
  | None => u32 (- EINVAL)
  | Some dmxdevfilter =>
      if vb2_streaming dmxdevfilter then vb2_poll
      else if negb (bool_decide (state dmxdevfilter = DMXDEV_STATE_GO))
              && negb (bool_decide (state dmxdevfilter = DMXDEV_STATE_DONE))
              && negb (bool_decide
                         (state dmxdevfilter = DMXDEV_STATE_TIMEDOUT)) then
        0
      else
        let mask := 0 in
        let mask :=
          if negb (error (buffer dmxdevfilter) =? 0) then
            let mask :=
              Z.lor mask (Z.lor (Z.lor POLLIN POLLRDNORM) POLLERR) in
            if error (buffer dmxdevfilter) =? - EOVERFLOW
            then Z.lor mask POLLPRI else mask
          else mask in
        let mask :=
          if negb (dvb_ringbuffer_empty (buffer dmxdevfilter))
          then Z.lor mask (Z.lor POLLIN POLLRDNORM) else mask in
        if wakeup_threshold (event_mask (events dmxdevfilter))
           <=? wakeup_events_counter (events dmxdevfilter)
        then Z.lor mask POLLPRI else mask
  end.

(** ** Further control calls *)

(** [dvb_dmxdev_set_buffer_mode].  [mode] is [None] for a value that is
    neither of the two enumerators; [can_map] tells whether the demux has
    both [map_buffer] and [unmap_buffer].  Unmapping the external buffer
    and freeing the internal one are the engine's and the allocator's. *)
Definition dvb_dmxdev_set_buffer_mode (can_map : bool)
    (dmxdevfilter : dmxdev_filter) (mode : option dmx_buffer_mode)
    : Z * dmxdev_filter :=
  if state_value DMXDEV_STATE_GO <=? state_value (state dmxdevfilter) then
    (- EBUSY, dmxdevfilter)
  else
    match mode with
    | None => (- EINVAL, dmxdevfilter)
    | Some mode =>
        if bool_decide (mode = DMX_BUFFER_MODE_EXTERNAL) && negb can_map then
          (- EINVAL, dmxdevfilter)
        else if bool_decide (mode = buffer_mode dmxdevfilter) then
          (0, dmxdevfilter)
        else
          (0,
           with_buffer_mode
             (with_buffer dmxdevfilter
                (set_data (buffer dmxdevfilter) None))
             mode)
    end.

(** [dvb_dmxdev_feed_stop], as far as the filter goes; stopping the feeds
    is the engine's. *)
Definition dvb_dmxdev_feed_stop (dmxdevfilter : dmxdev_filter)
    : Z * dmxdev_filter :=
  let f := with_state dmxdevfilter DMXDEV_STATE_SET in
  match type f with
  | DMXDEV_TYPE_SEC => (0, with_timer f None)
  | DMXDEV_TYPE_PES => (0, f)
  | DMXDEV_TYPE_NONE => (- EINVAL, f)
  end.

(** [dvb_dmxdev_flush_output] *)
Definition dvb_dmxdev_flush_output (f : dmxdev_filter) : dmxdev_filter :=
  with_buffer (with_events f (dvb_dmxdev_flush_events (events f)))
    (dvb_ringbuffer_flush (buffer f)).

(** [dvb_dmxdev_filter_stop], as far as the filter itself goes: releasing
    the feeds and restarting the section feed of another filter on the same
    PID are left to the engine.  [sec_feed] tells whether
    [feed.sec.feed] is set. *)
Definition dvb_dmxdev_filter_stop (sec_feed : bool)
    (dmxdevfilter : dmxdev_filter) : Z * dmxdev_filter :=
  if state_value (state dmxdevfilter) <? state_value DMXDEV_STATE_GO then
    (0, dmxdevfilter)
  else
    let flush (f : dmxdev_filter) :=
      let f := dvb_dmxdev_flush_output f in
      (0, with_buffer f (dvb_ringbuffer_reset (buffer f))) in
    match type dmxdevfilter with
    | DMXDEV_TYPE_SEC =>
        if sec_feed then flush (snd (dvb_dmxdev_feed_stop dmxdevfilter))
        else flush dmxdevfilter
    | DMXDEV_TYPE_PES => flush (snd (dvb_dmxdev_feed_stop dmxdevfilter))
    | DMXDEV_TYPE_NONE =>
        if bool_decide (state dmxdevfilter = DMXDEV_STATE_ALLOCATED)
        then (0, dmxdevfilter) else (- EINVAL, dmxdevfilter)
    end.

(** [struct dmxdev_feed], one PID of a PES filter: [feed_ts] tells whether
    the pointer [ts] to the engine's feed is set.  The list [feed.ts] of a
    filter is kept beside the filter, first entry first. *)
Record dmxdev_feed : Set := {
  feed_pid : Z;
  feed_ts : bool
}.

(** [dvb_dmxdev_add_pid].  [kzalloc] tells whether the allocation succeeds;
    [start_feed] is [dvb_dmxdev_start_feed] on the new feed, which runs
    only on a filter that was started: its return value and the feed as it
    leaves it. *)
Definition dvb_dmxdev_add_pid (kzalloc : bool)
    (start_feed : dmxdev_feed -> Z * dmxdev_feed)
    (filter : dmxdev_filter) (feeds : list dmxdev_feed) (pid : Z)
    : Z * list dmxdev_feed :=
  if match type filter with DMXDEV_TYPE_PES => false | _ => true end
     || (state_value (state filter) <? state_value DMXDEV_STATE_SET) then
    (- EINVAL, feeds)
  else if negb (bool_decide (pes_output (pes filter) = DMX_OUT_TSDEMUX_TAP))
          && negb (bool_decide (feeds = [])) then
    (- EINVAL, feeds)
  else if negb kzalloc then (- ENOMEM, feeds)
  else
    let feed := {| feed_pid := pid; feed_ts := false |} in
    let '(ret, feed) :=
      if state_value DMXDEV_STATE_GO <=? state_value (state filter)
      then start_feed feed else (0, feed) in
    if ret =? 0 then (0, feed :: feeds) else (ret, feeds).

(** [dvb_dmxdev_remove_pid]; stopping and releasing the engine's feed is
    the engine's. *)
Definition dvb_dmxdev_remove_pid (filter : dmxdev_filter)
    (feeds : list dmxdev_feed) (pid : Z) : Z * list dmxdev_feed :=
  if match type filter with DMXDEV_TYPE_PES => false | _ => true end
     || (state_value (state filter) <? state_value DMXDEV_STATE_SET) then
    (- EINVAL, feeds)
  else if Z.of_nat (length feeds) <=? 1 then (- EINVAL, feeds)
  else (0, List.filter (fun feed => negb (feed_pid feed =? pid)) feeds).

(** [invert_mode]: [mode] is the array [filter->mode[DMX_FILTER_SIZE]] of
    bytes, each of which the loop visits. *)
Definition invert_mode (mode : list Z) : list Z :=
  map (fun m => Z.lxor m 255 mod 2 ^ 8) mode.

(** The smallest recording chunk (dmxdev.h). *)
Variable DMX_REC_BUFF_CHUNK_MIN_SIZE : Z.

Definition with_pes (f : dmxdev_filter) (v : dmx_pes_filter_params)
    : dmxdev_filter :=
  {| type := type f; state := state f; buffer := buffer f;
     events := events f; sec := sec f; pes := v; eos_state := eos_state f;
     todo := todo f; secheader := secheader f; buffer_mode := buffer_mode f;
     dmx_tsp_format := dmx_tsp_format f; timer := timer f;
     vb2_streaming := vb2_streaming f |}.

(** [dvb_dmxdev_filter_start_pes], as far as the device goes: the size of
    the recording chunks is brought into range and cut down to whole
    packets, and [data_read_event_masked] is set for the queue of the
    output.  Starting the feeds, and releasing them when one of them fails,
    is the engine's; the function returns 0 in either case. *)
Definition dvb_dmxdev_filter_start_pes (dev : dmxdev) : Z * dmxdev :=
  let f := filter dev in
  let chunk := rec_chunk_size (pes f) in
  let chunk :=
    if chunk <? DMX_REC_BUFF_CHUNK_MIN_SIZE
    then u32 DMX_REC_BUFF_CHUNK_MIN_SIZE else chunk in
  let chunk :=
    if size (buffer f) <=? chunk
    then u32 (Z.shiftr (size (buffer f)) 2) else chunk in
  let tsp_size :=
    if dmx_tsp_format f =? DMX_TSP_FORMAT_188 then 188 else 192 in
  let chunk := u32 (chunk / tsp_size) in
  let chunk := u32 (chunk * tsp_size) in
  let f :=
    with_pes f
      {| pes_pid := pes_pid (pes f); pes_output := pes_output (pes f);
         rec_chunk_size := chunk |} in
  let masked (q : dmxdev_events_queue) (type : dmx_event) :=
    set_data_read_event_masked q
      (Z.land (disable_mask (event_mask q)) (event_bit type)) in
  match pes_output (pes f) with
  | DMX_OUT_TS_TAP =>
      (0,
       with_dvr_output_events (with_filter dev f)
         (masked (dvr_output_events dev) DMX_EVENT_NEW_REC_CHUNK))
  | DMX_OUT_TSDEMUX_TAP =>
      (0, with_filter dev
            (with_events f (masked (events f) DMX_EVENT_NEW_REC_CHUNK)))
  | DMX_OUT_TAP =>
      (0, with_filter dev
            (with_events f (masked (events f) DMX_EVENT_NEW_PES)))
  | DMX_OUT_DECODER =>
      (0, with_filter dev
            (with_events f (set_data_read_event_masked (events f) 1)))
  end.

(** ** Notions the statements use *)

(** A reader that really sleeps: it may block, nothing is there for it yet,
    and the filter, when there is one, is running and not done. *)
Definition reader_blocks (from : read_from) (non_blocking : bool)
    (dev : dmxdev) : Prop :=
  non_blocking = false
  /\ dvb_dmxdev_check_data from dev = false
  /\ match from with
     | FromFilter => state (filter dev) = DMXDEV_STATE_GO
     | FromDvr => True
     end.

(** Two states of a queue with the same indices, stored events and wake-up
    count. *)
Definition same_slots (e e' : dmxdev_events_queue) : Prop :=
  write_index e' = write_index e
  /\ read_index e' = read_index e
  /\ notified_index e' = notified_index e
  /\ queue e' = queue e
  /\ wakeup_events_counter e' = wakeup_events_counter e.

(** Slots from index [a] forward to index [b]. *)
Definition slots_between (a b : Z) : Z := (b - a) mod DMX_EVENT_QUEUE_SIZE.


(** Successive calls of [dvb_dmxdev_update_events], one for each chunk of
    bytes that the consumer drains. *)
Fixpoint update_events_chunks (events : dmxdev_events_queue)
    (chunks : list Z) : option dmxdev_events_queue :=
  match chunks with
  | [] => Some events
  | bytes_read :: chunks =>
      events ← dvb_dmxdev_update_events events bytes_read;
      update_events_chunks events chunks
  end.

(** A caller that issues [n] reads of [count] bytes one after the other:
    the return value and the bytes of each read, and the device and the
    environment after the last. *)
Fixpoint read_sec_calls (n : nat) (non_blocking : bool) (count : Z)
    (env : list wakeup) (dev : dmxdev)
    : option (list (Z * list Z) * dmxdev * list wakeup) :=
  match n with
  | O => Some ([], dev, env)
  | S n =>
      r ← dvb_dmxdev_read_sec non_blocking count env dev;
      '(rs, dev', env') ←
        read_sec_calls n non_blocking count (env_after r) (dev_after r);
      Some ((ret r, user_buf r) :: rs, dev', env')
  end.

(** A running section filter without a pending error whose mapped buffer
    [d], of size [sz], was at read cursor [p0] and is at write cursor [pw],
    after [k] bytes have gone to the caller, with [t] in [todo]. *)
Definition sec_reader_at (d : list Z) (sz p0 pw : Z) (dev : dmxdev)
    (k t : Z) : Prop :=
  state (filter dev) = DMXDEV_STATE_GO
  /\ buffer (filter dev)
     = {| data := Some d; size := sz; pread := (p0 + k) mod sz;
          pwrite := pw; error := 0 |}
  /\ todo (filter dev) = t
  /\ length (secheader (filter dev)) = 3%nat.


(** The queue in order: walking forward from [read_index], one meets
    [notified_index] no later than [write_index]. *)
Definition queue_ordered (events : dmxdev_events_queue) : Prop :=
  queue_wf events
  /\ slots_between (read_index events) (notified_index events)
     <= slots_between (read_index events) (write_index events).

(** The events in the [count] slots from index [from] on, around the
    array. *)
Definition slot_events (q : list dmx_filter_event) (from : Z) (count : nat)
    : list dmx_filter_event :=
  omap (fun k : nat =>
          q !! Z.to_nat ((from + Z.of_nat k) mod DMX_EVENT_QUEUE_SIZE))
    (seq 0 count).

(** The events that wait for [dvb_dmxdev_remove_event], oldest first: those
    from [notified_index] up to [write_index]. *)
Definition pending_events (events : dmxdev_events_queue)
    : list dmx_filter_event :=
  slot_events (queue events) (notified_index events)
    (Z.to_nat (slots_between (notified_index events) (write_index events))).

(** [n] calls of [dvb_dmxdev_remove_event], each of which hands out an
    event: the events in the order of the calls, and the queue. *)
Fixpoint remove_events (n : nat) (events : dmxdev_events_queue)
    : option (list dmx_filter_event * dmxdev_events_queue) :=
  match n with
  | O => Some ([], events)
  | S n =>
      '(res, event, events) ← dvb_dmxdev_remove_event events;
      match event with
      | Some event =>
          '(rest, events) ← remove_events n events;
          Some (event :: rest, events)
      | None => None
      end
  end.

(** The events of [evs] added one after the other. *)
Definition add_events (events : dmxdev_events_queue)
    (evs : list dmx_filter_event) : dmxdev_events_queue :=
  foldl (fun q ev => snd (dvb_dmxdev_add_event q ev)) events evs.

(** Events whose type wakes the consumer up, among [l]. *)
Definition wakeup_count (mask : dmx_events_mask) (l : list dmx_filter_event)
    : Z :=
  Z.of_nat
    (length (List.filter
               (fun e => negb (mask_test (no_wakeup_mask mask) (ev_type e)))
               l)).

(** [wakeup_events_counter] counts the pending events that wake the consumer
    up. *)
Definition wakeup_counted (events : dmxdev_events_queue) : Prop :=
  wakeup_events_counter events
  = wakeup_count (event_mask events) (pending_events events).



(** * Properties *)

(** ** Machine integers in range *)

Lemma u32_small (x : Z) : 0 <= x < 2 ^ 32 -> u32 x = x.
Proof. intros H. unfold u32. apply Z.mod_small. exact H. Qed.

Lemma s32_small (x : Z) : - 2 ^ 31 <= x < 2 ^ 31 -> s32 x = x.
Proof. intros H. unfold s32. rewrite Z.mod_small; lia. Qed.

Lemma u32_range (x : Z) : 0 <= u32 x < 2 ^ 32.
Proof. unfold u32. apply Z.mod_pos_bound. lia. Qed.

(** ** The PES updater under repeated partial reads *)

Lemma update_pes_event_partial (event : dmx_pes_event_info) (b : Z) :
  0 <= b < 2 ^ 31 -> b < pes_total_length event < 2 ^ 32 ->
  fst (dvb_dmxdev_update_pes_event event b) = 0
  /\ pes_total_length (snd (dvb_dmxdev_update_pes_event event b))
     = pes_total_length event - b.
Proof.
  intros Hb Ht. unfold dvb_dmxdev_update_pes_event.
  rewrite (u32_small b) by lia.
  destruct (Z.leb_spec (pes_total_length event) b) as [Hle|_]; [lia|].
  destruct (_ <=? _); simpl; (split; [reflexivity | apply u32_small; lia]).
Qed.

Lemma update_pes_event_retire (event : dmx_pes_event_info) (b : Z) :
  0 <= b < 2 ^ 31 -> 0 <= pes_total_length event <= b ->
  dvb_dmxdev_update_pes_event event b = (pes_total_length event, event).
Proof.
  intros Hb Ht. unfold dvb_dmxdev_update_pes_event.
  rewrite (u32_small b) by lia.
  destruct (Z.leb_spec (pes_total_length event) b) as [_|Hlt]; [|lia].
  rewrite s32_small by lia. reflexivity.
Qed.

Lemma sum_bytes_nonneg (chunks : list Z) :
  Forall (fun b => 0 < b < 2 ^ 31) chunks -> 0 <= sum_bytes chunks.
Proof.
  induction 1 as [|b chunks Hb _ IH]; simpl; [lia|].
  unfold sum_bytes in *. simpl. lia.
Qed.

Lemma pes_event_drain_spec (chunks : list Z) :
  Forall (fun b => 0 < b < 2 ^ 31) chunks ->
  forall event : dmx_pes_event_info,
  0 < pes_total_length event < 2 ^ 32 ->
  if sum_bytes chunks <? pes_total_length event then
    exists event',
      pes_event_drain event chunks = (sum_bytes chunks, Some event')
      /\ pes_total_length event' = pes_total_length event - sum_bytes chunks
  else pes_event_drain event chunks = (pes_total_length event, None).
Proof.
  induction 1 as [|b chunks Hb Hall IH]; intros event Ht.
  - change (sum_bytes []) with 0.
    destruct (Z.ltb_spec 0 (pes_total_length event)); [|lia].
    exists event. simpl. split; [reflexivity | lia].
  - pose proof (sum_bytes_nonneg chunks Hall) as Hs.
    change (sum_bytes (b :: chunks)) with (b + sum_bytes chunks).
    simpl.
    destruct (Z_lt_le_dec b (pes_total_length event)) as [Hlt|Hge].
    + destruct (update_pes_event_partial event b) as [Hres Hlen]; [lia..|].
      destruct (dvb_dmxdev_update_pes_event event b) as [res event'].
      simpl in Hres, Hlen. subst res. simpl.
      specialize (IH event'). rewrite Hlen in IH.
      destruct (Z.ltb_spec (sum_bytes chunks) (pes_total_length event - b))
        as [H1|H1];
        destruct (Z.ltb_spec (b + sum_bytes chunks) (pes_total_length event))
          as [H2|H2]; try lia.
      * destruct IH as [e [-> He]]; [lia|].
        exists e. split; [reflexivity | lia].
      * rewrite IH by lia. f_equal. lia.
    + rewrite update_pes_event_retire by lia.
      destruct (Z.eqb_spec (pes_total_length event) 0) as [H0|_]; [lia|].
      destruct (Z.ltb_spec (b + sum_bytes chunks) (pes_total_length event));
        [lia | reflexivity].
Qed.

(** ** The event queue stays within its array *)

(** The array has at least one slot and its length is a 32-bit number. *)
Hypothesis queue_size_range : 0 < DMX_EVENT_QUEUE_SIZE < 2 ^ 32.

Lemma advance_event_idx_spec (index : Z) :
  0 <= index < DMX_EVENT_QUEUE_SIZE ->
  dvb_dmxdev_advance_event_idx index
  = if index + 1 =? DMX_EVENT_QUEUE_SIZE then 0 else index + 1.
Proof.
  intros Hi. unfold dvb_dmxdev_advance_event_idx.
  rewrite u32_small by lia.
  destruct (Z.leb_spec DMX_EVENT_QUEUE_SIZE (index + 1));
    destruct (Z.eqb_spec (index + 1) DMX_EVENT_QUEUE_SIZE); lia.
Qed.

Lemma advance_event_idx_range (index : Z) :
  0 <= index < DMX_EVENT_QUEUE_SIZE ->
  0 <= dvb_dmxdev_advance_event_idx index < DMX_EVENT_QUEUE_SIZE.
Proof.
  intros Hi. rewrite advance_event_idx_spec by exact Hi.
  destruct (Z.eqb_spec (index + 1) DMX_EVENT_QUEUE_SIZE); lia.
Qed.

(** Distance between two indices of the array, walking forward. *)
Lemma index_distance (a b : Z) :
  0 <= a < DMX_EVENT_QUEUE_SIZE -> 0 <= b < DMX_EVENT_QUEUE_SIZE ->
  (a - b) mod DMX_EVENT_QUEUE_SIZE
  = if b <=? a then a - b else a - b + DMX_EVENT_QUEUE_SIZE.
Proof.
  intros Ha Hb. destruct (Z.leb_spec b a).
  - apply Z.mod_small. lia.
  - rewrite <- (Z.mod_add _ 1) by lia. rewrite Z.mul_1_l.
    apply Z.mod_small. lia.
Qed.

Lemma stored_events_bound (events : dmxdev_events_queue) :
  0 <= stored_events events < DMX_EVENT_QUEUE_SIZE.
Proof. unfold stored_events. apply Z.mod_pos_bound. lia. Qed.

Lemma same_slots_refl (e : dmxdev_events_queue) : same_slots e e.
Proof. repeat split. Qed.

Lemma add_event_credit_slots (events : dmxdev_events_queue)
    (event : dmx_filter_event) :
  match add_event_credit events event with
  | inl e => same_slots events e
  | inr (e, ev) =>
      same_slots events e /\ ev_type ev = ev_type event
      /\ event_mask e = event_mask events
  end.
Proof.
  unfold add_event_credit.
  destruct (bytes_read_no_event events =? 0);
    [split; [apply same_slots_refl | split; reflexivity]|].
  destruct event; simpl; try apply same_slots_refl.
  - destruct (dvb_dmxdev_update_pes_event _ _) as [res p].
    destruct (res =? 0); repeat split.
  - destruct (dvb_dmxdev_update_section_event _ _) as [res p].
    destruct (res =? 0); repeat split.
  - destruct (dvb_dmxdev_update_rec_event _ _) as [res p].
    destruct (res =? 0); repeat split.
Qed.

Lemma add_event_wf (events : dmxdev_events_queue) (event : dmx_filter_event) :
  queue_wf events -> queue_wf (snd (dvb_dmxdev_add_event events event)).
Proof.
  intros Hwf. unfold dvb_dmxdev_add_event.
  destruct (mask_test _ _); [exact Hwf|].
  pose proof (add_event_credit_slots events event) as Hc.
  destruct (add_event_credit events event) as [e|[e ev]].
  - destruct Hc as (Hw & Hr & Hn & Hq & _). unfold queue_wf in *. simpl.
    rewrite Hw, Hr, Hn, Hq. exact Hwf.
  - destruct Hc as ((Hw & Hr & Hn & Hq & _) & _ & _).
    assert (queue_wf e) as He.
    { unfold queue_wf in *. rewrite Hw, Hr, Hn, Hq. exact Hwf. }
    destruct (_ =? read_index e); [exact He|].
    destruct He as (Hr' & Hw' & Hn' & Hl).
    pose proof (advance_event_idx_range (write_index e) Hw') as Ha.
    destruct (mask_test _ _); unfold queue_wf; simpl;
      rewrite length_insert; auto.
Qed.

(** On a full queue no event is stored, whatever the event. *)
Lemma add_event_full_slots (events : dmxdev_events_queue)
    (event : dmx_filter_event) :
  dvb_dmxdev_events_is_full events = 1 ->
  same_slots events (snd (dvb_dmxdev_add_event events event))
  /\ (fst (dvb_dmxdev_add_event events event) = - EOVERFLOW
      \/ fst (dvb_dmxdev_add_event events event) = 0).
Proof.
  unfold dvb_dmxdev_events_is_full, dvb_dmxdev_add_event. intros Hfull.
  destruct (Z.eqb_spec (dvb_dmxdev_advance_event_idx (write_index events))
              (read_index events)) as [Heq|]; [|discriminate].
  destruct (mask_test _ _); [split; [apply same_slots_refl | now right]|].
  pose proof (add_event_credit_slots events event) as Hc.
  destruct (add_event_credit events event) as [e|[e ev]].
  - split; [exact Hc | now right].
  - destruct Hc as (Hs & _). pose proof Hs as (Hw & Hr & _).
    rewrite Hw, Hr, Heq, Z.eqb_refl. split; [exact Hs | now left].
Qed.

(** C2 (amended).  The number of events in the queue stays below the number
    of slots: [dvb_dmxdev_add_event] keeps the indices inside the array, and
    an event that it stores takes the slot at [write_index] and makes the
    count one more, without reaching the capacity.  On a full queue (one
    advance of [write_index] equals [read_index]) it leaves [write_index],
    [read_index], [notified_index], the stored events and
    [wakeup_events_counter] as they are, whatever the event; it returns
    [-EOVERFLOW] when the event comes to the enqueue step, that is when its
    type is not disabled and it is not dropped against bytes read ahead of
    it, and 0 otherwise. *)
Theorem add_event_bounded (events : dmxdev_events_queue)
    (event : dmx_filter_event) :
  queue_wf events ->
  stored_events events < DMX_EVENT_QUEUE_SIZE
  /\ queue_wf (snd (dvb_dmxdev_add_event events event))
  /\ stored_events (snd (dvb_dmxdev_add_event events event))
     < DMX_EVENT_QUEUE_SIZE
  /\ (dvb_dmxdev_events_is_full events = 0 ->
      mask_test (disable_mask (event_mask events)) (ev_type event) = false ->
      forall e ev, add_event_credit events event = inr (e, ev) ->
      fst (dvb_dmxdev_add_event events event) = 0
      /\ queue (snd (dvb_dmxdev_add_event events event))
         !! Z.to_nat (write_index events) = Some ev
      /\ stored_events (snd (dvb_dmxdev_add_event events event))
         = stored_events events + 1)
  /\ (dvb_dmxdev_events_is_full events = 1 ->
      same_slots events (snd (dvb_dmxdev_add_event events event))
      /\ (mask_test (disable_mask (event_mask events)) (ev_type event) = false
          -> (exists e ev, add_event_credit events event = inr (e, ev))
          -> fst (dvb_dmxdev_add_event events event) = - EOVERFLOW)
      /\ (mask_test (disable_mask (event_mask events)) (ev_type event) = true
          \/ (exists e, add_event_credit events event = inl e)
          -> fst (dvb_dmxdev_add_event events event) = 0)).
Proof.
  intros Hwf. split; [apply stored_events_bound|].
  split; [apply add_event_wf; exact Hwf|].
  split; [apply stored_events_bound|]. split.
  - intros Hfull Hmask e ev Hcredit.
    pose proof (add_event_credit_slots events event) as Hc.
    unfold dvb_dmxdev_events_is_full in Hfull.
    unfold dvb_dmxdev_add_event. rewrite Hmask, Hcredit.
    rewrite Hcredit in Hc. destruct Hc as ((Hw & Hr & Hn & Hq & _) & _ & _).
    rewrite Hw, Hr, Hq.
    destruct (Z.eqb_spec (dvb_dmxdev_advance_event_idx (write_index events))
                (read_index events)) as [|Hne]; [discriminate|].
    destruct Hwf as (Hr' & Hw' & Hn' & Hl).
    assert (stored_events
              (set_write_index
                 (set_queue e
                    (<[Z.to_nat (write_index events):=ev]> (queue events)))
                 (dvb_dmxdev_advance_event_idx (write_index events)))
            = stored_events events + 1) as Hcount.
    { unfold stored_events. simpl. rewrite Hr.
      pose proof (advance_event_idx_range _ Hw') as Ha.
      rewrite !index_distance by lia.
      rewrite advance_event_idx_spec in Hne |- * by lia.
      destruct (Z.eqb_spec (write_index events + 1) DMX_EVENT_QUEUE_SIZE);
        destruct (Z.leb_spec (read_index events) (write_index events));
        destruct (Z.leb_spec (read_index events) 0);
        destruct (Z.leb_spec (read_index events) (write_index events + 1));
        lia. }
    destruct (mask_test (no_wakeup_mask _) _); simpl; (split; [reflexivity|]);
      (split; [apply list_lookup_insert_eq; lia | exact Hcount]).
  - intros Hfull.
    destruct (add_event_full_slots events event Hfull) as [Hs Hret].
    split; [exact Hs|]. split.
    + intros Hmask (e & ev & Hcredit).
      pose proof (add_event_credit_slots events event) as Hc.
      unfold dvb_dmxdev_events_is_full in Hfull.
      unfold dvb_dmxdev_add_event. rewrite Hmask, Hcredit.
      rewrite Hcredit in Hc. destruct Hc as ((Hw & Hr & _) & _).
      rewrite Hw, Hr.
      destruct (_ =? read_index events); [reflexivity | discriminate].
    + unfold dvb_dmxdev_add_event. intros [->|[e ->]]; [reflexivity|].
      destruct (mask_test _ _); reflexivity.
Qed.

(** ** Reads: the sticky error and the unmapped buffer *)

Lemma reader_blocks_empty (from : read_from) (non_blocking : bool)
    (dev : dmxdev) :
  reader_blocks from non_blocking dev ->
  dvb_ringbuffer_empty (read_src from dev) = true
  /\ error (read_src from dev) = 0
  /\ is_Some (data (read_src from dev)).
Proof.
  intros (_ & Hc & _). unfold dvb_dmxdev_check_data in Hc.
  apply orb_false_elim in Hc as [Hc _].
  apply orb_false_elim in Hc as [Hc He].
  apply orb_false_elim in Hc as [Hd Hempty].
  apply negb_false_iff in Hempty, He, Hd.
  apply bool_decide_eq_true in Hd. apply Z.eqb_eq in He. auto.
Qed.

(** One turn of the loop for a reader that sleeps and is woken, without a
    signal, by what other threads did. *)
Lemma buffer_read_loop_woken (fuel : nat) (from : read_from)
    (non_blocking : bool) (count todo ret : Z) (out : list Z)
    (env env' : list wakeup) (dev dev' : dmxdev) :
  0 < todo ->
  reader_blocks from non_blocking dev ->
  wait_event_interruptible from env dev = Some (0, false, dev', env') ->
  filter_not_running from dev' = false ->
  buffer_read_loop (S fuel) from non_blocking count todo ret out env dev
  = let src := read_src from dev' in
    if negb (bool_decide (is_Some (data src))) then
      Some {| ret := 0; user_buf := out; dev_after := dev';
              env_after := env' |}
    else if negb (error src =? 0) then
      Some {| ret := read_return count todo (error src); user_buf := out;
              dev_after := with_read_src from dev' (set_error src 0);
              env_after := env' |}
    else
      let avail := dvb_ringbuffer_avail src in
      let avail := if todo <? avail then todo else avail in
      let '(r, bytes, src) := dvb_ringbuffer_read_user src avail in
      if r <? 0 then
        Some {| ret := read_return count todo r; user_buf := out;
                dev_after := with_read_src from dev' src; env_after := env' |}
      else
        buffer_read_loop fuel from non_blocking count (todo - r) r
          (out ++ bytes) env' (with_read_src from dev' src).
Proof.
  intros Htodo Hblocks Hwait Hrun.
  destruct (reader_blocks_empty _ _ _ Hblocks) as (Hempty & _ & _).
  destruct Hblocks as (-> & _ & Hstate).
  cbn [buffer_read_loop].
  destruct (Z.leb_spec todo 0); [lia|].
  cbn [andb].
  assert (match from with
          | FromFilter =>
              bool_decide (state (filter dev) = DMXDEV_STATE_DONE)
              && dvb_ringbuffer_empty (read_src from dev)
          | FromDvr => false
          end = false) as ->.
  { destruct from; [|reflexivity]. rewrite Hstate. reflexivity. }
  rewrite Hwait. cbn [mbind option_bind].
  assert (match from with FromFilter => false | FromDvr => false end = false)
    as -> by (destruct from; reflexivity).
  rewrite Hrun. cbn [Z.ltb Z.compare].
  reflexivity.
Qed.

Lemma read_src_with_read_src (from : read_from) (dev : dmxdev)
    (src : dvb_ringbuffer) :
  read_src from (with_read_src from dev src) = src.
Proof. destruct from; reflexivity. Qed.

(** A read during which no other thread does anything returns a byte count,
    [-EWOULDBLOCK] or [-ENODEV], and a clear error field stays clear. *)
Lemma buffer_read_loop_quiet (fuel : nat) (from : read_from)
    (non_blocking : bool) (count : Z) :
  forall (todo ret0 : Z) (out : list Z) (dev : dmxdev) (r : read_result),
  0 < size (read_src from dev) ->
  error (read_src from dev) = 0 ->
  0 <= ret0 -> 0 <= todo <= count ->
  buffer_read_loop fuel from non_blocking count todo ret0 out [] dev = Some r ->
  (0 <= ret r \/ ret r = - EWOULDBLOCK \/ ret r = - ENODEV)
  /\ error (read_src from (dev_after r)) = 0.
Proof.
  assert (forall todo ret0, 0 <= ret0 -> 0 <= todo <= count ->
          0 <= read_return count todo ret0) as Hrr.
  { intros todo ret0 ? ?. unfold read_return.
    destruct (Z.eqb_spec (count - todo) 0); lia. }
  assert (forall todo, 0 <= todo <= count ->
          0 <= read_return count todo (- EWOULDBLOCK)
          \/ read_return count todo (- EWOULDBLOCK) = - EWOULDBLOCK) as Hrw.
  { intros todo ?. unfold read_return.
    destruct (Z.eqb_spec (count - todo) 0); [now right | left; lia]. }
  induction fuel as [|fuel IH]; intros todo ret0 out dev r Hsize Herr Hret Htodo;
    cbn [buffer_read_loop].
  - destruct (todo <=? 0); [|discriminate].
    intros [= <-]. simpl. split; [left; apply Hrr; assumption | exact Herr].
  - destruct (todo <=? 0).
    { intros [= <-]. simpl. split; [left; apply Hrr; assumption | exact Herr]. }
    destruct (non_blocking && dvb_ringbuffer_empty (read_src from dev)).
    { intros [= <-]. simpl. split; [|exact Herr].
      destruct (Hrw todo Htodo) as [H|H]; [now left | right; now left]. }
    destruct (match from with
              | FromFilter => _
              | FromDvr => false
              end).
    { intros [= <-]. simpl. split; [left; apply Hrr; assumption | exact Herr]. }
    cbn [wait_event_interruptible].
    destruct (dvb_dmxdev_check_data from dev); [|discriminate].
    cbn [mbind option_bind].
    assert (match from with FromFilter => false | FromDvr => false end = false)
      as -> by (destruct from; reflexivity).
    destruct (filter_not_running from dev).
    { intros [= <-]. simpl. split; [right; now right | exact Herr]. }
    cbn [Z.ltb Z.compare].
    destruct (negb (bool_decide (is_Some (data (read_src from dev))))).
    { intros [= <-]. simpl. split; [left; lia | exact Herr]. }
    rewrite Herr. cbn [Z.eqb negb].
    unfold dvb_ringbuffer_read_user.
    set (avail := if todo <? dvb_ringbuffer_avail (read_src from dev)
                  then todo else dvb_ringbuffer_avail (read_src from dev)).
    assert (0 <= avail <= todo) as Havail.
    { subst avail. unfold dvb_ringbuffer_avail.
      pose proof (Z.mod_pos_bound
                    (pwrite (read_src from dev) - pread (read_src from dev))
                    (size (read_src from dev)) Hsize).
      destruct (Z.ltb_spec todo
                  ((pwrite (read_src from dev) - pread (read_src from dev))
                   mod size (read_src from dev))); lia. }
    destruct (Z.ltb_spec avail 0); [lia|].
    apply IH; rewrite ?read_src_with_read_src; simpl;
      [exact Hsize | exact Herr | lia | lia].
Qed.

(** One turn of the loop for a reader that sleeps and finds, once it is
    awake and has the lock, that the filter has left [DMXDEV_STATE_GO] and
    [DMXDEV_STATE_DONE]: the read returns [-ENODEV] at once and the device
    stays as the reader found it. *)
Lemma buffer_read_loop_stopped (fuel : nat) (from : read_from)
    (non_blocking : bool) (count todo ret wret : Z) (out : list Z)
    (env env' : list wakeup) (dev dev' : dmxdev) :
  0 < todo ->
  reader_blocks from non_blocking dev ->
  wait_event_interruptible from env dev = Some (wret, false, dev', env') ->
  filter_not_running from dev' = true ->
  buffer_read_loop (S fuel) from non_blocking count todo ret out env dev
  = Some {| ret := - ENODEV; user_buf := out; dev_after := dev';
            env_after := env' |}.
Proof.
  intros Htodo Hblocks Hwait Hrun.
  destruct Hblocks as (-> & _ & Hstate).
  cbn [buffer_read_loop].
  destruct (Z.leb_spec todo 0); [lia|].
  cbn [andb].
  assert (match from with
          | FromFilter =>
              bool_decide (state (filter dev) = DMXDEV_STATE_DONE)
              && dvb_ringbuffer_empty (read_src from dev)
          | FromDvr => false
          end = false) as ->.
  { destruct from; [|reflexivity]. rewrite Hstate. reflexivity. }
  rewrite Hwait. cbn [mbind option_bind].
  assert (match from with FromFilter => false | FromDvr => false end = false)
    as -> by (destruct from; reflexivity).
  rewrite Hrun. reflexivity.
Qed.

(** One turn of the loop for a reader whose wait is ended by a signal. *)
Lemma buffer_read_loop_signal (fuel : nat) (from : read_from)
    (non_blocking : bool) (count todo ret wret : Z) (lock_interrupted : bool)
    (out : list Z) (env env' : list wakeup) (dev dev' : dmxdev) :
  0 < todo ->
  reader_blocks from non_blocking dev ->
  wait_event_interruptible from env dev
  = Some (wret, lock_interrupted, dev', env') ->
  wret < 0 ->
  buffer_read_loop (S fuel) from non_blocking count todo ret out env dev
  = Some {| ret :=
              if match from with
                 | FromFilter => lock_interrupted
                 | FromDvr => false
                 end then - ERESTARTSYS
              else if filter_not_running from dev' then - ENODEV
              else if count - todo =? 0 then wret else count - todo;
            user_buf := out; dev_after := dev'; env_after := env' |}.
Proof.
  intros Htodo Hblocks Hwait Hwret.
  destruct Hblocks as (-> & _ & Hstate).
  cbn [buffer_read_loop].
  destruct (Z.leb_spec todo 0); [lia|].
  cbn [andb].
  assert (match from with
          | FromFilter =>
              bool_decide (state (filter dev) = DMXDEV_STATE_DONE)
              && dvb_ringbuffer_empty (read_src from dev)
          | FromDvr => false
          end = false) as ->.
  { destruct from; [|reflexivity]. rewrite Hstate. reflexivity. }
  rewrite Hwait. cbn [mbind option_bind].
  destruct (match from with
            | FromFilter => lock_interrupted
            | FromDvr => false
            end); [reflexivity|].
  destruct (filter_not_running from dev'); [reflexivity|].
  destruct (Z.ltb_spec wret 0); [reflexivity | lia].
Qed.

(** The timer function wakes a sleeping reader of the filter, which then
    finds the filter timed out. *)
Lemma timeout_wakes_reader (env : list wakeup) (dev : dmxdev) :
  let fire :=
    fun d : dmxdev =>
      with_filter d (dvb_dmxdev_filter_timeout (filter d)) in
  dvb_dmxdev_check_data FromFilter dev = false ->
  wait_event_interruptible FromFilter (Activity fire :: env) dev
  = Some (0, false, fire dev, env)
  /\ filter_not_running FromFilter (fire dev) = true
  /\ error (buffer (filter (fire dev))) = - ETIMEDOUT
  /\ data (buffer (filter (fire dev))) = data (buffer (filter dev)).
Proof.
  intros fire Hsleep. split; [|repeat split].
  assert (dvb_dmxdev_check_data FromFilter (fire dev) = true) as Hawake.
  { unfold dvb_dmxdev_check_data, filter_not_running, fire. simpl.
    rewrite !orb_true_r. reflexivity. }
  cbn [wait_event_interruptible]. rewrite Hsleep.
  destruct env; cbn [wait_event_interruptible]; rewrite Hawake; reflexivity.
Qed.

(** C3 (amended).  A read that finds the sticky error at entry, the buffer
    being mapped, returns the error code and clears the field.  A reader
    that sleeps and is woken by the error, and then finds the filter, if
    the read has one, still in [DMXDEV_STATE_GO] or [DMXDEV_STATE_DONE],
    clears the field as well; it returns the error code when the call has
    transferred no byte yet, and the number of bytes transferred so far
    otherwise.  A reader of a filter that wakes up to find the filter in
    another state returns [-ENODEV] and leaves the error in the field: so
    it is with the timeout, which the timer function records together with
    [DMXDEV_STATE_TIMEDOUT]; the read after that one finds [-ETIMEDOUT] at
    entry, returns it and clears it.  Once the field is clear, a read
    during which nothing else happens does not return the error again: it
    returns a byte count, [-EWOULDBLOCK] or [-ENODEV], and leaves the field
    clear. *)
Theorem buffer_read_sticky_error (from : read_from) (non_blocking : bool)
    (count : Z) (env : list wakeup) (dev : dmxdev) (e : Z) :
  e <> 0 ->
  is_Some (data (read_src from dev)) ->
  (error (read_src from dev) = e ->
   dvb_dmxdev_buffer_read from non_blocking count env dev
   = Some {| ret := e; user_buf := [];
             dev_after := with_read_src from dev
                            (set_error (read_src from dev) 0);
             env_after := env |})
  /\ (forall fuel todo ret out dev' env',
        0 < todo ->
        reader_blocks from non_blocking dev ->
        wait_event_interruptible from env dev = Some (0, false, dev', env') ->
        filter_not_running from dev' = false ->
        is_Some (data (read_src from dev')) ->
        error (read_src from dev') = e ->
        buffer_read_loop (S fuel) from non_blocking count todo ret out env dev
        = Some {| ret := if count - todo =? 0 then e else count - todo;
                  user_buf := out;
                  dev_after := with_read_src from dev'
                                 (set_error (read_src from dev') 0);
                  env_after := env' |})
  /\ (forall dev' env',
        0 < count ->
        reader_blocks from non_blocking dev ->
        wait_event_interruptible from env dev = Some (0, false, dev', env') ->
        filter_not_running from dev' = false ->
        is_Some (data (read_src from dev')) ->
        error (read_src from dev') = e ->
        dvb_dmxdev_buffer_read from non_blocking count env dev
        = Some {| ret := e; user_buf := [];
                  dev_after := with_read_src from dev'
                                 (set_error (read_src from dev') 0);
                  env_after := env' |})
  /\ (forall (next : dmxdev) (non_blocking' : bool) (count' : Z)
             (r : read_result),
        error (read_src from next) = 0 ->
        0 < size (read_src from next) -> 0 <= count' ->
        dvb_dmxdev_buffer_read from non_blocking' count' [] next = Some r ->
        (0 <= ret r \/ ret r = - EWOULDBLOCK \/ ret r = - ENODEV)
        /\ error (read_src from (dev_after r)) = 0)
  /\ (forall fuel todo ret out wret dev' env',
        0 < todo ->
        reader_blocks from non_blocking dev ->
        wait_event_interruptible from env dev
        = Some (wret, false, dev', env') ->
        filter_not_running from dev' = true ->
        buffer_read_loop (S fuel) from non_blocking count todo ret out env dev
        = Some {| ret := - ENODEV; user_buf := out; dev_after := dev';
                  env_after := env' |})
  /\ (0 < count ->
      reader_blocks FromFilter non_blocking dev ->
      let fire :=
        fun d : dmxdev =>
          with_filter d (dvb_dmxdev_filter_timeout (filter d)) in
      dvb_dmxdev_buffer_read FromFilter non_blocking count
        (Activity fire :: env) dev
      = Some {| ret := - ENODEV; user_buf := []; dev_after := fire dev;
                env_after := env |}
      /\ error (buffer (filter (fire dev))) = - ETIMEDOUT
      /\ forall non_blocking' count' env'',
           dvb_dmxdev_buffer_read FromFilter non_blocking' count' env''
             (fire dev)
           = Some {| ret := - ETIMEDOUT; user_buf := [];
                     dev_after :=
                       with_filter (fire dev)
                         (with_buffer (filter (fire dev))
                            (set_error (buffer (filter (fire dev))) 0));
                     env_after := env'' |}).
Proof.
  intros He Hdata. split; [|split; [|split; [|split; [|split]]]].
  - intros Herr. unfold dvb_dmxdev_buffer_read.
    rewrite bool_decide_eq_true_2 by exact Hdata. cbn [negb].
    rewrite Herr. destruct (Z.eqb_spec e 0); [contradiction | reflexivity].
  - intros fuel todo ret0 out dev' env' Htodo Hblocks Hwait Hrun Hdata' Herr.
    rewrite (buffer_read_loop_woken fuel from non_blocking count todo ret0 out
               env env' dev dev') by assumption.
    cbv zeta. rewrite bool_decide_eq_true_2 by exact Hdata'. cbn [negb].
    rewrite Herr. destruct (Z.eqb_spec e 0); [contradiction | reflexivity].
  - intros dev' env' Hcount Hblocks Hwait Hrun Hdata' Herr.
    destruct (reader_blocks_empty _ _ _ Hblocks) as (_ & Herr0 & _).
    unfold dvb_dmxdev_buffer_read.
    rewrite bool_decide_eq_true_2 by exact Hdata. cbn [negb].
    rewrite Herr0. cbn [Z.eqb negb].
    destruct (Z.to_nat count) as [|fuel] eqn:Hfuel; [lia|].
    rewrite (buffer_read_loop_woken fuel from non_blocking count count 0 []
               env env' dev dev') by assumption.
    cbv zeta. rewrite bool_decide_eq_true_2 by exact Hdata'. cbn [negb].
    rewrite Herr. destruct (Z.eqb_spec e 0); [contradiction|].
    unfold read_return. rewrite Z.sub_diag. reflexivity.
  - intros next nb' count' r Herr Hsize Hcount'.
    unfold dvb_dmxdev_buffer_read.
    destruct (negb (bool_decide (is_Some (data (read_src from next))))).
    { intros [= <-]. simpl. split; [left; lia | exact Herr]. }
    rewrite Herr. cbn [Z.eqb negb].
    apply buffer_read_loop_quiet; [exact Hsize | exact Herr | lia | lia].
  - intros fuel todo ret0 out wret dev' env' Htodo Hblocks Hwait Hrun.
    apply (buffer_read_loop_stopped fuel from non_blocking count todo ret0
             wret out env env' dev dev'); assumption.
  - intros Hcount Hblocks fire.
    destruct (reader_blocks_empty _ _ _ Hblocks) as (_ & Herr0 & Hmapped).
    pose proof Hblocks as (_ & Hsleep & _).
    destruct (timeout_wakes_reader env dev Hsleep)
      as (Hwait & Hrun & Herr & Hsame).
    fold fire in Hwait, Hrun, Herr, Hsame.
    split; [|split; [exact Herr|]].
    + unfold dvb_dmxdev_buffer_read.
      rewrite bool_decide_eq_true_2 by exact Hmapped. cbn [negb].
      rewrite Herr0. cbn [Z.eqb negb].
      destruct (Z.to_nat count) as [|fuel] eqn:Hfuel; [lia|].
      apply (buffer_read_loop_stopped fuel FromFilter non_blocking count
               count 0 0 [] (Activity fire :: env) env dev (fire dev));
        assumption.
    + intros nb' count' env''.
      assert (is_Some (data (read_src FromFilter (fire dev)))) as Hmapped'
        by exact (eq_ind_r is_Some Hmapped Hsame).
      change (error (read_src FromFilter (fire dev)) = - ETIMEDOUT) in Herr.
      unfold dvb_dmxdev_buffer_read.
      rewrite (bool_decide_eq_true_2 _ Hmapped'). cbn [negb].
      rewrite Herr. reflexivity.
Qed.

(** C10 (amended).  A read on a ring buffer without storage returns 0: at
    entry in every case, before the error field is looked at; and after a
    sleep, whatever was transferred before it, when the wait ended without
    a signal and the filter, if the read has one, is still in
    [DMXDEV_STATE_GO] or [DMXDEV_STATE_DONE].  A reader of a filter that
    wakes up without a signal to find the filter in another state returns
    [-ENODEV], with or without storage.  A wait that a signal ends makes
    the read return [-ERESTARTSYS] when taking the lock of the filter is
    interrupted as well; otherwise [-ENODEV] when the filter has left these
    states, and otherwise the number of bytes transferred so far, or
    [-ERESTARTSYS] when there are none. *)
Theorem buffer_read_unmapped (from : read_from) (non_blocking : bool)
    (count : Z) (env : list wakeup) (dev : dmxdev) :
  (data (read_src from dev) = None ->
   dvb_dmxdev_buffer_read from non_blocking count env dev
   = Some {| ret := 0; user_buf := []; dev_after := dev; env_after := env |})
  /\ (forall fuel todo ret0 out dev' env',
        0 < todo ->
        reader_blocks from non_blocking dev ->
        wait_event_interruptible from env dev = Some (0, false, dev', env') ->
        filter_not_running from dev' = false ->
        data (read_src from dev') = None ->
        buffer_read_loop (S fuel) from non_blocking count todo ret0 out env dev
        = Some {| ret := 0; user_buf := out; dev_after := dev';
                  env_after := env' |})
  /\ (forall dev' env',
        0 < count ->
        reader_blocks from non_blocking dev ->
        wait_event_interruptible from env dev = Some (0, false, dev', env') ->
        filter_not_running from dev' = false ->
        data (read_src from dev') = None ->
        dvb_dmxdev_buffer_read from non_blocking count env dev
        = Some {| ret := 0; user_buf := []; dev_after := dev';
                  env_after := env' |})
  /\ (forall fuel todo ret0 out dev' env',
        0 < todo ->
        reader_blocks from non_blocking dev ->
        wait_event_interruptible from env dev = Some (0, false, dev', env') ->
        filter_not_running from dev' = true ->
        buffer_read_loop (S fuel) from non_blocking count todo ret0 out env dev
        = Some {| ret := - ENODEV; user_buf := out; dev_after := dev';
                  env_after := env' |})
  /\ (forall dev' env',
        0 < count ->
        reader_blocks from non_blocking dev ->
        wait_event_interruptible from env dev = Some (0, false, dev', env') ->
        filter_not_running from dev' = true ->
        dvb_dmxdev_buffer_read from non_blocking count env dev
        = Some {| ret := - ENODEV; user_buf := []; dev_after := dev';
                  env_after := env' |})
  /\ (forall fuel todo ret0 out lock_interrupted dev' env',
        0 < todo ->
        reader_blocks from non_blocking dev ->
        wait_event_interruptible from env dev
        = Some (- ERESTARTSYS, lock_interrupted, dev', env') ->
        buffer_read_loop (S fuel) from non_blocking count todo ret0 out env dev
        = Some {| ret :=
                    if match from with
                       | FromFilter => lock_interrupted
                       | FromDvr => false
                       end then - ERESTARTSYS
                    else if filter_not_running from dev' then - ENODEV
                    else if count - todo =? 0 then - ERESTARTSYS
                    else count - todo;
                  user_buf := out; dev_after := dev'; env_after := env' |})
  /\ (forall lock_interrupted env',
        0 < count ->
        reader_blocks from non_blocking dev ->
        env = Signal lock_interrupted :: env' ->
        dvb_dmxdev_buffer_read from non_blocking count env dev
        = Some {| ret := - ERESTARTSYS; user_buf := []; dev_after := dev;
                  env_after := env' |}).
Proof.
  split; [|split; [|split; [|split; [|split; [|split]]]]].
  - intros Hdata. unfold dvb_dmxdev_buffer_read. rewrite Hdata.
    reflexivity.
  - intros fuel todo ret0 out dev' env' Htodo Hblocks Hwait Hrun Hdata'.
    rewrite (buffer_read_loop_woken fuel from non_blocking count todo ret0 out
               env env' dev dev') by assumption.
    cbv zeta. rewrite Hdata'. reflexivity.
  - intros dev' env' Hcount Hblocks Hwait Hrun Hdata'.
    destruct (reader_blocks_empty _ _ _ Hblocks) as (_ & Herr0 & Hdata).
    unfold dvb_dmxdev_buffer_read.
    rewrite bool_decide_eq_true_2 by exact Hdata. cbn [negb].
    rewrite Herr0. cbn [Z.eqb negb].
    destruct (Z.to_nat count) as [|fuel] eqn:Hfuel; [lia|].
    rewrite (buffer_read_loop_woken fuel from non_blocking count count 0 []
               env env' dev dev') by assumption.
    cbv zeta. rewrite Hdata'. reflexivity.
  - intros fuel todo ret0 out dev' env' Htodo Hblocks Hwait Hrun.
    apply (buffer_read_loop_stopped fuel from non_blocking count todo ret0 0
             out env env' dev dev'); assumption.
  - intros dev' env' Hcount Hblocks Hwait Hrun.
    destruct (reader_blocks_empty _ _ _ Hblocks) as (_ & Herr0 & Hdata).
    unfold dvb_dmxdev_buffer_read.
    rewrite bool_decide_eq_true_2 by exact Hdata. cbn [negb].
    rewrite Herr0. cbn [Z.eqb negb].
    destruct (Z.to_nat count) as [|fuel] eqn:Hfuel; [lia|].
    apply (buffer_read_loop_stopped fuel from non_blocking count count 0 0
             [] env env' dev dev'); assumption.
  - intros fuel todo ret0 out lock_interrupted dev' env' Htodo Hblocks Hwait.
    apply (buffer_read_loop_signal fuel from non_blocking count todo ret0
             (- ERESTARTSYS) lock_interrupted out env env' dev dev');
      [exact Htodo | exact Hblocks | exact Hwait | reflexivity].
  - intros lock_interrupted env' Hcount Hblocks ->.
    destruct (reader_blocks_empty _ _ _ Hblocks) as (_ & Herr0 & Hdata).
    pose proof Hblocks as (_ & Hsleep & Hstate).
    unfold dvb_dmxdev_buffer_read.
    rewrite bool_decide_eq_true_2 by exact Hdata. cbn [negb].
    rewrite Herr0. cbn [Z.eqb negb].
    destruct (Z.to_nat count) as [|fuel] eqn:Hfuel; [lia|].
    rewrite (buffer_read_loop_signal fuel from non_blocking count count 0
               (- ERESTARTSYS) lock_interrupted [] (Signal lock_interrupted
                                                      :: env') env' dev dev);
      [| exact Hcount | exact Hblocks
       | cbn [wait_event_interruptible]; rewrite Hsleep; reflexivity
       | reflexivity].
    rewrite Z.sub_diag. cbn [Z.eqb].
    assert (filter_not_running from dev = false) as ->.
    { destruct from; [|reflexivity]. unfold filter_not_running.
      rewrite Hstate. reflexivity. }
    destruct (match from with
              | FromFilter => lock_interrupted
              | FromDvr => false
              end); reflexivity.
Qed.

(** ** Configuration calls on a running filter *)

(** C6 (amended).  On a filter in [DMXDEV_STATE_GO] or later, setting the TS
    output format returns [-EBUSY]; setting the buffer size returns
    [-EBUSY] when the size asked for is not zero and differs from the
    current one and the buffer mode is internal; setting the event mask of
    a filter in [DMXDEV_STATE_GO] returns [-EBUSY] when the mask is given
    and its wake-up threshold is below the queue size.  Each of these calls
    leaves the filter as it is. *)
Theorem config_busy_when_running (dmxdevfilter : dmxdev_filter) :
  state_value DMXDEV_STATE_GO <= state_value (state dmxdevfilter) ->
  (forall dmx_tsp_format,
     dvb_dmxdev_set_tsp_out_format dmxdevfilter dmx_tsp_format
     = (- EBUSY, dmxdevfilter))
  /\ (forall vmalloc_user sz,
        snd (dvb_dmxdev_set_buffer_size vmalloc_user dmxdevfilter sz)
        = dmxdevfilter
        /\ (sz <> 0 -> sz <> size (buffer dmxdevfilter) ->
            buffer_mode dmxdevfilter = DMX_BUFFER_MODE_INTERNAL ->
            fst (dvb_dmxdev_set_buffer_size vmalloc_user dmxdevfilter sz)
            = - EBUSY))
  /\ (state dmxdevfilter = DMXDEV_STATE_GO ->
      forall event_mask,
        snd (dvb_dmxdev_set_event_mask dmxdevfilter event_mask) = dmxdevfilter
        /\ (forall m, event_mask = Some m ->
            wakeup_threshold m < DMX_EVENT_QUEUE_SIZE ->
            fst (dvb_dmxdev_set_event_mask dmxdevfilter event_mask)
            = - EBUSY)).
Proof.
  intros Hgo. split; [|split].
  - intros fmt. unfold dvb_dmxdev_set_tsp_out_format.
    destruct (Z.leb_spec (state_value DMXDEV_STATE_GO)
                (state_value (state dmxdevfilter))); [reflexivity | lia].
  - intros vmalloc_user sz. unfold dvb_dmxdev_set_buffer_size.
    destruct (Z.leb_spec (state_value DMXDEV_STATE_GO)
                (state_value (state dmxdevfilter))) as [_|]; [|lia].
    destruct (Z.eqb_spec (size (buffer dmxdevfilter)) sz) as [Heq|Hne].
    { split; [reflexivity | intros _ Hsz; congruence]. }
    destruct (Z.eqb_spec sz 0) as [H0|H0].
    { split; [reflexivity | intros Hsz; contradiction]. }
    cbn [orb].
    destruct (bool_decide_reflect
                (buffer_mode dmxdevfilter = DMX_BUFFER_MODE_EXTERNAL))
      as [Hext|Hint].
    { split; [reflexivity | intros _ _ Hmode; congruence]. }
    split; reflexivity.
  - intros Hstate [m|]; unfold dvb_dmxdev_set_event_mask.
    + destruct (Z.leb_spec DMX_EVENT_QUEUE_SIZE (wakeup_threshold m)).
      { split; [reflexivity | intros m' [= <-] Hlt; lia]. }
      rewrite bool_decide_eq_true_2 by exact Hstate.
      split; [reflexivity | intros; reflexivity].
    + split; [reflexivity | intros m' [=]].
Qed.

(** ** The section timeout *)

(** C5 (amended).  [dvb_dmxdev_filter_timer], which
    [dvb_dmxdev_filter_start] calls once a section filter has started,
    leaves a timer pending when the timeout of the filter is not zero.
    When that timer fires, the filter is in [DMXDEV_STATE_TIMEDOUT], the
    error field of its ring buffer is [-ETIMEDOUT], and a
    [DMX_EVENT_SECTION_TIMEOUT] event has been handed to
    [dvb_dmxdev_add_event]: the event sits in the slot at [write_index],
    which has advanced, when the type is not disabled, no bytes were read
    ahead of events and the queue is not full; when the type is disabled
    the queue is as it was. *)
Theorem section_timeout_fires (jiffies : Z) (dmxdevfilter : dmxdev_filter) :
  sec_timeout (sec dmxdevfilter) <> 0 ->
  exists expires,
    timer (dvb_dmxdev_filter_timer jiffies dmxdevfilter) = Some expires
    /\ expires
       = u64 (jiffies + 1
              + u32 (HZ / 2 + HZ * sec_timeout (sec dmxdevfilter)) / 1000)
    /\ forall now, expires <= now ->
       exists f,
         run_timer now (dvb_dmxdev_filter_timer jiffies dmxdevfilter) = Some f
         /\ timer f = None
         /\ state f = DMXDEV_STATE_TIMEDOUT
         /\ error (buffer f) = - ETIMEDOUT
         /\ events f
            = snd (dvb_dmxdev_add_event (events dmxdevfilter)
                     EvSectionTimeout)
         /\ (queue_wf (events dmxdevfilter) ->
             mask_test (disable_mask (event_mask (events dmxdevfilter)))
               DMX_EVENT_SECTION_TIMEOUT = false ->
             bytes_read_no_event (events dmxdevfilter) = 0 ->
             dvb_dmxdev_events_is_full (events dmxdevfilter) = 0 ->
             queue (events f)
             !! Z.to_nat (write_index (events dmxdevfilter))
             = Some EvSectionTimeout
             /\ write_index (events f)
                = dvb_dmxdev_advance_event_idx
                    (write_index (events dmxdevfilter)))
         /\ (mask_test (disable_mask (event_mask (events dmxdevfilter)))
               DMX_EVENT_SECTION_TIMEOUT = true ->
             events f = events dmxdevfilter).
Proof.
  intros Htimeout. unfold dvb_dmxdev_filter_timer. simpl.
  destruct (Z.eqb_spec (sec_timeout (sec dmxdevfilter)) 0); [contradiction|].
  simpl. eexists. split; [reflexivity|]. split; [reflexivity|].
  intros now Hnow. unfold run_timer. simpl.
  destruct (Z.leb_spec
              (u64 (jiffies + 1
                    + u32 (HZ / 2 + HZ * sec_timeout (sec dmxdevfilter))
                      / 1000)) now); [|lia].
  eexists. split; [reflexivity|]. simpl.
  do 4 (split; [reflexivity|]). split.
  - intros Hwf Hmask Hcredit Hfull.
    unfold dvb_dmxdev_events_is_full in Hfull.
    unfold dvb_dmxdev_add_event, add_event_credit. cbn [ev_type].
    rewrite Hmask, Hcredit. cbn [Z.eqb].
    destruct (_ =? read_index (events dmxdevfilter)); [discriminate|].
    destruct Hwf as (_ & Hw & _ & Hl).
    destruct (mask_test (no_wakeup_mask _) _); simpl;
      (split; [apply list_lookup_insert_eq; lia | reflexivity]).
  - intros Hmask. unfold dvb_dmxdev_add_event. cbn [ev_type].
    rewrite Hmask. reflexivity.
Qed.

(** ** Overflow on the producer side *)





(** ** Reconciliation comes to an end *)

Lemma slots_between_advance (a b : Z) :
  0 <= a < DMX_EVENT_QUEUE_SIZE -> 0 <= b < DMX_EVENT_QUEUE_SIZE -> a <> b ->
  slots_between (dvb_dmxdev_advance_event_idx a) b = slots_between a b - 1.
Proof.
  intros Ha Hb Hne. unfold slots_between.
  pose proof (advance_event_idx_range a Ha) as Hadv.
  rewrite !index_distance by lia.
  rewrite advance_event_idx_spec in * by lia.
  destruct (Z.eqb_spec (a + 1) DMX_EVENT_QUEUE_SIZE);
    destruct (Z.leb_spec 0 b); destruct (Z.leb_spec a b);
    destruct (Z.leb_spec (a + 1) b); lia.
Qed.

Lemma slots_between_0 (a b : Z) :
  0 <= a < DMX_EVENT_QUEUE_SIZE -> 0 <= b < DMX_EVENT_QUEUE_SIZE ->
  slots_between a b <= 0 -> a = b.
Proof.
  intros Ha Hb. unfold slots_between. rewrite index_distance by lia.
  destruct (Z.leb_spec a b); lia.
Qed.

Lemma slots_between_bound (a b : Z) :
  0 <= slots_between a b < DMX_EVENT_QUEUE_SIZE.
Proof. unfold slots_between. apply Z.mod_pos_bound. lia. Qed.

Lemma queue_lookup_wf (events : dmxdev_events_queue) (i : Z) :
  queue_wf events -> 0 <= i < DMX_EVENT_QUEUE_SIZE ->
  is_Some (queue events !! Z.to_nat i).
Proof.
  intros (_ & _ & _ & Hl) Hi. apply lookup_lt_is_Some. lia.
Qed.

Lemma update_events_notified_total (fuel : nat) :
  forall (events : dmxdev_events_queue) (bytes_read : Z),
  queue_wf events ->
  slots_between (read_index events) (notified_index events) <= Z.of_nat fuel ->
  exists events' bytes_read',
    update_events_notified fuel events bytes_read
    = Some (events', bytes_read')
    /\ queue_wf events'.
Proof.
  induction fuel as [|fuel IH]; intros events bytes_read Hwf Hfuel;
    cbn [update_events_notified];
    destruct (Z.eqb_spec (read_index events) (notified_index events))
      as [Heq|Hne];
    cbn [negb andb]; try (eexists _, _; split; [reflexivity | exact Hwf]);
    destruct (Z.eqb_spec bytes_read 0) as [H0|H0]; cbn [negb];
    try (eexists _, _; split; [reflexivity | exact Hwf]).
  - pose proof Hwf as (Hr & _ & Hn & _).
    apply slots_between_0 in Hfuel; [contradiction | lia | lia].
  - pose proof Hwf as (Hr & Hw & Hn & Hl).
    destruct (queue_lookup_wf events (read_index events) Hwf Hr)
      as [event Hev].
    rewrite Hev. cbn [mbind option_bind].
    pose proof (advance_event_idx_range _ Hr) as Hadv.
    assert (forall q, length q = length (queue events) ->
            queue_wf (set_read_index (set_queue events q)
                        (dvb_dmxdev_advance_event_idx (read_index events))))
      as Hwf'.
    { intros q Hq. unfold queue_wf. simpl. rewrite Hq. auto. }
    assert (slots_between
              (dvb_dmxdev_advance_event_idx (read_index events))
              (notified_index events) <= Z.of_nat fuel) as Hfuel'.
    { rewrite slots_between_advance by assumption. lia. }
    destruct (update_data_event event bytes_read) as [[res event']|].
    + destruct (res =? 0).
      * destruct fuel; cbn [update_events_notified]; simpl;
          rewrite andb_false_r;
          (eexists _, _; split; [reflexivity|]);
          unfold queue_wf; simpl; rewrite length_insert; auto.
      * apply IH; [apply Hwf', length_insert | exact Hfuel'].
    + apply (IH (set_read_index events _)); [|exact Hfuel'].
      specialize (Hwf' (queue events) eq_refl).
      unfold queue_wf in *. simpl in *. exact Hwf'.
Qed.

Lemma drop_pending_wf (events : dmxdev_events_queue)
    (event : dmx_filter_event) :
  queue_wf events ->
  queue_wf (drop_pending events event)
  /\ notified_index (drop_pending events event)
     = dvb_dmxdev_advance_event_idx (notified_index events)
  /\ write_index (drop_pending events event) = write_index events.
Proof.
  intros (Hr & Hw & Hn & Hl). unfold drop_pending.
  pose proof (advance_event_idx_range _ Hn).
  destruct (mask_test _ _); unfold queue_wf; simpl; auto.
Qed.

Lemma update_events_pending_total (fuel : nat) :
  forall (events : dmxdev_events_queue) (bytes_read : Z),
  queue_wf events ->
  slots_between (notified_index events) (write_index events)
  <= Z.of_nat fuel ->
  exists events' bytes_read',
    update_events_pending fuel events bytes_read
    = Some (events', bytes_read')
    /\ queue_wf events'.
Proof.
  induction fuel as [|fuel IH]; intros events bytes_read Hwf Hfuel;
    cbn [update_events_pending];
    destruct (Z.eqb_spec (notified_index events) (write_index events))
      as [Heq|Hne];
    cbn [negb andb]; try (eexists _, _; split; [reflexivity | exact Hwf]);
    destruct (Z.eqb_spec bytes_read 0) as [H0|H0]; cbn [negb];
    try (eexists _, _; split; [reflexivity | exact Hwf]).
  - pose proof Hwf as (_ & Hw & Hn & _).
    apply slots_between_0 in Hfuel; [contradiction | lia | lia].
  - pose proof Hwf as (Hr & Hw & Hn & Hl).
    destruct (queue_lookup_wf events (notified_index events) Hwf Hn)
      as [event Hev].
    rewrite Hev. cbn [mbind option_bind].
    assert (forall e, queue_wf e ->
            queue_wf (set_read_index e (notified_index e))) as Hsync.
    { intros e (? & ? & ? & ?). unfold queue_wf. simpl. auto. }
    assert (forall q, length q = length (queue events) ->
            queue_wf (set_queue events q)) as Hq.
    { intros q Hlen. unfold queue_wf. simpl. rewrite Hlen. auto. }
    assert (forall e, queue_wf e ->
            notified_index e
            = dvb_dmxdev_advance_event_idx (notified_index events) ->
            write_index e = write_index events ->
            slots_between
              (notified_index (set_read_index e (notified_index e)))
              (write_index (set_read_index e (notified_index e)))
            <= Z.of_nat fuel) as Hstep.
    { intros e _ He1 He2. simpl. rewrite He1, He2.
      rewrite slots_between_advance by assumption. lia. }
    destruct (update_data_event event bytes_read) as [[res event']|].
    + destruct (res =? 0).
      * destruct fuel; cbn [update_events_pending]; simpl;
          rewrite andb_false_r;
          (eexists _, _; split; [reflexivity|]);
          unfold queue_wf; simpl; rewrite length_insert; auto.
      * destruct (drop_pending_wf
                    (set_queue events
                       (<[Z.to_nat (notified_index events):=event']>
                          (queue events))) event)
          as (Hd1 & Hd2 & Hd3); [apply Hq, length_insert|].
        apply IH; [apply Hsync, Hd1 | apply Hstep; assumption].
    + destruct (drop_pending_wf events event Hwf) as (Hd1 & Hd2 & Hd3).
      apply IH; [apply Hsync, Hd1 | apply Hstep; assumption].
Qed.

(** On a queue whose indices are inside the array, reconciliation returns. *)
Lemma update_events_total (events : dmxdev_events_queue) (bytes_read : Z) :
  queue_wf events ->
  exists events',
    dvb_dmxdev_update_events events bytes_read = Some events'
    /\ queue_wf events'.
Proof.
  intros Hwf. unfold dvb_dmxdev_update_events.
  destruct (negb (data_read_event_masked events =? 0));
    [exists events; auto|].
  destruct (update_events_notified_total (Z.to_nat DMX_EVENT_QUEUE_SIZE)
              events bytes_read Hwf) as (e1 & b1 & -> & Hwf1).
  { pose proof (slots_between_bound (read_index events)
                  (notified_index events)). lia. }
  cbn [mbind option_bind].
  destruct (b1 =? 0); [exists e1; auto|].
  destruct (update_events_pending_total (Z.to_nat DMX_EVENT_QUEUE_SIZE)
              e1 b1 Hwf1) as (e2 & b2 & -> & Hwf2).
  { pose proof (slots_between_bound (notified_index e1) (write_index e1)).
    lia. }
  cbn [mbind option_bind].
  destruct (negb (b2 =? 0)); eexists; (split; [reflexivity|]);
    [|exact Hwf2].
  destruct Hwf2 as (? & ? & ? & ?). unfold queue_wf. simpl. auto.
Qed.

(** ** One PES event at the head of the queue

    [dvb_dmxdev_update_events] on a queue whose oldest notified event is a
    PES event, called with no more bytes than the event has left. *)

Lemma update_events_notified_0 (fuel : nat) (events : dmxdev_events_queue) :
  update_events_notified fuel events 0 = Some (events, 0).
Proof.
  destruct fuel; cbn [update_events_notified];
    change (0 =? 0) with true; cbn [negb]; rewrite andb_false_r; reflexivity.
Qed.

Lemma update_events_head_pes (events : dmxdev_events_queue)
    (event : dmx_pes_event_info) (b : Z) :
  queue_wf events ->
  data_read_event_masked events = 0 ->
  read_index events <> notified_index events ->
  queue events !! Z.to_nat (read_index events) = Some (EvNewPes event) ->
  pes_total_length event < 2 ^ 32 ->
  0 < b < 2 ^ 31 -> b <= pes_total_length event ->
  exists events',
    dvb_dmxdev_update_events events b = Some events'
    /\ queue_wf events'
    /\ data_read_event_masked events' = 0
    /\ notified_index events' = notified_index events
    /\ write_index events' = write_index events
    /\ bytes_read_no_event events' = bytes_read_no_event events
    /\ (b < pes_total_length event ->
        read_index events' = read_index events
        /\ exists event',
             queue events' !! Z.to_nat (read_index events)
             = Some (EvNewPes event')
             /\ pes_total_length event' = pes_total_length event - b)
    /\ (b = pes_total_length event ->
        read_index events'
        = dvb_dmxdev_advance_event_idx (read_index events)).
Proof.
  intros Hwf Hmasked Hne Hev Ht Hb Hle.
  pose proof Hwf as (Hr & Hw & Hn & Hl).
  unfold dvb_dmxdev_update_events. rewrite Hmasked.
  change (negb (0 =? 0)) with false. cbn iota.
  destruct (Z.to_nat DMX_EVENT_QUEUE_SIZE) as [|fuel] eqn:Hfuel; [lia|].
  cbn [update_events_notified].
  destruct (Z.eqb_spec (read_index events) (notified_index events));
    [contradiction|].
  destruct (Z.eqb_spec b 0); [lia|]. cbn [negb andb].
  rewrite Hev. cbn [mbind option_bind update_data_event].
  assert (Z.to_nat (read_index events) < length (queue events))%nat
    as Hin by lia.
  destruct (Z_lt_le_dec b (pes_total_length event)) as [Hlt|Hge].
  - destruct (update_pes_event_partial event b) as [Hres Hlen]; [lia..|].
    destruct (dvb_dmxdev_update_pes_event event b) as [res event'].
    simpl in Hres, Hlen. subst res. change (0 =? 0) with true. cbn iota.
    rewrite update_events_notified_0. cbn [mbind option_bind].
    change (0 =? 0) with true. cbn iota.
    eexists. split; [reflexivity|].
    split; [unfold queue_wf; simpl; rewrite length_insert; auto|].
    repeat (split; [assumption || reflexivity|]).
    split; [|lia]. intros _. split; [reflexivity|].
    exists event'. split; [|exact Hlen].
    simpl. apply list_lookup_insert_eq. exact Hin.
  - rewrite update_pes_event_retire by lia.
    destruct (Z.eqb_spec (pes_total_length event) 0); [lia|].
    replace (b - pes_total_length event) with 0 by lia.
    change (s32 0) with 0.
    rewrite update_events_notified_0. cbn [mbind option_bind].
    change (0 =? 0) with true. cbn iota.
    pose proof (advance_event_idx_range _ Hr) as Hadv.
    eexists. split; [reflexivity|].
    split; [unfold queue_wf; simpl; rewrite length_insert; auto|].
    repeat (split; [assumption || reflexivity|]).
    split; [lia|]. intros _. reflexivity.
Qed.

Lemma update_events_chunks_pes (chunks : list Z) :
  Forall (fun b => 0 < b < 2 ^ 31) chunks ->
  forall (events : dmxdev_events_queue) (event : dmx_pes_event_info),
  queue_wf events ->
  data_read_event_masked events = 0 ->
  read_index events <> notified_index events ->
  queue events !! Z.to_nat (read_index events) = Some (EvNewPes event) ->
  0 < pes_total_length event < 2 ^ 32 ->
  sum_bytes chunks <= pes_total_length event ->
  exists events',
    update_events_chunks events chunks = Some events'
    /\ notified_index events' = notified_index events
    /\ write_index events' = write_index events
    /\ bytes_read_no_event events' = bytes_read_no_event events
    /\ if sum_bytes chunks <? pes_total_length event then
         read_index events' = read_index events
         /\ exists event',
              queue events' !! Z.to_nat (read_index events)
              = Some (EvNewPes event')
              /\ pes_total_length event'
                 = pes_total_length event - sum_bytes chunks
       else
         read_index events'
         = dvb_dmxdev_advance_event_idx (read_index events).
Proof.
  induction 1 as [|b chunks Hb Hall IH];
    intros events event Hwf Hmasked Hne Hev Ht Hsum.
  - change (sum_bytes []) with 0 in *.
    destruct (Z.ltb_spec 0 (pes_total_length event)); [|lia].
    exists events. do 4 (split; [reflexivity|]).
    split; [reflexivity|]. exists event. split; [exact Hev | lia].
  - pose proof (sum_bytes_nonneg chunks Hall) as Hs.
    change (sum_bytes (b :: chunks)) with (b + sum_bytes chunks) in *.
    destruct (update_events_head_pes events event b)
      as (e1 & Hup & Hwf1 & Hm1 & Hn1 & Hw1 & Hc1 & Hpart & Hret);
      try assumption; try lia.
    cbn [update_events_chunks]. rewrite Hup. cbn [mbind option_bind].
    destruct (Z_lt_le_dec b (pes_total_length event)) as [Hlt|Hge].
    + destruct (Hpart Hlt) as (Hr1 & event' & Hev1 & Hlen1).
      destruct (IH e1 event') as (e2 & -> & Hn2 & Hw2 & Hc2 & Hrest);
        try assumption; try (rewrite Hr1; congruence); try lia.
      exists e2. split; [reflexivity|].
      split; [congruence|]. split; [congruence|]. split; [congruence|].
      rewrite Hlen1, Hr1 in Hrest.
      destruct (Z.ltb_spec (sum_bytes chunks) (pes_total_length event - b));
        destruct (Z.ltb_spec (b + sum_bytes chunks) (pes_total_length event));
        try lia.
      destruct Hrest as (Hr2 & e' & He' & Hl').
      split; [exact Hr2|]. exists e'. split; [exact He' | lia].
    + assert (sum_bytes chunks = 0) as H0 by lia.
      assert (chunks = []) as ->.
      { destruct Hall as [|c cs Hc Hcs]; [reflexivity|].
        pose proof (sum_bytes_nonneg cs Hcs).
        change (sum_bytes (c :: cs)) with (c + sum_bytes cs) in H0. lia. }
      exists e1. split; [reflexivity|].
      repeat (split; [assumption|]).
      destruct (Z.ltb_spec (b + sum_bytes []) (pes_total_length event));
        [change (sum_bytes []) with 0 in *; lia|].
      apply Hret. lia.
Qed.

(** C1.  A call of the PES updater with fewer bytes than the event's
    [total_length] returns 0 and takes exactly those bytes off
    [total_length], which so decreases strictly; a call with at least
    [total_length] bytes returns [total_length] (the event is retired).
    Hence, whatever the chunks the drained bytes come in, the event stays
    queued, with what is left of its length, as long as the chunks add up
    to less than its [total_length], and is retired, with [total_length]
    bytes attributed to it, as soon as they add up to it.  So it is in the
    queue itself: with the event at [read_index], successive calls of
    [dvb_dmxdev_update_events] leave it there, shortened by the bytes
    drained so far, and move [read_index] past it at the call that completes
    its [total_length]. *)
Theorem update_pes_event_converges (event : dmx_pes_event_info)
    (chunks : list Z) (events : dmxdev_events_queue) :
  0 < pes_total_length event < 2 ^ 32 ->
  Forall (fun b => 0 < b < 2 ^ 31) chunks ->
  (forall (e : dmx_pes_event_info) (b : Z),
     0 < b < 2 ^ 31 -> b < pes_total_length e < 2 ^ 32 ->
     fst (dvb_dmxdev_update_pes_event e b) = 0
     /\ pes_total_length (snd (dvb_dmxdev_update_pes_event e b))
        = pes_total_length e - b
     /\ pes_total_length (snd (dvb_dmxdev_update_pes_event e b))
        < pes_total_length e)
  /\ (forall (e : dmx_pes_event_info) (b : Z),
        0 < b < 2 ^ 31 -> 0 <= pes_total_length e <= b ->
        dvb_dmxdev_update_pes_event e b = (pes_total_length e, e))
  /\ (if sum_bytes chunks <? pes_total_length event then
        exists event',
          pes_event_drain event chunks = (sum_bytes chunks, Some event')
          /\ pes_total_length event'
             = pes_total_length event - sum_bytes chunks
      else pes_event_drain event chunks = (pes_total_length event, None))
  /\ (queue_wf events ->
      data_read_event_masked events = 0 ->
      read_index events <> notified_index events ->
      queue events !! Z.to_nat (read_index events) = Some (EvNewPes event) ->
      sum_bytes chunks <= pes_total_length event ->
      exists events',
        update_events_chunks events chunks = Some events'
        /\ notified_index events' = notified_index events
        /\ write_index events' = write_index events
        /\ bytes_read_no_event events' = bytes_read_no_event events
        /\ if sum_bytes chunks <? pes_total_length event then
             read_index events' = read_index events
             /\ exists event',
                  queue events' !! Z.to_nat (read_index events)
                  = Some (EvNewPes event')
                  /\ pes_total_length event'
                     = pes_total_length event - sum_bytes chunks
           else
             read_index events'
             = dvb_dmxdev_advance_event_idx (read_index events)).
Proof.
  intros Ht Hall. split; [|split; [|split]].
  - intros e b Hb He.
    destruct (update_pes_event_partial e b) as [H1 H2]; [lia..|].
    rewrite H2. split; [exact H1 | lia].
  - intros e b Hb He. apply update_pes_event_retire; lia.
  - apply pes_event_drain_spec; assumption.
  - intros Hwf Hmasked Hne Hev Hsum.
    apply update_events_chunks_pes; assumption.
Qed.

(** ** Releasing data *)

(** C9 (amended).  ReleaseData on a filter whose buffer is mapped, and on
    the DVR device opened read-only: a count above what the ring buffer
    holds fails with [-EINVAL] and leaves the read cursor and the event
    queue as they are; a count of zero succeeds and changes nothing; any
    other count advances the read cursor by it, modulo the buffer size, and
    reconciles the event queue by exactly that count.  On a filter without
    a mapped buffer, and on the DVR device opened for writing, the call
    fails with [-EINVAL] whatever the count, zero included. *)
Theorem release_data_spec (dmxdevfilter : dmxdev_filter) (dev : dmxdev)
    (f_flags : access_mode) (bytes_count : Z) :
  queue_wf (events dmxdevfilter) ->
  queue_wf (dvr_output_events dev) ->
  (data (buffer dmxdevfilter) = None ->
   dvb_dmxdev_release_data dmxdevfilter bytes_count
   = Some (- EINVAL, dmxdevfilter))
  /\ (is_Some (data (buffer dmxdevfilter)) ->
      (bytes_count = 0 ->
       dvb_dmxdev_release_data dmxdevfilter bytes_count
       = Some (0, dmxdevfilter))
      /\ (dvb_ringbuffer_avail (buffer dmxdevfilter) < bytes_count ->
          bytes_count <> 0 ->
          dvb_dmxdev_release_data dmxdevfilter bytes_count
          = Some (- EINVAL, dmxdevfilter))
      /\ (0 < bytes_count <= dvb_ringbuffer_avail (buffer dmxdevfilter) ->
          bytes_count < 2 ^ 31 ->
          exists events',
            dvb_dmxdev_update_events (events dmxdevfilter) bytes_count
            = Some events'
            /\ dvb_dmxdev_release_data dmxdevfilter bytes_count
               = Some (0,
                       with_events
                         (with_buffer dmxdevfilter
                            (DVB_RINGBUFFER_SKIP (buffer dmxdevfilter)
                               bytes_count))
                         events')
            /\ pread (DVB_RINGBUFFER_SKIP (buffer dmxdevfilter) bytes_count)
               = (pread (buffer dmxdevfilter) + bytes_count)
                 mod size (buffer dmxdevfilter)))
  /\ (f_flags <> O_RDONLY ->
      dvb_dvr_release_data dev f_flags bytes_count = Some (- EINVAL, dev))
  /\ (f_flags = O_RDONLY ->
      (bytes_count = 0 ->
       dvb_dvr_release_data dev f_flags bytes_count = Some (0, dev))
      /\ (dvb_ringbuffer_avail (dvr_buffer dev) < bytes_count ->
          bytes_count <> 0 ->
          dvb_dvr_release_data dev f_flags bytes_count
          = Some (- EINVAL, dev))
      /\ (0 < bytes_count <= dvb_ringbuffer_avail (dvr_buffer dev) ->
          bytes_count < 2 ^ 31 ->
          exists events',
            dvb_dmxdev_update_events (dvr_output_events dev) bytes_count
            = Some events'
            /\ dvb_dvr_release_data dev f_flags bytes_count
               = Some (0,
                       with_dvr_output_events
                         (with_dvr_buffer dev
                            (DVB_RINGBUFFER_SKIP (dvr_buffer dev)
                               bytes_count))
                         events')
            /\ pread (DVB_RINGBUFFER_SKIP (dvr_buffer dev) bytes_count)
               = (pread (dvr_buffer dev) + bytes_count)
                 mod size (dvr_buffer dev))).
Proof.
  intros Hwf Hwf_dvr. split; [|split; [|split]].
  - intros Hdata. unfold dvb_dmxdev_release_data. rewrite Hdata. reflexivity.
  - intros Hdata. unfold dvb_dmxdev_release_data.
    rewrite (bool_decide_eq_true_2 _ Hdata). cbn [negb].
    split; [intros ->; reflexivity|]. split.
    + intros Hlt Hne. destruct (Z.eqb_spec bytes_count 0); [contradiction|].
      destruct (Z.ltb_spec (dvb_ringbuffer_avail (buffer dmxdevfilter))
                  bytes_count); [reflexivity | lia].
    + intros Hle Hrange. destruct (Z.eqb_spec bytes_count 0); [lia|].
      destruct (Z.ltb_spec (dvb_ringbuffer_avail (buffer dmxdevfilter))
                  bytes_count); [lia|].
      rewrite s32_small by lia.
      destruct (update_events_total (events dmxdevfilter) bytes_count Hwf)
        as (events' & Hupd & _).
      exists events'. rewrite Hupd. repeat split.
  - intros Hmode. destruct f_flags; [contradiction | reflexivity..].
  - intros ->. unfold dvb_dvr_release_data.
    split; [intros ->; reflexivity|]. split.
    + intros Hlt Hne. destruct (Z.eqb_spec bytes_count 0); [contradiction|].
      destruct (Z.ltb_spec (dvb_ringbuffer_avail (dvr_buffer dev))
                  bytes_count); [reflexivity | lia].
    + intros Hle Hrange. destruct (Z.eqb_spec bytes_count 0); [lia|].
      destruct (Z.ltb_spec (dvb_ringbuffer_avail (dvr_buffer dev))
                  bytes_count); [lia|].
      rewrite s32_small by lia.
      destruct (update_events_total (dvr_output_events dev) bytes_count
                  Hwf_dvr) as (events' & Hupd & _).
      exists events'. rewrite Hupd. repeat split.
Qed.

(** ** Reads of bytes that are there *)

(** A reader whose condition holds does not sleep. *)
Lemma wait_event_ready (from : read_from) (env : list wakeup) (dev : dmxdev) :
  dvb_dmxdev_check_data from dev = true ->
  wait_event_interruptible from env dev = Some (0, false, dev, env).
Proof. intros H. destruct env; simpl; rewrite H; reflexivity. Qed.

(** A read of no more than what the buffer of a running filter holds, with
    no error pending, does not sleep and hands out just these bytes. *)
Lemma buffer_read_available (non_blocking : bool) (count : Z)
    (env : list wakeup) (dev : dmxdev) :
  let src := buffer (filter dev) in
  0 < count <= dvb_ringbuffer_avail src ->
  is_Some (data src) -> error src = 0 ->
  state (filter dev) = DMXDEV_STATE_GO ->
  dvb_dmxdev_buffer_read FromFilter non_blocking count env dev
  = Some {| ret := count;
            user_buf := ring_bytes (default [] (data src)) (size src)
                          (pread src) (Z.to_nat count);
            dev_after :=
              with_filter dev
                (with_buffer (filter dev) (DVB_RINGBUFFER_SKIP src count));
            env_after := env |}.
Proof.
  intros src Hcount Hdata Herr Hstate.
  assert (dvb_ringbuffer_empty src = false) as Hne.
  { unfold dvb_ringbuffer_empty. apply Z.eqb_neq. intros Heq.
    unfold dvb_ringbuffer_avail in Hcount. rewrite Heq, Z.sub_diag in Hcount.
    rewrite Zmod_0_l in Hcount. lia. }
  unfold dvb_dmxdev_buffer_read. cbn [read_src]. fold src.
  rewrite (bool_decide_eq_true_2 _ Hdata), Herr. cbn [negb Z.eqb].
  destruct (Z.to_nat count) as [|fuel] eqn:Hfuel; [lia|].
  cbn [buffer_read_loop read_src]. fold src.
  destruct (Z.leb_spec count 0); [lia|].
  rewrite Hne, !andb_false_r.
  rewrite wait_event_ready.
  2:{ unfold dvb_dmxdev_check_data. cbn [read_src]. fold src.
      rewrite Hne. cbn [negb]. apply orb_true_iff. left.
      apply orb_true_iff. left. apply orb_true_r. }
  cbn [mbind option_bind read_src]. fold src.
  unfold filter_not_running. rewrite Hstate.
  cbn [Z.ltb Z.compare negb andb bool_decide decide_rel
       dmxdev_state_eq_dec].
  rewrite (bool_decide_eq_true_2 _ Hdata), Herr. cbn [negb Z.eqb].
  destruct (Z.ltb_spec count (dvb_ringbuffer_avail src)) as [Hlt|Hge].
  - unfold dvb_ringbuffer_read_user.
    destruct (Z.ltb_spec count 0); [lia|].
    rewrite Z.sub_diag.
    destruct fuel; cbn [buffer_read_loop Z.leb Z.compare];
      unfold read_return; rewrite Z.sub_0_r;
      (destruct (Z.eqb_spec count 0); [lia|]); rewrite Hfuel; reflexivity.
  - assert (dvb_ringbuffer_avail src = count) as -> by lia.
    unfold dvb_ringbuffer_read_user.
    destruct (Z.ltb_spec count 0); [lia|].
    rewrite Z.sub_diag.
    destruct fuel; cbn [buffer_read_loop Z.leb Z.compare];
      unfold read_return; rewrite Z.sub_0_r;
      (destruct (Z.eqb_spec count 0); [lia|]); rewrite Hfuel; reflexivity.
Qed.

(** A non-blocking read of more than the buffer holds hands out what is
    there. *)
Lemma buffer_read_nonblocking_rest (count : Z) (env : list wakeup)
    (dev : dmxdev) :
  let src := buffer (filter dev) in
  0 <= pwrite src < size src ->
  0 < dvb_ringbuffer_avail src < count ->
  is_Some (data src) -> error src = 0 ->
  state (filter dev) = DMXDEV_STATE_GO ->
  dvb_dmxdev_buffer_read FromFilter true count env dev
  = Some {| ret := dvb_ringbuffer_avail src;
            user_buf := ring_bytes (default [] (data src)) (size src)
                          (pread src) (Z.to_nat (dvb_ringbuffer_avail src));
            dev_after :=
              with_filter dev
                (with_buffer (filter dev)
                   (DVB_RINGBUFFER_SKIP src (dvb_ringbuffer_avail src)));
            env_after := env |}.
Proof.
  intros src Hpw Hcount Hdata Herr Hstate.
  assert (dvb_ringbuffer_empty src = false) as Hne.
  { unfold dvb_ringbuffer_empty. apply Z.eqb_neq. intros Heq.
    unfold dvb_ringbuffer_avail in Hcount. rewrite Heq, Z.sub_diag in Hcount.
    rewrite Zmod_0_l in Hcount. lia. }
  assert (dvb_ringbuffer_empty
            (DVB_RINGBUFFER_SKIP src (dvb_ringbuffer_avail src)) = true)
    as Hempty.
  { unfold dvb_ringbuffer_empty, DVB_RINGBUFFER_SKIP, dvb_ringbuffer_avail.
    cbn [pread pwrite]. apply Z.eqb_eq.
    rewrite Zplus_mod_idemp_r.
    replace (pread src + (pwrite src - pread src)) with (pwrite src) by lia.
    apply Z.mod_small. exact Hpw. }
  unfold dvb_dmxdev_buffer_read. cbn [read_src]. fold src.
  rewrite (bool_decide_eq_true_2 _ Hdata), Herr. cbn [negb Z.eqb].
  destruct (Z.to_nat count) as [|[|fuel]] eqn:Hfuel; [lia | lia |].
  cbn [buffer_read_loop read_src]. fold src.
  destruct (Z.leb_spec count 0); [lia|].
  rewrite Hne, !andb_false_r.
  rewrite wait_event_ready.
  2:{ unfold dvb_dmxdev_check_data. cbn [read_src]. fold src.
      rewrite Hne. cbn [negb]. apply orb_true_iff. left.
      apply orb_true_iff. left. apply orb_true_r. }
  cbn [mbind option_bind read_src]. fold src.
  unfold filter_not_running. rewrite Hstate.
  cbn [Z.ltb Z.compare negb andb bool_decide decide_rel
       dmxdev_state_eq_dec].
  rewrite (bool_decide_eq_true_2 _ Hdata), Herr. cbn [negb Z.eqb].
  destruct (Z.ltb_spec count (dvb_ringbuffer_avail src)); [lia|].
  unfold dvb_ringbuffer_read_user.
  destruct (Z.ltb_spec (dvb_ringbuffer_avail src) 0); [lia|].
  destruct (Z.leb_spec (count - dvb_ringbuffer_avail src) 0); [lia|].
  cbn [with_read_src read_src filter buffer with_filter with_buffer].
  rewrite Hempty. cbn [andb].
  unfold read_return.
  replace (count - (count - dvb_ringbuffer_avail src))
    with (dvb_ringbuffer_avail src) by lia.
  destruct (Z.eqb_spec (dvb_ringbuffer_avail src) 0); [lia|].
  reflexivity.
Qed.

(** ** End of stream on a recording filter *)

(** An event that is accepted takes the slot at [write_index]. *)
Lemma add_event_stores (events : dmxdev_events_queue)
    (event : dmx_filter_event) :
  queue_wf events ->
  mask_test (disable_mask (event_mask events)) (ev_type event) = false ->
  bytes_read_no_event events = 0 ->
  dvb_dmxdev_advance_event_idx (write_index events) <> read_index events ->
  let events' := snd (dvb_dmxdev_add_event events event) in
  fst (dvb_dmxdev_add_event events event) = 0
  /\ queue events' = <[Z.to_nat (write_index events) := event]> (queue events)
  /\ write_index events'
     = dvb_dmxdev_advance_event_idx (write_index events)
  /\ read_index events' = read_index events
  /\ event_mask events' = event_mask events
  /\ bytes_read_no_event events' = 0
  /\ queue_wf events'.
Proof.
  intros Hwf Hmask Hcredit Hroom events'.
  pose proof (add_event_wf events event Hwf) as Hwf'. fold events' in Hwf'.
  subst events'. revert Hwf'.
  unfold dvb_dmxdev_add_event, add_event_credit.
  rewrite Hmask, Hcredit. cbn [Z.eqb].
  destruct (Z.eqb_spec (dvb_dmxdev_advance_event_idx (write_index events))
              (read_index events)); [contradiction|].
  destruct (mask_test (no_wakeup_mask _) _); simpl; intros Hwf';
    repeat split; auto; apply Hwf'.
Qed.



(** ** Reading a section in small pieces *)

Lemma ring_bytes_app (d : list Z) (sz pos a b : Z) :
  0 <= a -> 0 <= b ->
  ring_bytes d sz pos (Z.to_nat (a + b))
  = ring_bytes d sz pos (Z.to_nat a)
    ++ ring_bytes d sz ((pos + a) mod sz) (Z.to_nat b).
Proof.
  intros Ha Hb. unfold ring_bytes.
  rewrite Z2Nat.inj_add by lia. rewrite seq_app, map_app. f_equal.
  rewrite (Nat.add_comm 0 (Z.to_nat a)).
  rewrite <- (fmap_add_seq (Z.to_nat a) 0).
  change (map ?f (Nat.add ?j <$> ?l)) with (f <$> (Nat.add j <$> l)).
  rewrite <- list_fmap_compose. apply list_fmap_ext. intros _ i _. simpl.
  do 3 f_equal. rewrite Zplus_mod_idemp_l. f_equal. lia.
Qed.

Lemma read_sec_calls_app (n m : nat) (non_blocking : bool) (count : Z) :
  forall (env : list wakeup) (dev : dmxdev),
  read_sec_calls (n + m) non_blocking count env dev
  = '(rs1, dev1, env1) ← read_sec_calls n non_blocking count env dev;
    '(rs2, dev2, env2) ← read_sec_calls m non_blocking count env1 dev1;
    Some (rs1 ++ rs2, dev2, env2).
Proof.
  induction n as [|n IH]; intros env dev; cbn [read_sec_calls Nat.add].
  - cbn [mbind option_bind].
    destruct (read_sec_calls m non_blocking count env dev)
      as [[[rs2 dev2] env2]|]; reflexivity.
  - destruct (dvb_dmxdev_read_sec non_blocking count env dev) as [r|];
      [|reflexivity].
    cbn [mbind option_bind]. rewrite IH.
    destruct (read_sec_calls n non_blocking count (env_after r) (dev_after r))
      as [[[rs1 dev1] env1]|]; [|reflexivity].
    cbn [mbind option_bind].
    destruct (read_sec_calls m non_blocking count env1 dev1)
      as [[[rs2 dev2] env2]|]; reflexivity.
Qed.

Section section_in_buffer.

(** The buffer [d] of size [sz] holds, from the read cursor [p0] on, at
    least [held] bytes. *)
Variables (d : list Z) (sz p0 pw held : Z).
Hypothesis size_pos : 0 < sz.
Hypothesis held_avail : held <= (pw - p0) mod sz.

Lemma avail_at (k : Z) :
  0 <= k <= held -> (pw - (p0 + k) mod sz) mod sz = (pw - p0) mod sz - k.
Proof.
  intros Hk. rewrite Zminus_mod_idemp_r.
  replace (pw - (p0 + k)) with (pw - p0 - k) by lia.
  rewrite <- Zminus_mod_idemp_l.
  pose proof (Z.mod_pos_bound (pw - p0) sz size_pos).
  apply Z.mod_small. lia.
Qed.

Lemma sec_reader_read (non_blocking : bool) (env : list wakeup)
    (dev : dmxdev) (k t m : Z) :
  sec_reader_at d sz p0 pw dev k t -> 0 <= k -> 0 < m -> k + m <= held ->
  dvb_dmxdev_buffer_read FromFilter non_blocking m env dev
  = Some {| ret := m;
            user_buf := ring_bytes d sz ((p0 + k) mod sz) (Z.to_nat m);
            dev_after :=
              with_filter dev
                (with_buffer (filter dev)
                   {| data := Some d; size := sz;
                      pread := (p0 + (k + m)) mod sz; pwrite := pw;
                      error := 0 |});
            env_after := env |}.
Proof.
  intros (Hstate & Hbuf & Htodo & Hlen) Hk Hm Hheld.
  rewrite buffer_read_available.
  - rewrite Hbuf. unfold DVB_RINGBUFFER_SKIP. simpl.
    rewrite Zplus_mod_idemp_l, Z.add_assoc. reflexivity.
  - rewrite Hbuf. unfold dvb_ringbuffer_avail. simpl.
    rewrite avail_at by lia. lia.
  - rewrite Hbuf. simpl. eauto.
  - rewrite Hbuf. reflexivity.
  - exact Hstate.
Qed.

(** A read in the middle of a section hands out [min count todo] bytes. *)
Lemma read_sec_payload_step (non_blocking : bool) (env : list wakeup)
    (dev : dmxdev) (k t count : Z) :
  let m := Z.min count t in
  sec_reader_at d sz p0 pw dev k t ->
  0 <= k -> 0 < t -> 0 < count < 2 ^ 31 -> k + m <= held ->
  exists r,
    dvb_dmxdev_read_sec non_blocking count env dev = Some r
    /\ ret r = m
    /\ user_buf r = ring_bytes d sz ((p0 + k) mod sz) (Z.to_nat m)
    /\ env_after r = env
    /\ sec_reader_at d sz p0 pw (dev_after r) (k + m) (t - m).
Proof.
  intros m Hat Hk Ht Hcount Hheld.
  pose proof Hat as (Hstate & Hbuf & Htodo & Hlen).
  unfold dvb_dmxdev_read_sec, read_sec_payload. rewrite Htodo.
  destruct (Z.leb_spec t 0); [lia|].
  assert ((if t <? count then t else count) = m) as ->.
  { subst m. destruct (Z.ltb_spec t count); lia. }
  rewrite (sec_reader_read non_blocking env dev k t m Hat) by lia.
  cbn [mbind option_bind ret user_buf dev_after env_after].
  rewrite s32_small by lia.
  destruct (Z.ltb_spec m 0); [lia|].
  eexists. split; [reflexivity|]. simpl.
  split; [lia|]. split; [reflexivity|]. split; [reflexivity|].
  unfold sec_reader_at. simpl. rewrite Htodo. auto.
Qed.

(** A read at the start of a section hands out the three header bytes, takes
    the section length from them, and goes on with the payload. *)
Lemma read_sec_header_step (non_blocking : bool) (env : list wakeup)
    (dev : dmxdev) (k count b0 h1 h2 : Z) :
  let len := Z.land (Z.lor (Z.shiftl h1 8) h2) 4095 in
  let m := Z.min (count - 3) len in
  sec_reader_at d sz p0 pw dev k 0 ->
  0 <= k -> 3 < count < 2 ^ 31 -> 0 < len -> k + 3 + m <= held ->
  ring_bytes d sz ((p0 + k) mod sz) 3 = [b0; h1; h2] ->
  exists r,
    dvb_dmxdev_read_sec non_blocking count env dev = Some r
    /\ ret r = 3 + m
    /\ user_buf r = ring_bytes d sz ((p0 + k) mod sz) (Z.to_nat (3 + m))
    /\ env_after r = env
    /\ sec_reader_at d sz p0 pw (dev_after r) (k + 3 + m) (len - m).
Proof.
  intros len m Hat Hk Hcount Hlen_pos Hheld Hheader.
  pose proof Hat as (Hstate & Hbuf & Htodo & Hlen).
  unfold dvb_dmxdev_read_sec. rewrite Htodo.
  change (3 + 0) with 3. change (0 <=? 0) with true. cbv iota.
  destruct (Z.ltb_spec count 3); [lia|]. cbn [Z.eqb].
  rewrite (sec_reader_read non_blocking env dev k 0 3 Hat) by lia.
  cbn [mbind option_bind ret user_buf dev_after env_after].
  rewrite s32_small by lia. cbn [Z.ltb Z.compare].
  change (Z.to_nat 3) with 3%nat. rewrite Hheader.
  cbn [filter with_filter todo with_buffer secheader with_secheader
       with_todo].
  rewrite Htodo.
  change (Z.to_nat (- 0)) with 0%nat. change (0 - 3) with (-3).
  change (-3 <? -3) with false. cbv iota.
  assert (store_header (secheader (filter dev)) 0 [b0; h1; h2]
          = [b0; h1; h2]) as ->.
  { destruct (secheader (filter dev)) as [|x0 [|x1 [|x2 [|]]]];
      try discriminate Hlen. reflexivity. }
  change (default 0 ([b0; h1; h2] !! 1%nat)) with h1.
  change (default 0 ([b0; h1; h2] !! 2%nat)) with h2.
  fold len.
  destruct (Z.eqb_spec (count - 3) 0); [lia|].
  unfold read_sec_payload. cbn [filter with_filter todo with_todo].
  assert ((if len <? count - 3 then len else count - 3) = m) as ->.
  { subst m. destruct (Z.ltb_spec len (count - 3)); lia. }
  match goal with
  | |- context [dvb_dmxdev_buffer_read FromFilter non_blocking m env ?dev1] =>
      assert (sec_reader_at d sz p0 pw dev1 (k + 3) len) as Hat1
  end.
  { unfold sec_reader_at. simpl. repeat split; auto. }
  assert (0 < m <= count - 3 /\ m <= len) as Hm by (unfold m; lia).
  rewrite (sec_reader_read non_blocking env _ (k + 3) len m Hat1) by lia.
  cbn [mbind option_bind ret user_buf dev_after env_after].
  rewrite s32_small by lia.
  destruct (Z.ltb_spec m 0); [lia|].
  eexists. split; [reflexivity|]. simpl.
  split; [lia|]. split.
  { rewrite (ring_bytes_app d sz _ 3 m) by lia.
    change (Z.to_nat 3) with 3%nat. rewrite Hheader.
    rewrite Zplus_mod_idemp_l, Z.add_assoc. reflexivity. }
  split; [reflexivity|].
  unfold sec_reader_at. simpl. repeat split; auto.
Qed.

(** [n] reads of [count] bytes each, with at least that much of the section
    still to come. *)
Lemma read_sec_calls_payload (non_blocking : bool) (env : list wakeup)
    (count : Z) (n : nat) :
  forall (dev : dmxdev) (k t : Z),
  sec_reader_at d sz p0 pw dev k t ->
  0 <= k -> 0 < count < 2 ^ 31 ->
  count * Z.of_nat n <= t -> k + count * Z.of_nat n <= held ->
  exists rs dev',
    read_sec_calls n non_blocking count env dev = Some (rs, dev', env)
    /\ map fst rs = replicate n count
    /\ concat (map snd rs)
       = ring_bytes d sz ((p0 + k) mod sz) (Z.to_nat (count * Z.of_nat n))
    /\ sec_reader_at d sz p0 pw dev' (k + count * Z.of_nat n)
         (t - count * Z.of_nat n).
Proof.
  induction n as [|n IH]; intros dev k t Hat Hk Hcount Ht Hheld.
  - exists [], dev. cbn [read_sec_calls].
    change (Z.of_nat 0) with 0. rewrite Z.mul_0_r, !Z.add_0_r, Z.sub_0_r.
    split; [reflexivity|]. split; [reflexivity|]. split; [reflexivity|].
    exact Hat.
  - cbn [read_sec_calls].
    destruct (read_sec_payload_step non_blocking env dev k t count)
      as (r & -> & Hret & Hbuf & Henv & Hat'); [assumption | lia..|].
    rewrite Z.min_l in Hret, Hbuf, Hat' by lia.
    cbn [mbind option_bind]. rewrite Henv.
    destruct (IH (dev_after r) (k + count) (t - count))
      as (rs & dev' & -> & Hrets & Hbufs & Hat''); [assumption | lia..|].
    cbn [mbind option_bind].
    exists ((ret r, user_buf r) :: rs), dev'. split; [reflexivity|].
    split; [simpl; rewrite Hret, Hrets; reflexivity|]. split.
    + simpl. rewrite Hbuf, Hbufs.
      replace (count * Z.of_nat (S n)) with (count + count * Z.of_nat n)
        by lia.
      rewrite (ring_bytes_app d sz _ count) by lia.
      rewrite Zplus_mod_idemp_l, Z.add_assoc. reflexivity.
    + replace (k + count * Z.of_nat (S n))
        with (k + count + count * Z.of_nat n) by lia.
      replace (t - count * Z.of_nat (S n))
        with (t - count - count * Z.of_nat n) by lia.
      exact Hat''.
Qed.

End section_in_buffer.

Lemma ring_bytes_mod (d : list Z) (sz pos : Z) (n : nat) :
  ring_bytes d sz (pos mod sz) n = ring_bytes d sz pos n.
Proof.
  unfold ring_bytes. apply map_ext. intros i.
  rewrite Zplus_mod_idemp_l. reflexivity.
Qed.

Lemma ring_bytes_split (d : list Z) (sz pos a b : Z) :
  0 <= a -> 0 <= b ->
  ring_bytes d sz pos (Z.to_nat (a + b))
  = ring_bytes d sz pos (Z.to_nat a) ++ ring_bytes d sz (pos + a) (Z.to_nat b).
Proof.
  intros Ha Hb. rewrite ring_bytes_app by lia. rewrite ring_bytes_mod.
  reflexivity.
Qed.

(** C8.  The buffer of a running section filter holds a section header
    [b0], [b1], [b2] whose length bits are 0x12C = 300 (as in 0x01, 0x2C),
    followed by 300 payload bytes.  A caller that reads 8 bytes at a time gets 8 bytes (the header
    and 5 payload bytes) from the first read, 8 bytes from each of the next
    36, and 7 bytes from the 38th: 303 bytes in all, which are the 3 header
    bytes and the 300 payload bytes in the order of the buffer.  After that
    [todo] is 0 and the read cursor is 303 bytes further, so the next read
    starts a new header; when the buffer held no more than these 303 bytes,
    a further non-blocking read returns [-EWOULDBLOCK] and no byte. *)
Theorem read_sec_in_8_byte_reads (non_blocking : bool) (env : list wakeup)
    (dev : dmxdev) (d : list Z) (sz p0 pw b0 b1 b2 : Z) :
  0 < sz -> 0 <= p0 < sz -> 0 <= pw < sz ->
  303 <= (pw - p0) mod sz ->
  state (filter dev) = DMXDEV_STATE_GO ->
  buffer (filter dev)
  = {| data := Some d; size := sz; pread := p0; pwrite := pw; error := 0 |} ->
  todo (filter dev) = 0 ->
  length (secheader (filter dev)) = 3%nat ->
  ring_bytes d sz p0 3 = [b0; b1; b2] ->
  Z.land (Z.lor (Z.shiftl b1 8) b2) 4095 = 300 ->
  exists rs dev',
    read_sec_calls 38 non_blocking 8 env dev = Some (rs, dev', env)
    /\ map fst rs = replicate 37 8 ++ [7]
    /\ sum_bytes (map fst rs) = 303
    /\ concat (map snd rs)
       = [b0; b1; b2] ++ ring_bytes d sz ((p0 + 3) mod sz) 300
    /\ todo (filter dev') = 0
    /\ pread (buffer (filter dev')) = (p0 + 303) mod sz
    /\ ((pw - p0) mod sz = 303 ->
        exists r,
          dvb_dmxdev_read_sec true 8 env dev' = Some r
          /\ ret r = - EWOULDBLOCK /\ user_buf r = []).
Proof.
  intros Hsz Hp0 Hpw Hheld Hstate Hbuf Htodo Hlen Hheader Hbits.
  assert (sec_reader_at d sz p0 pw dev 0 0) as Hat.
  { unfold sec_reader_at. rewrite Z.add_0_r, Z.mod_small by lia. auto. }
  assert (ring_bytes d sz ((p0 + 0) mod sz) 3 = [b0; b1; b2]) as Hheader0.
  { rewrite Z.add_0_r, Z.mod_small by lia. exact Hheader. }
  destruct (read_sec_header_step d sz p0 pw 303 Hsz Hheld non_blocking env
              dev 0 8 b0 b1 b2)
    as (r1 & Hr1 & Hret1 & Hbuf1 & Henv1 & Hat1);
    [exact Hat | lia | lia | rewrite Hbits; reflexivity
    | rewrite Hbits; compute; discriminate | exact Hheader0 |].
  rewrite Hbits in *.
  change (Z.min (8 - 3) 300) with 5 in *.
  change (0 + 3 + 5) with 8 in Hat1. change (300 - 5) with 295 in Hat1.
  change (3 + 5) with 8 in *.
  destruct (read_sec_calls_payload d sz p0 pw 303 Hsz Hheld non_blocking env
              8 36 (dev_after r1) 8 295)
    as (rs2 & dev2 & Hr2 & Hrets2 & Hbufs2 & Hat2);
    [exact Hat1 | lia..|].
  change (8 * Z.of_nat 36) with 288 in *.
  change (8 + 288) with 296 in Hat2. change (295 - 288) with 7 in Hat2.
  destruct (read_sec_payload_step d sz p0 pw 303 Hsz Hheld non_blocking env
              dev2 296 7 8)
    as (r3 & Hr3 & Hret3 & Hbuf3 & Henv3 & Hat3);
    [exact Hat2 | lia..|].
  change (Z.min 8 7) with 7 in *.
  change (296 + 7) with 303 in Hat3. change (7 - 7) with 0 in Hat3.
  exists ((ret r1, user_buf r1) :: rs2 ++ [(ret r3, user_buf r3)]),
    (dev_after r3).
  split.
  { change 38%nat with (S (36 + 1)). cbn [read_sec_calls].
    rewrite Hr1. cbn [mbind option_bind]. rewrite Henv1.
    rewrite read_sec_calls_app, Hr2. cbn [mbind option_bind read_sec_calls].
    rewrite Hr3. cbn [mbind option_bind]. rewrite Henv3. reflexivity. }
  assert (map fst ((ret r1, user_buf r1) :: rs2 ++ [(ret r3, user_buf r3)])
          = replicate 37 8 ++ [7]) as Hrets.
  { cbn [map fst]. rewrite map_app, Hrets2, Hret1, Hret3. reflexivity. }
  split; [exact Hrets|]. split; [rewrite Hrets; reflexivity|]. split.
  { cbn [map snd concat]. rewrite map_app, concat_app. cbn [map snd concat].
    rewrite Hbuf1, Hbufs2, Hbuf3, app_nil_r, !ring_bytes_mod, Z.add_0_r.
    rewrite <- Hheader.
    transitivity (ring_bytes d sz p0 (Z.to_nat (8 + (288 + 7)))).
    - rewrite (ring_bytes_split d sz p0 8 (288 + 7)) by lia.
      rewrite (ring_bytes_split d sz (p0 + 8) 288 7) by lia.
      replace (p0 + 8 + 288) with (p0 + 296) by lia. reflexivity.
    - change (Z.to_nat (8 + (288 + 7))) with (Z.to_nat (3 + 300)).
      rewrite (ring_bytes_split d sz p0 3 300) by lia. reflexivity. }
  destruct Hat3 as (Hstate3 & Hbuf3' & Htodo3 & Hlen3).
  split; [exact Htodo3|]. split; [rewrite Hbuf3'; reflexivity|].
  intros Hexact.
  assert ((p0 + 303) mod sz = pw) as Hcursor.
  { rewrite <- Hexact, Zplus_mod_idemp_r.
    replace (p0 + (pw - p0)) with pw by lia. apply Z.mod_small. lia. }
  unfold dvb_dmxdev_read_sec. rewrite Htodo3.
  change (0 <=? 0) with true. change (3 + 0) with 3.
  change (8 <? 3) with false. change (3 =? 0) with false. cbv iota.
  unfold dvb_dmxdev_buffer_read. cbn [read_src]. rewrite Hbuf3'.
  cbn [data error bool_decide negb Z.eqb].
  change (Z.to_nat 3) with 3%nat. cbn [buffer_read_loop read_src].
  rewrite Hbuf3'. unfold dvb_ringbuffer_empty at 1. cbn [pread pwrite].
  rewrite Hcursor, Z.eqb_refl.
  eexists. split; [reflexivity|]. split; reflexivity.
Qed.

(** * Further properties of the code *)

(** ** The event queue as a queue *)

Lemma advance_event_idx_mod (i : Z) :
  0 <= i < DMX_EVENT_QUEUE_SIZE ->
  dvb_dmxdev_advance_event_idx i = (i + 1) mod DMX_EVENT_QUEUE_SIZE.
Proof.
  intros Hi. rewrite advance_event_idx_spec by lia.
  destruct (Z.eqb_spec (i + 1) DMX_EVENT_QUEUE_SIZE) as [Heq|Hne].
  - rewrite Heq, Z.mod_same by lia. reflexivity.
  - rewrite Z.mod_small by lia. reflexivity.
Qed.

Lemma slot_index (from k : Z) :
  0 <= from < DMX_EVENT_QUEUE_SIZE -> 0 <= k < DMX_EVENT_QUEUE_SIZE ->
  (from + k) mod DMX_EVENT_QUEUE_SIZE
  = if from + k <? DMX_EVENT_QUEUE_SIZE then from + k
    else from + k - DMX_EVENT_QUEUE_SIZE.
Proof.
  intros Hf Hk. destruct (Z.ltb_spec (from + k) DMX_EVENT_QUEUE_SIZE).
  - apply Z.mod_small. lia.
  - rewrite <- (Z.mod_add _ (-1)) by lia. apply Z.mod_small. lia.
Qed.

Lemma slots_between_spec (a b : Z) :
  0 <= a < DMX_EVENT_QUEUE_SIZE -> 0 <= b < DMX_EVENT_QUEUE_SIZE ->
  slots_between a b = if a <=? b then b - a else b - a + DMX_EVENT_QUEUE_SIZE.
Proof. intros Ha Hb. unfold slots_between. apply index_distance; lia. Qed.

Lemma slot_events_snoc (q : list dmx_filter_event) (from : Z) (count : nat) :
  slot_events q from (S count)
  = slot_events q from count
    ++ option_list
         (q !! Z.to_nat ((from + Z.of_nat count) mod DMX_EVENT_QUEUE_SIZE)).
Proof.
  unfold slot_events. rewrite seq_S, omap_app. simpl.
  destruct (q !! _); reflexivity.
Qed.

Lemma slot_events_cons (q : list dmx_filter_event) (from : Z) (count : nat) :
  0 <= from < DMX_EVENT_QUEUE_SIZE ->
  slot_events q from (S count)
  = option_list (q !! Z.to_nat from)
    ++ slot_events q (dvb_dmxdev_advance_event_idx from) count.
Proof.
  intros Hf. induction count as [|count IH].
  - unfold slot_events. simpl. rewrite Z.add_0_r, Z.mod_small by lia.
    destruct (q !! _); reflexivity.
  - rewrite slot_events_snoc, IH, <- app_assoc. f_equal.
    rewrite slot_events_snoc. f_equal.
    assert ((dvb_dmxdev_advance_event_idx from + Z.of_nat count)
              mod DMX_EVENT_QUEUE_SIZE
            = (from + Z.of_nat (S count)) mod DMX_EVENT_QUEUE_SIZE) as ->;
      [|reflexivity].
    rewrite advance_event_idx_mod by lia.
    rewrite Zplus_mod_idemp_l. f_equal. lia.
Qed.

Lemma slot_events_insert (q : list dmx_filter_event) (from : Z)
    (count : nat) (i : nat) (x : dmx_filter_event) :
  (forall k : nat, (k < count)%nat ->
     Z.to_nat ((from + Z.of_nat k) mod DMX_EVENT_QUEUE_SIZE) <> i) ->
  slot_events (<[i := x]> q) from count = slot_events q from count.
Proof.
  induction count as [|count IH]; intros Hout; [reflexivity|].
  rewrite !slot_events_snoc, IH by (intros k Hk; apply Hout; lia).
  rewrite list_lookup_insert_ne; [reflexivity|].
  intros Heq. apply (Hout count); [lia | auto].
Qed.

Lemma slot_events_length (q : list dmx_filter_event) (from : Z)
    (count : nat) :
  Z.of_nat (length q) = DMX_EVENT_QUEUE_SIZE ->
  length (slot_events q from count) = count.
Proof.
  intros Hl. induction count as [|count IH]; [reflexivity|].
  rewrite slot_events_snoc, length_app, IH.
  destruct (lookup_lt_is_Some_2 q
              (Z.to_nat ((from + Z.of_nat count) mod DMX_EVENT_QUEUE_SIZE)))
    as [e ->]; [|simpl; lia].
  pose proof (Z.mod_pos_bound (from + Z.of_nat count) DMX_EVENT_QUEUE_SIZE).
  lia.
Qed.

(** In an ordered queue the slot after [write_index], when it is not the one
    at [read_index], is not the one at [notified_index] either. *)
Lemma ordered_room (events : dmxdev_events_queue) :
  queue_ordered events ->
  dvb_dmxdev_advance_event_idx (write_index events) <> read_index events ->
  dvb_dmxdev_advance_event_idx (write_index events) <> notified_index events
  /\ slots_between (notified_index events)
       (dvb_dmxdev_advance_event_idx (write_index events))
     = slots_between (notified_index events) (write_index events) + 1
  /\ slots_between (read_index events)
       (dvb_dmxdev_advance_event_idx (write_index events))
     = slots_between (read_index events) (write_index events) + 1.
Proof.
  intros ((Hr & Hw & Hn & Hl) & Hord) Hroom.
  pose proof (advance_event_idx_range _ Hw) as Hadv.
  rewrite !slots_between_spec in * by lia.
  rewrite advance_event_idx_spec in * by lia.
  destruct (Z.eqb_spec (write_index events + 1) DMX_EVENT_QUEUE_SIZE);
    repeat match goal with
           | |- context [?a <=? ?b] => destruct (Z.leb_spec a b)
           | H : context [?a <=? ?b] |- _ => destruct (Z.leb_spec a b)
           end; lia.
Qed.

Lemma same_slots_pending (events e : dmxdev_events_queue) :
  same_slots events e -> pending_events e = pending_events events.
Proof.
  intros (Hw & Hr & Hn & Hq & _). unfold pending_events.
  rewrite Hw, Hn, Hq. reflexivity.
Qed.

Lemma same_slots_ordered (events e : dmxdev_events_queue) :
  same_slots events e -> queue_ordered events -> queue_ordered e.
Proof.
  intros (Hw & Hr & Hn & Hq & _). unfold queue_ordered, queue_wf.
  rewrite Hw, Hr, Hn, Hq. auto.
Qed.

(** The slots of the pending events are not the slot at [write_index]. *)
Lemma pending_slots_before_write (events : dmxdev_events_queue) (k : nat) :
  queue_wf events ->
  (k < Z.to_nat (slots_between (notified_index events) (write_index events)))
    %nat ->
  Z.to_nat ((notified_index events + Z.of_nat k) mod DMX_EVENT_QUEUE_SIZE)
  <> Z.to_nat (write_index events).
Proof.
  intros (Hr & Hw & Hn & Hl) Hk.
  rewrite slots_between_spec in Hk by lia.
  destruct (Z.leb_spec (notified_index events) (write_index events));
    (rewrite slot_index by lia);
    destruct (Z.ltb_spec (notified_index events + Z.of_nat k)
                DMX_EVENT_QUEUE_SIZE); lia.
Qed.

Lemma pending_last_slot (events : dmxdev_events_queue) :
  queue_wf events ->
  (notified_index events
   + Z.of_nat (Z.to_nat (slots_between (notified_index events)
                           (write_index events))))
    mod DMX_EVENT_QUEUE_SIZE
  = write_index events.
Proof.
  intros (Hr & Hw & Hn & Hl).
  pose proof (slots_between_bound (notified_index events)
                (write_index events)) as Hb.
  rewrite Z2Nat.id by lia. unfold slots_between.
  rewrite Zplus_mod_idemp_r.
  replace (notified_index events
           + (write_index events - notified_index events))
    with (write_index events) by lia.
  apply Z.mod_small. lia.
Qed.

(** An event that [dvb_dmxdev_add_event] stores goes behind the pending
    ones. *)
Lemma add_event_stored_pending (e : dmxdev_events_queue)
    (ev : dmx_filter_event) :
  queue_ordered e ->
  dvb_dmxdev_advance_event_idx (write_index e) <> read_index e ->
  let e' :=
    set_write_index
      (set_queue e (<[Z.to_nat (write_index e) := ev]> (queue e)))
      (dvb_dmxdev_advance_event_idx (write_index e)) in
  queue_ordered e' /\ pending_events e' = pending_events e ++ [ev].
Proof.
  intros Hord Hroom e'.
  destruct (ordered_room e Hord Hroom) as (Hne & Hdn & Hdr).
  pose proof Hord as (Hwf & Hle). pose proof Hwf as (Hr & Hw & Hn & Hl).
  pose proof (advance_event_idx_range _ Hw) as Hadv.
  split.
  - unfold queue_ordered, queue_wf. subst e'. simpl.
    rewrite length_insert, Hdr. repeat split; auto; lia.
  - unfold pending_events. subst e'. simpl. rewrite Hdn.
    pose proof (slots_between_bound (notified_index e) (write_index e)).
    rewrite Z2Nat.inj_add by lia. change (Z.to_nat 1) with 1%nat.
    rewrite Nat.add_1_r, slot_events_snoc.
    rewrite slot_events_insert
      by (intros k Hk; apply pending_slots_before_write; assumption).
    rewrite pending_last_slot by exact Hwf.
    rewrite list_lookup_insert_eq by lia. reflexivity.
Qed.

Lemma add_event_pending (events : dmxdev_events_queue)
    (event : dmx_filter_event) :
  queue_ordered events ->
  let events' := snd (dvb_dmxdev_add_event events event) in
  queue_ordered events'
  /\ read_index events' = read_index events
  /\ notified_index events' = notified_index events
  /\ (forall e ev,
        mask_test (disable_mask (event_mask events)) (ev_type event) = false ->
        add_event_credit events event = inr (e, ev) ->
        dvb_dmxdev_events_is_full events = 0 ->
        fst (dvb_dmxdev_add_event events event) = 0
        /\ pending_events events' = pending_events events ++ [ev])
  /\ (mask_test (disable_mask (event_mask events)) (ev_type event) = true
      \/ (exists e, add_event_credit events event = inl e)
      \/ dvb_dmxdev_events_is_full events = 1 ->
      pending_events events' = pending_events events).
Proof.
  intros Hord events'. subst events'.
  unfold dvb_dmxdev_add_event, dvb_dmxdev_events_is_full.
  destruct (mask_test (disable_mask _) _) eqn:Hmask.
  { simpl. split; [exact Hord|]. do 2 (split; [reflexivity|]).
    split; [intros e ev H; discriminate | intros _; reflexivity]. }
  pose proof (add_event_credit_slots events event) as Hc.
  destruct (add_event_credit events event) as [e|[e ev]] eqn:Hcredit.
  { simpl. split; [eapply same_slots_ordered; eauto|].
    pose proof Hc as (Hw & Hr & Hn & _).
    split; [exact Hr|]. split; [exact Hn|].
    split; [intros e0 ev0 _ H; discriminate|].
    intros _. apply same_slots_pending. exact Hc. }
  destruct Hc as (Hs & _). pose proof Hs as (Hw & Hr & Hn & Hq & _).
  pose proof (same_slots_ordered _ _ Hs Hord) as Horde.
  rewrite Hw, Hr.
  destruct (Z.eqb_spec (dvb_dmxdev_advance_event_idx (write_index events))
              (read_index events)) as [Hfull|Hroom].
  { simpl. split; [exact Horde|]. split; [exact Hr|]. split; [exact Hn|].
    split; [intros e0 ev0 _ _ H; discriminate|].
    intros _. apply same_slots_pending. exact Hs. }
  assert (dvb_dmxdev_advance_event_idx (write_index e) <> read_index e)
    as Hroom' by (rewrite Hw, Hr; exact Hroom).
  destruct (add_event_stored_pending e ev Horde Hroom') as (Ho' & Hp').
  rewrite Hw in Ho', Hp'.
  rewrite (same_slots_pending _ _ Hs) in Hp'.
  assert (forall c,
            pending_events
              (set_wakeup_events_counter
                 (set_write_index
                    (set_queue e
                       (<[Z.to_nat (write_index events) := ev]> (queue e)))
                    (dvb_dmxdev_advance_event_idx (write_index events))) c)
            = pending_events events ++ [ev]) as Hp''.
  { intros c. rewrite <- Hp'. reflexivity. }
  assert (forall c,
            queue_ordered
              (set_wakeup_events_counter
                 (set_write_index
                    (set_queue e
                       (<[Z.to_nat (write_index events) := ev]> (queue e)))
                    (dvb_dmxdev_advance_event_idx (write_index events))) c))
    as Ho''.
  { intros c. exact Ho'. }
  destruct (mask_test (no_wakeup_mask _) _); simpl.
  - split; [exact Ho'|]. split; [exact Hr|]. split; [exact Hn|].
    split.
    + intros e0 ev0 _ [= <- <-] _. split; [reflexivity | exact Hp'].
    + intros [H|[[e0 H]|H]]; discriminate.
  - split; [apply Ho''|]. split; [exact Hr|]. split; [exact Hn|].
    split.
    + intros e0 ev0 _ [= <- <-] _. split; [reflexivity | apply Hp''].
    + intros [H|[[e0 H]|H]]; discriminate.
Qed.

(** X1.  [dvb_dmxdev_add_event] keeps the queue in order and leaves
    [read_index] and [notified_index] alone.  An event that it stores
    (its type is enabled, the bytes read ahead do not use it up and a slot
    is free) goes behind the events that wait to be handed out, as the
    reconciliation with the bytes read ahead left it; an event that it does
    not store leaves the waiting events as they are. *)
Theorem add_event_appends (events : dmxdev_events_queue)
    (event : dmx_filter_event) :
  queue_ordered events ->
  let events' := snd (dvb_dmxdev_add_event events event) in
  queue_ordered events'
  /\ read_index events' = read_index events
  /\ notified_index events' = notified_index events
  /\ (forall e ev,
        mask_test (disable_mask (event_mask events)) (ev_type event) = false ->
        add_event_credit events event = inr (e, ev) ->
        dvb_dmxdev_events_is_full events = 0 ->
        fst (dvb_dmxdev_add_event events event) = 0
        /\ pending_events events' = pending_events events ++ [ev])
  /\ (mask_test (disable_mask (event_mask events)) (ev_type event) = true
      \/ (exists e, add_event_credit events event = inl e)
      \/ dvb_dmxdev_events_is_full events = 1 ->
      pending_events events' = pending_events events).
Proof. apply add_event_pending. Qed.

Lemma remove_event_pending (events : dmxdev_events_queue) :
  queue_ordered events ->
  match pending_events events with
  | [] => dvb_dmxdev_remove_event events = Some (- ENODATA, None, events)
  | event :: rest =>
      exists events',
        dvb_dmxdev_remove_event events = Some (0, Some event, events')
        /\ pending_events events' = rest
        /\ queue_ordered events'
        /\ read_index events' = read_index events
        /\ write_index events' = write_index events
        /\ queue events' = queue events
        /\ data_read_event_masked events' = data_read_event_masked events
        /\ event_mask events' = event_mask events
  end.
Proof.
  intros (Hwf & Hord). pose proof Hwf as (Hr & Hw & Hn & Hl).
  unfold dvb_dmxdev_remove_event, pending_events.
  destruct (Z.eqb_spec (notified_index events) (write_index events))
    as [Heq|Hne].
  { rewrite Heq. unfold slots_between. rewrite Z.sub_diag, Zmod_0_l.
    reflexivity. }
  pose proof (slots_between_advance (notified_index events)
                (write_index events) Hn Hw Hne) as Hstep.
  pose proof (slots_between_bound
                (dvb_dmxdev_advance_event_idx (notified_index events))
                (write_index events)) as Hb.
  destruct (Z.to_nat (slots_between (notified_index events)
                        (write_index events))) as [|c] eqn:Hc; [lia|].
  rewrite slot_events_cons by exact Hn.
  destruct (queue_lookup_wf events (notified_index events) Hwf Hn)
    as [event Hev].
  rewrite Hev. cbn [option_list app mbind option_bind].
  assert (c = Z.to_nat (slots_between
                          (dvb_dmxdev_advance_event_idx
                             (notified_index events))
                          (write_index events))) as Hc' by lia.
  pose proof (advance_event_idx_range _ Hn) as Hadv.
  assert (queue_ordered
            (set_notified_index events
               (dvb_dmxdev_advance_event_idx (notified_index events))))
    as Ho'.
  { split; [unfold queue_wf; simpl; auto|]. simpl.
    rewrite !slots_between_spec in * by lia.
    rewrite advance_event_idx_spec in * by lia.
    destruct (Z.eqb_spec (notified_index events + 1) DMX_EVENT_QUEUE_SIZE);
      repeat match goal with
             | |- context [?a <=? ?b] => destruct (Z.leb_spec a b)
             | H : context [?a <=? ?b] |- _ => destruct (Z.leb_spec a b)
             end; lia. }
  destruct (mask_test (no_wakeup_mask _) _); eexists;
    (split; [reflexivity|]); simpl; rewrite Hc'; repeat split;
    solve [reflexivity | apply Ho'].
Qed.

(** X2.  [dvb_dmxdev_remove_event] hands out the oldest of the waiting
    events and leaves the others waiting, in their order; when none waits
    it returns [-ENODATA] and changes nothing. *)
Theorem remove_event_takes_oldest (events : dmxdev_events_queue) :
  queue_ordered events ->
  match pending_events events with
  | [] => dvb_dmxdev_remove_event events = Some (- ENODATA, None, events)
  | event :: rest =>
      exists events',
        dvb_dmxdev_remove_event events = Some (0, Some event, events')
        /\ pending_events events' = rest
        /\ queue_ordered events'
        /\ read_index events' = read_index events
        /\ write_index events' = write_index events
        /\ queue events' = queue events
        /\ data_read_event_masked events' = data_read_event_masked events
        /\ event_mask events' = event_mask events
  end.
Proof. apply remove_event_pending. Qed.

Lemma room_to_store (events : dmxdev_events_queue) :
  queue_wf events -> stored_events events + 1 < DMX_EVENT_QUEUE_SIZE ->
  dvb_dmxdev_advance_event_idx (write_index events) <> read_index events.
Proof.
  intros (Hr & Hw & Hn & Hl). unfold stored_events. intros Hroom Heq.
  change ((write_index events - read_index events) mod DMX_EVENT_QUEUE_SIZE)
    with (slots_between (read_index events) (write_index events)) in Hroom.
  rewrite slots_between_spec in Hroom by lia.
  rewrite advance_event_idx_spec in Heq by lia.
  destruct (Z.eqb_spec (write_index events + 1) DMX_EVENT_QUEUE_SIZE);
    destruct (Z.leb_spec (read_index events) (write_index events)); lia.
Qed.

Lemma add_events_pending (evs : list dmx_filter_event) :
  forall events : dmxdev_events_queue,
  queue_ordered events ->
  bytes_read_no_event events = 0 ->
  Forall (fun ev =>
            mask_test (disable_mask (event_mask events)) (ev_type ev) = false)
    evs ->
  stored_events events + Z.of_nat (length evs) < DMX_EVENT_QUEUE_SIZE ->
  queue_ordered (add_events events evs)
  /\ pending_events (add_events events evs) = pending_events events ++ evs
  /\ read_index (add_events events evs) = read_index events.
Proof.
  induction evs as [|ev evs IH]; intros events Hord Hcredit Hmask Hroom.
  - simpl. rewrite app_nil_r. auto.
  - apply Forall_cons in Hmask as [Hm Hmask].
    pose proof Hord as (Hwf & _).
    cbn [length] in Hroom.
    assert (dvb_dmxdev_advance_event_idx (write_index events)
            <> read_index events) as Hfree
      by (apply room_to_store; [exact Hwf | lia]).
    destruct (add_event_stores events ev Hwf Hm Hcredit Hfree)
      as (_ & _ & Hw1 & Hr1 & Hmask1 & Hcredit1 & _).
    destruct (add_event_pending events ev Hord)
      as (Hord1 & _ & _ & Hstored & _).
    destruct (Hstored events ev Hm) as (_ & Hp1).
    { unfold add_event_credit. rewrite Hcredit. reflexivity. }
    { unfold dvb_dmxdev_events_is_full.
      destruct (Z.eqb_spec (dvb_dmxdev_advance_event_idx (write_index events))
                  (read_index events)); [contradiction | reflexivity]. }
    destruct (ordered_room events Hord Hfree) as (_ & _ & Hdr).
    cbn [add_events foldl].
    destruct (IH (snd (dvb_dmxdev_add_event events ev))) as (Ho & Hp & Hr);
      [exact Hord1 | exact Hcredit1 | rewrite Hmask1; exact Hmask | |].
    { unfold stored_events in *. rewrite Hw1, Hr1.
      change ((dvb_dmxdev_advance_event_idx (write_index events)
               - read_index events) mod DMX_EVENT_QUEUE_SIZE)
        with (slots_between (read_index events)
                (dvb_dmxdev_advance_event_idx (write_index events))).
      rewrite Hdr. unfold slots_between. lia. }
    unfold add_events in *. split; [exact Ho|].
    split; [rewrite Hp, Hp1, <- app_assoc; reflexivity|].
    rewrite Hr. exact Hr1.
Qed.

Lemma remove_events_all (l : list dmx_filter_event) :
  forall events : dmxdev_events_queue,
  queue_ordered events -> pending_events events = l ->
  exists events',
    remove_events (length l) events = Some (l, events')
    /\ pending_events events' = []
    /\ queue_ordered events'
    /\ read_index events' = read_index events
    /\ write_index events' = write_index events.
Proof.
  induction l as [|ev l IH]; intros events Hord Hp.
  - exists events. simpl. auto.
  - pose proof (remove_event_pending events Hord) as Hrem.
    rewrite Hp in Hrem.
    destruct Hrem as (e1 & Hrem & Hp1 & Ho1 & Hr1 & Hw1 & _).
    destruct (IH e1 Ho1 Hp1) as (e2 & Hall & Hp2 & Ho2 & Hr2 & Hw2).
    exists e2. cbn [length remove_events]. rewrite Hrem.
    cbn [mbind option_bind]. rewrite Hall. cbn [mbind option_bind].
    split; [reflexivity|]. split; [exact Hp2|]. split; [exact Ho2|].
    split; [rewrite Hr2; exact Hr1 | rewrite Hw2; exact Hw1].
Qed.

(** X3.  Events added to a queue in which none waits come out of it in the
    order in which they went in: when every type is enabled, no bytes were
    read ahead and the slots suffice, as many calls of
    [dvb_dmxdev_remove_event] as events were added hand these events out,
    first in first out, and one more call returns [-ENODATA]. *)
Theorem events_come_out_in_order (events : dmxdev_events_queue)
    (evs : list dmx_filter_event) :
  queue_ordered events ->
  pending_events events = [] ->
  bytes_read_no_event events = 0 ->
  Forall (fun ev =>
            mask_test (disable_mask (event_mask events)) (ev_type ev) = false)
    evs ->
  stored_events events + Z.of_nat (length evs) < DMX_EVENT_QUEUE_SIZE ->
  exists events',
    remove_events (length evs) (add_events events evs) = Some (evs, events')
    /\ dvb_dmxdev_remove_event events' = Some (- ENODATA, None, events').
Proof.
  intros Hord Hnone Hcredit Hmask Hroom.
  destruct (add_events_pending evs events Hord Hcredit Hmask Hroom)
    as (Ho & Hp & _).
  rewrite Hnone in Hp. simpl in Hp.
  destruct (remove_events_all evs (add_events events evs) Ho Hp)
    as (e' & Hall & Hp' & Ho' & _).
  exists e'. split; [exact Hall|].
  pose proof (remove_event_pending e' Ho') as Hrem.
  rewrite Hp' in Hrem. exact Hrem.
Qed.

(** ** Reconciliation keeps the queue in order *)

Lemma update_data_event_type (event event' : dmx_filter_event)
    (bytes_read res : Z) :
  update_data_event event bytes_read = Some (res, event') ->
  ev_type event' = ev_type event.
Proof.
  destruct event; simpl; try discriminate.
  - destruct (dvb_dmxdev_update_pes_event _ _). intros [= _ <-]. reflexivity.
  - destruct (dvb_dmxdev_update_section_event _ _).
    intros [= _ <-]. reflexivity.
  - destruct (dvb_dmxdev_update_rec_event _ _). intros [= _ <-]. reflexivity.
Qed.

(** The slot at [read_index] is none of the pending ones while an event
    that was handed out is still stored. *)
Lemma pending_slots_after_read (events : dmxdev_events_queue) (k : nat) :
  queue_ordered events -> read_index events <> notified_index events ->
  (k < Z.to_nat (slots_between (notified_index events) (write_index events)))
    %nat ->
  Z.to_nat ((notified_index events + Z.of_nat k) mod DMX_EVENT_QUEUE_SIZE)
  <> Z.to_nat (read_index events).
Proof.
  intros ((Hr & Hw & Hn & Hl) & Hord) Hne Hk.
  rewrite !slots_between_spec in * by lia.
  destruct (Z.leb_spec (notified_index events) (write_index events));
    destruct (Z.leb_spec (read_index events) (write_index events));
    destruct (Z.leb_spec (read_index events) (notified_index events));
    (rewrite slot_index by lia);
    destruct (Z.ltb_spec (notified_index events + Z.of_nat k)
                DMX_EVENT_QUEUE_SIZE); lia.
Qed.

Lemma read_advance_ordered (events : dmxdev_events_queue)
    (q : list dmx_filter_event) :
  queue_ordered events -> read_index events <> notified_index events ->
  length q = length (queue events) ->
  queue_ordered
    (set_read_index (set_queue events q)
       (dvb_dmxdev_advance_event_idx (read_index events))).
Proof.
  intros ((Hr & Hw & Hn & Hl) & Hord) Hne Hq.
  pose proof (advance_event_idx_range _ Hr) as Hadv.
  split; [unfold queue_wf; simpl; rewrite Hq; auto|]. simpl.
  rewrite !slots_between_spec in * by lia.
  rewrite advance_event_idx_spec in * by lia.
  destruct (Z.eqb_spec (read_index events + 1) DMX_EVENT_QUEUE_SIZE);
    repeat match goal with
           | |- context [?a <=? ?b] => destruct (Z.leb_spec a b)
           | H : context [?a <=? ?b] |- _ => destruct (Z.leb_spec a b)
           end; lia.
Qed.

Lemma update_events_notified_ordered (fuel : nat) :
  forall (events : dmxdev_events_queue) (bytes_read : Z),
  queue_ordered events ->
  slots_between (read_index events) (notified_index events) <= Z.of_nat fuel ->
  exists events' bytes_read',
    update_events_notified fuel events bytes_read
    = Some (events', bytes_read')
    /\ queue_ordered events'
    /\ pending_events events' = pending_events events
    /\ wakeup_events_counter events' = wakeup_events_counter events
    /\ event_mask events' = event_mask events
    /\ write_index events' = write_index events
    /\ notified_index events' = notified_index events
    /\ bytes_read_no_event events' = bytes_read_no_event events
    /\ (bytes_read' <> 0 -> read_index events' = notified_index events').
Proof.
  induction fuel as [|fuel IH]; intros events bytes_read Hord Hfuel;
    pose proof Hord as (Hwf & Hle); pose proof Hwf as (Hr & Hw & Hn & Hl);
    cbn [update_events_notified];
    destruct (Z.eqb_spec (read_index events) (notified_index events))
      as [Heq|Hne];
    cbn [negb andb];
    try (exists events, bytes_read; split; [reflexivity|];
         split; [exact Hord|]; do 6 (split; [reflexivity|]);
         intros _; exact Heq);
    destruct (Z.eqb_spec bytes_read 0) as [H0|H0]; cbn [negb];
    try (exists events, bytes_read; split; [reflexivity|];
         split; [exact Hord|]; do 6 (split; [reflexivity|]);
         intros H0'; contradiction).
  - apply slots_between_0 in Hfuel; [contradiction | lia | lia].
  - destruct (queue_lookup_wf events (read_index events) Hwf Hr)
      as [event Hev].
    rewrite Hev. cbn [mbind option_bind].
    assert (slots_between
              (dvb_dmxdev_advance_event_idx (read_index events))
              (notified_index events) <= Z.of_nat fuel) as Hfuel'.
    { rewrite slots_between_advance by assumption. lia. }
    assert (forall x,
              pending_events
                (set_queue events
                   (<[Z.to_nat (read_index events) := x]> (queue events)))
              = pending_events events) as Hsame.
    { intros x. unfold pending_events. simpl.
      apply slot_events_insert. intros k Hk.
      apply pending_slots_after_read; assumption. }
    destruct (update_data_event event bytes_read) as [[res event']|].
    + destruct (res =? 0).
      * rewrite update_events_notified_0. eexists _, _.
        split; [reflexivity|]. split.
        { split; [unfold queue_wf; simpl; rewrite length_insert; auto|].
          exact Hle. }
        split; [apply Hsame|]. do 5 (split; [reflexivity|]).
        intros H0'. contradiction.
      * destruct (IH (set_read_index
                        (set_queue events
                           (<[Z.to_nat (read_index events) := event']>
                              (queue events)))
                        (dvb_dmxdev_advance_event_idx (read_index events)))
                    (s32 (bytes_read - res)))
          as (e' & b' & Hrun & Ho & Hp & Hc & Hm & Hw' & Hn' & Hcr & Hb);
          [apply read_advance_ordered;
             [exact Hord | exact Hne | apply length_insert]
          | exact Hfuel' |].
        exists e', b'. split; [exact Hrun|]. split; [exact Ho|].
        split; [rewrite Hp; apply Hsame|]. split; [exact Hc|]. split; [exact Hm|].
        split; [exact Hw'|]. split; [exact Hn'|]. split; [exact Hcr|].
        exact Hb.
    + destruct (IH (set_read_index events
                      (dvb_dmxdev_advance_event_idx (read_index events)))
                  bytes_read)
        as (e' & b' & Hrun & Ho & Hp & Hc & Hm & Hw' & Hn' & Hcr & Hb);
        [|exact Hfuel'|].
      { pose proof (read_advance_ordered events (queue events) Hord Hne
                      eq_refl) as Ho.
        destruct Ho as (Hwf' & Hle'). split; [|exact Hle'].
        unfold queue_wf in *. simpl in *. exact Hwf'. }
      exists e', b'. split; [exact Hrun|]. split; [exact Ho|].
      split; [exact Hp|]. split; [exact Hc|]. split; [exact Hm|].
      split; [exact Hw'|]. split; [exact Hn'|]. split; [exact Hcr|].
      exact Hb.
Qed.

Lemma update_events_pending_0 (fuel : nat) (events : dmxdev_events_queue) :
  update_events_pending fuel events 0 = Some (events, 0).
Proof.
  destruct fuel; cbn [update_events_pending];
    change (0 =? 0) with true; cbn [negb]; rewrite andb_false_r; reflexivity.
Qed.

(** The slots behind the first pending one are not that slot. *)
Lemma later_slots_not_first (events : dmxdev_events_queue) (k : nat) :
  queue_wf events ->
  (S k < Z.to_nat (slots_between (notified_index events)
                     (write_index events)))%nat ->
  Z.to_nat ((dvb_dmxdev_advance_event_idx (notified_index events)
             + Z.of_nat k) mod DMX_EVENT_QUEUE_SIZE)
  <> Z.to_nat (notified_index events).
Proof.
  intros (Hr & Hw & Hn & Hl) Hk.
  pose proof (slots_between_bound (notified_index events)
                (write_index events)) as Hb.
  rewrite advance_event_idx_mod, Zplus_mod_idemp_l by lia.
  replace (notified_index events + 1 + Z.of_nat k)
    with (notified_index events + (Z.of_nat k + 1)) by lia.
  rewrite slot_index by lia.
  destruct (Z.ltb_spec (notified_index events + (Z.of_nat k + 1))
              DMX_EVENT_QUEUE_SIZE); lia.
Qed.

(** The first pending event is the one at [notified_index]; storing another
    event in that slot changes the first pending event only. *)
Lemma pending_events_head (events : dmxdev_events_queue)
    (x : dmx_filter_event) :
  queue_wf events -> notified_index events <> write_index events ->
  pending_events
    (set_queue events
       (<[Z.to_nat (notified_index events) := x]> (queue events)))
  = x :: pending_events
           (set_notified_index events
              (dvb_dmxdev_advance_event_idx (notified_index events)))
  /\ pending_events
       (set_notified_index
          (set_queue events
             (<[Z.to_nat (notified_index events) := x]> (queue events)))
          (dvb_dmxdev_advance_event_idx (notified_index events)))
     = pending_events
         (set_notified_index events
            (dvb_dmxdev_advance_event_idx (notified_index events)))
  /\ exists event,
       queue events !! Z.to_nat (notified_index events) = Some event
       /\ pending_events events
          = event :: pending_events
                       (set_notified_index events
                          (dvb_dmxdev_advance_event_idx
                             (notified_index events))).
Proof.
  intros Hwf Hne. pose proof Hwf as (Hr & Hw & Hn & Hl).
  pose proof (slots_between_advance (notified_index events)
                (write_index events) Hn Hw Hne) as Hstep.
  pose proof (slots_between_bound
                (dvb_dmxdev_advance_event_idx (notified_index events))
                (write_index events)) as Hb.
  unfold pending_events. cbn [queue notified_index write_index set_queue
                                set_notified_index].
  destruct (Z.to_nat (slots_between (notified_index events)
                        (write_index events))) as [|c] eqn:Hc; [lia|].
  assert (Z.to_nat (slots_between
                      (dvb_dmxdev_advance_event_idx (notified_index events))
                      (write_index events)) = c) as -> by lia.
  assert (slot_events
            (<[Z.to_nat (notified_index events) := x]> (queue events))
            (dvb_dmxdev_advance_event_idx (notified_index events)) c
          = slot_events (queue events)
              (dvb_dmxdev_advance_event_idx (notified_index events)) c)
    as Hlater.
  { apply slot_events_insert. intros k Hk.
    apply later_slots_not_first; [exact Hwf | lia]. }
  rewrite !slot_events_cons by exact Hn. rewrite Hlater.
  rewrite list_lookup_insert_eq by lia.
  split; [reflexivity|]. split; [reflexivity|].
  destruct (queue_lookup_wf events (notified_index events) Hwf Hn)
    as [event Hev].
  exists event. rewrite Hev. split; reflexivity.
Qed.

Lemma wakeup_count_bound (mask : dmx_events_mask)
    (l : list dmx_filter_event) :
  0 <= wakeup_count mask l <= Z.of_nat (length l).
Proof.
  unfold wakeup_count. pose proof (List.filter_length_le
    (fun e => negb (mask_test (no_wakeup_mask mask) (ev_type e))) l).
  lia.
Qed.

Lemma wakeup_count_cons (mask : dmx_events_mask) (e : dmx_filter_event)
    (l : list dmx_filter_event) :
  wakeup_count mask (e :: l)
  = (if mask_test (no_wakeup_mask mask) (ev_type e) then 0 else 1)
    + wakeup_count mask l.
Proof.
  unfold wakeup_count. simpl.
  destruct (mask_test _ _); simpl; lia.
Qed.

Lemma pending_events_length (events : dmxdev_events_queue) :
  queue_wf events ->
  Z.of_nat (length (pending_events events)) < DMX_EVENT_QUEUE_SIZE.
Proof.
  intros (Hr & Hw & Hn & Hl). unfold pending_events.
  rewrite slot_events_length by exact Hl.
  pose proof (slots_between_bound (notified_index events)
                (write_index events)). lia.
Qed.

(** One pending event taken off by the second loop of
    [dvb_dmxdev_update_events]. *)
Lemma drop_pending_counted (events : dmxdev_events_queue)
    (event x : dmx_filter_event) :
  queue_wf events -> notified_index events <> write_index events ->
  queue events !! Z.to_nat (notified_index events) = Some event ->
  ev_type x = ev_type event ->
  wakeup_counted events ->
  let dropped :=
    drop_pending
      (set_queue events
         (<[Z.to_nat (notified_index events) := x]> (queue events)))
      event in
  let events' := set_read_index dropped (notified_index dropped) in
  queue_ordered events'
  /\ read_index events' = notified_index events'
  /\ wakeup_counted events'
  /\ event_mask events' = event_mask events
  /\ write_index events' = write_index events
  /\ bytes_read_no_event events' = bytes_read_no_event events
  /\ notified_index events'
     = dvb_dmxdev_advance_event_idx (notified_index events)
  /\ pending_events events' = drop 1 (pending_events events).
Proof.
  intros Hwf Hne Hev Hty Hcount dropped events'.
  pose proof Hwf as (Hr & Hw & Hn & Hl).
  pose proof (advance_event_idx_range _ Hn) as Hadv.
  destruct (pending_events_head events x Hwf Hne)
    as (_ & Htail & event0 & Hev0 & Hp).
  rewrite Hev in Hev0. injection Hev0 as <-.
  pose proof (pending_events_length events Hwf) as Hlen.
  pose proof (wakeup_count_bound (event_mask events)
                (pending_events
                   (set_notified_index events
                      (dvb_dmxdev_advance_event_idx
                         (notified_index events))))) as Hbound.
  unfold wakeup_counted in Hcount. rewrite Hp, wakeup_count_cons in Hcount.
  rewrite Hp in Hlen. cbn [length] in Hlen.
  subst events' dropped. unfold drop_pending.
  cbn [event_mask set_queue wakeup_events_counter notified_index].
  destruct (mask_test (no_wakeup_mask (event_mask events)) (ev_type event))
    eqn:Hmask.
  - split.
    { split; [unfold queue_wf; simpl; rewrite length_insert; auto|].
      simpl. unfold slots_between. rewrite Z.sub_diag, Zmod_0_l.
      apply Z.mod_pos_bound. lia. }
    split; [reflexivity|]. split.
    { unfold wakeup_counted. simpl.
      change (pending_events _) with
        (pending_events
           (set_notified_index
              (set_queue events
                 (<[Z.to_nat (notified_index events) := x]> (queue events)))
              (dvb_dmxdev_advance_event_idx (notified_index events))))
        at 1.
      rewrite Htail. lia. }
    do 4 (split; [reflexivity|]).
    rewrite Hp. cbn [drop]. exact Htail.
  - split.
    { split; [unfold queue_wf; simpl; rewrite length_insert; auto|].
      simpl. unfold slots_between. rewrite Z.sub_diag, Zmod_0_l.
      apply Z.mod_pos_bound. lia. }
    split; [reflexivity|]. split.
    { unfold wakeup_counted. simpl.
      change (pending_events _) with
        (pending_events
           (set_notified_index
              (set_queue events
                 (<[Z.to_nat (notified_index events) := x]> (queue events)))
              (dvb_dmxdev_advance_event_idx (notified_index events))))
        at 1.
      rewrite Htail, Hcount. rewrite u32_small by lia. lia. }
    do 4 (split; [reflexivity|]).
    rewrite Hp. cbn [drop]. exact Htail.
Qed.

Lemma set_queue_same (events : dmxdev_events_queue) (i : nat)
    (x : dmx_filter_event) :
  queue events !! i = Some x ->
  set_queue events (<[i := x]> (queue events)) = events.
Proof.
  intros Hx. rewrite list_insert_id by exact Hx.
  destruct events. reflexivity.
Qed.

Lemma update_events_pending_ordered (fuel : nat) :
  forall (events : dmxdev_events_queue) (bytes_read : Z),
  queue_ordered events ->
  read_index events = notified_index events ->
  wakeup_counted events ->
  slots_between (notified_index events) (write_index events)
  <= Z.of_nat fuel ->
  exists events' bytes_read',
    update_events_pending fuel events bytes_read
    = Some (events', bytes_read')
    /\ queue_ordered events'
    /\ read_index events' = notified_index events'
    /\ wakeup_counted events'
    /\ event_mask events' = event_mask events
    /\ write_index events' = write_index events
    /\ bytes_read_no_event events' = bytes_read_no_event events
    /\ exists k : nat,
         map ev_type (pending_events events')
         = drop k (map ev_type (pending_events events)).
Proof.
  induction fuel as [|fuel IH]; intros events bytes_read Hord Hsync Hcount
    Hfuel;
    pose proof Hord as (Hwf & Hle); pose proof Hwf as (Hr & Hw & Hn & Hl);
    cbn [update_events_pending];
    destruct (Z.eqb_spec (notified_index events) (write_index events))
      as [Heq|Hne];
    cbn [negb andb];
    try (exists events, bytes_read; split; [reflexivity|];
         split; [exact Hord|]; split; [exact Hsync|];
         split; [exact Hcount|]; do 3 (split; [reflexivity|]);
         exists 0%nat; reflexivity);
    destruct (Z.eqb_spec bytes_read 0) as [H0|H0]; cbn [negb];
    try (exists events, bytes_read; split; [reflexivity|];
         split; [exact Hord|]; split; [exact Hsync|];
         split; [exact Hcount|]; do 3 (split; [reflexivity|]);
         exists 0%nat; reflexivity).
  - apply slots_between_0 in Hfuel; [contradiction | lia | lia].
  - destruct (queue_lookup_wf events (notified_index events) Hwf Hn)
      as [event Hev].
    rewrite Hev. cbn [mbind option_bind].
    assert (forall x, ev_type x = ev_type event ->
            forall b,
            exists events' bytes_read',
              update_events_pending fuel
                (set_read_index
                   (drop_pending
                      (set_queue events
                         (<[Z.to_nat (notified_index events) := x]>
                            (queue events)))
                      event)
                   (notified_index
                      (drop_pending
                         (set_queue events
                            (<[Z.to_nat (notified_index events) := x]>
                               (queue events)))
                         event)))
                b
              = Some (events', bytes_read')
              /\ queue_ordered events'
              /\ read_index events' = notified_index events'
              /\ wakeup_counted events'
              /\ event_mask events' = event_mask events
              /\ write_index events' = write_index events
              /\ bytes_read_no_event events' = bytes_read_no_event events
              /\ exists k : nat,
                   map ev_type (pending_events events')
                   = drop k (map ev_type (pending_events events)))
      as Hdrop.
    { intros x Hty b.
      destruct (drop_pending_counted events event x Hwf Hne Hev Hty Hcount)
        as (Ho1 & Hs1 & Hc1 & Hm1 & Hw1 & Hcr1 & Hn1 & Hp1).
      destruct (IH _ b Ho1 Hs1 Hc1)
        as (e' & b' & Hrun & Ho & Hs & Hc & Hm & Hw' & Hcr & k & Hk).
      { rewrite Hn1, Hw1, slots_between_advance by assumption. lia. }
      exists e', b'. split; [exact Hrun|]. split; [exact Ho|].
      split; [exact Hs|]. split; [exact Hc|].
      split; [rewrite Hm; exact Hm1|]. split; [rewrite Hw'; exact Hw1|].
      split; [rewrite Hcr; exact Hcr1|].
      exists (1 + k)%nat. rewrite Hk, Hp1, fmap_drop, drop_drop.
      reflexivity. }
    destruct (update_data_event event bytes_read) as [[res event']|]
      eqn:Hupd.
    + pose proof (update_data_event_type _ _ _ _ Hupd) as Hty.
      destruct (res =? 0).
      * rewrite update_events_pending_0.
        destruct (pending_events_head events event' Hwf Hne)
          as (Hp' & _ & event0 & Hev0 & Hp).
        rewrite Hev in Hev0. injection Hev0 as <-.
        eexists _, _. split; [reflexivity|]. split.
        { split; [unfold queue_wf; simpl; rewrite length_insert; auto|].
          simpl. unfold slots_between. rewrite Z.sub_diag, Zmod_0_l.
          apply Z.mod_pos_bound. lia. }
        split; [reflexivity|]. split.
        { unfold wakeup_counted in *. simpl.
          change (pending_events _) with
            (pending_events
               (set_queue events
                  (<[Z.to_nat (notified_index events) := event']>
                     (queue events)))) at 1.
          rewrite Hp', wakeup_count_cons, Hty, Hcount, Hp,
            wakeup_count_cons.
          reflexivity. }
        do 3 (split; [reflexivity|]).
        exists 0%nat.
        change (pending_events _) with
          (pending_events
             (set_queue events
                (<[Z.to_nat (notified_index events) := event']>
                   (queue events)))) at 1.
        rewrite Hp', Hp. cbn [drop map]. rewrite Hty. reflexivity.
      * apply Hdrop. exact Hty.
    + specialize (Hdrop event eq_refl bytes_read).
      rewrite (set_queue_same events _ event Hev) in Hdrop. exact Hdrop.
Qed.

(** X4.  [dvb_dmxdev_update_events] returns, within the turns that the
    array allows, on every queue that is in order, and keeps it in order.
    It leaves [write_index] and the event mask alone, the events that still
    wait afterwards are the last of those that waited before, with their
    types, and [wakeup_events_counter] goes on counting the waiting events
    that wake the consumer up. *)
Theorem update_events_keeps_queue (events : dmxdev_events_queue)
    (bytes_read : Z) :
  queue_ordered events -> wakeup_counted events ->
  exists events',
    dvb_dmxdev_update_events events bytes_read = Some events'
    /\ queue_ordered events'
    /\ wakeup_counted events'
    /\ write_index events' = write_index events
    /\ event_mask events' = event_mask events
    /\ exists k : nat,
         map ev_type (pending_events events')
         = drop k (map ev_type (pending_events events)).
Proof.
  intros Hord Hcount. unfold dvb_dmxdev_update_events.
  destruct (negb (data_read_event_masked events =? 0)).
  { exists events. split; [reflexivity|]. split; [exact Hord|].
    split; [exact Hcount|]. do 2 (split; [reflexivity|]).
    exists 0%nat. reflexivity. }
  destruct (update_events_notified_ordered (Z.to_nat DMX_EVENT_QUEUE_SIZE)
              events bytes_read Hord)
    as (e1 & b1 & -> & Ho1 & Hp1 & Hc1 & Hm1 & Hw1 & Hn1 & Hcr1 & Hb1).
  { pose proof (slots_between_bound (read_index events)
                  (notified_index events)). lia. }
  assert (wakeup_counted e1) as Hcount1.
  { unfold wakeup_counted. rewrite Hc1, Hm1, Hp1. exact Hcount. }
  cbn [mbind option_bind].
  destruct (Z.eqb_spec b1 0) as [H0|H0].
  { exists e1. split; [reflexivity|]. split; [exact Ho1|].
    split; [exact Hcount1|]. split; [exact Hw1|]. split; [exact Hm1|].
    exists 0%nat. rewrite Hp1. reflexivity. }
  destruct (update_events_pending_ordered (Z.to_nat DMX_EVENT_QUEUE_SIZE)
              e1 b1 Ho1 (Hb1 H0) Hcount1)
    as (e2 & b2 & -> & Ho2 & Hs2 & Hc2 & Hm2 & Hw2 & Hcr2 & k & Hk).
  { pose proof (slots_between_bound (notified_index e1) (write_index e1)).
    lia. }
  cbn [mbind option_bind].
  assert (forall c,
            queue_ordered (set_bytes_read_no_event e2 c)
            /\ wakeup_counted (set_bytes_read_no_event e2 c)) as Hcredit.
  { intros c. split; [exact Ho2 | exact Hc2]. }
  destruct (negb (b2 =? 0)); eexists; (split; [reflexivity|]).
  - split; [apply Hcredit|]. split; [apply Hcredit|].
    split; [simpl; rewrite Hw2; exact Hw1|].
    split; [simpl; rewrite Hm2; exact Hm1|].
    exists k. rewrite <- Hp1. exact Hk.
  - split; [exact Ho2|]. split; [exact Hc2|].
    split; [rewrite Hw2; exact Hw1|]. split; [rewrite Hm2; exact Hm1|].
    exists k. rewrite <- Hp1. exact Hk.
Qed.

(** X5.  [wakeup_events_counter] counts the waiting events that wake the
    consumer up: [dvb_dmxdev_add_event] and [dvb_dmxdev_remove_event] keep
    it so on a queue that is in order and whose array has fewer than 2^32
    slots. *)
Theorem wakeup_counter_counts (events : dmxdev_events_queue)
    (event : dmx_filter_event) :
  queue_ordered events -> wakeup_counted events ->
  wakeup_counted (snd (dvb_dmxdev_add_event events event))
  /\ forall res out events',
       dvb_dmxdev_remove_event events = Some (res, out, events') ->
       wakeup_counted events'.
Proof.
  intros Hord Hcount. pose proof Hord as (Hwf & Hle).
  pose proof Hwf as (Hr & Hw & Hn & Hl). split.
  - pose proof (pending_events_length events Hwf) as Hlen.
    pose proof (wakeup_count_bound (event_mask events)
                  (pending_events events)) as Hbound.
    destruct (add_event_pending events event Hord)
      as (_ & _ & _ & Hstored & Hkept).
    unfold wakeup_counted.
    destruct (mask_test (disable_mask (event_mask events)) (ev_type event))
      eqn:Hmask.
    { rewrite Hkept by (left; reflexivity).
      unfold dvb_dmxdev_add_event. rewrite Hmask. exact Hcount. }
    pose proof (add_event_credit_slots events event) as Hc.
    destruct (add_event_credit events event) as [e|[e ev]] eqn:Hcredit.
    { rewrite Hkept by (right; left; eauto).
      unfold dvb_dmxdev_add_event. rewrite Hmask, Hcredit. simpl.
      destruct Hc as (_ & _ & _ & _ & Hcnt). rewrite Hcnt.
      assert (event_mask e = event_mask events) as ->; [|exact Hcount].
      unfold add_event_credit in Hcredit.
      destruct (bytes_read_no_event events =? 0); [discriminate|].
      destruct (update_data_event _ _) as [[res x]|];
        [destruct (res =? 0); [discriminate|]|];
        injection Hcredit as <-; reflexivity. }
    destruct Hc as ((Hw' & Hr' & Hn' & Hq' & Hcnt) & Hty & Hm).
    destruct (Z.eqb_spec (dvb_dmxdev_advance_event_idx (write_index events))
                (read_index events)) as [Hfull|Hroom].
    { rewrite Hkept
        by (right; right; unfold dvb_dmxdev_events_is_full;
            rewrite Hfull, Z.eqb_refl; reflexivity).
      unfold dvb_dmxdev_add_event.
      rewrite Hmask, Hcredit, Hw', Hr', Hfull, Z.eqb_refl. simpl.
      rewrite Hcnt, Hm. exact Hcount. }
    destruct (Hstored e ev eq_refl eq_refl) as (_ & Hp).
    { unfold dvb_dmxdev_events_is_full.
      destruct (Z.eqb_spec (dvb_dmxdev_advance_event_idx (write_index events))
                  (read_index events)); [contradiction | reflexivity]. }
    rewrite Hp.
    assert (wakeup_count (event_mask events) (pending_events events ++ [ev])
            = wakeup_count (event_mask events) (pending_events events)
              + (if mask_test (no_wakeup_mask (event_mask events))
                      (ev_type event) then 0 else 1)) as Happ.
    { unfold wakeup_count. rewrite List.filter_app, length_app. simpl.
      rewrite Hty.
      destruct (mask_test (no_wakeup_mask (event_mask events))
                  (ev_type event)); simpl; lia. }
    unfold dvb_dmxdev_add_event. rewrite Hmask, Hcredit, Hw', Hr'.
    destruct (Z.eqb_spec (dvb_dmxdev_advance_event_idx (write_index events))
                (read_index events)); [contradiction|].
    cbn [event_mask set_write_index set_queue]. rewrite Hm, Hty.
    destruct (mask_test (no_wakeup_mask (event_mask events))
                (ev_type event)); simpl; rewrite Hm, Happ, Hcnt, Hcount.
    + lia.
    + rewrite u32_small; lia.
  - intros res out events' Hrem.
    unfold dvb_dmxdev_remove_event in Hrem.
    destruct (Z.eqb_spec (notified_index events) (write_index events))
      as [Heq|Hne].
    { injection Hrem as <- <- <-. exact Hcount. }
    destruct (queue_lookup_wf events (notified_index events) Hwf Hn)
      as [ev Hev].
    rewrite Hev in Hrem. cbn [mbind option_bind] in Hrem.
    destruct (pending_events_head events ev Hwf Hne)
      as (_ & _ & ev0 & Hev0 & Hp).
    rewrite Hev in Hev0. injection Hev0 as <-.
    pose proof (pending_events_length events Hwf) as Hlen.
    pose proof (wakeup_count_bound (event_mask events)
                  (pending_events
                     (set_notified_index events
                        (dvb_dmxdev_advance_event_idx
                           (notified_index events))))) as Hbound.
    unfold wakeup_counted in Hcount. rewrite Hp, wakeup_count_cons in Hcount.
    rewrite Hp in Hlen. cbn [length] in Hlen.
    cbn [event_mask set_notified_index] in Hrem.
    destruct (mask_test (no_wakeup_mask (event_mask events)) (ev_type ev));
      injection Hrem as <- <- <-; unfold wakeup_counted; simpl.
    + change (pending_events _) with
        (pending_events
           (set_notified_index events
              (dvb_dmxdev_advance_event_idx (notified_index events)))) at 1.
      lia.
    + change (pending_events _) with
        (pending_events
           (set_notified_index events
              (dvb_dmxdev_advance_event_idx (notified_index events)))) at 1.
      rewrite Hcount, u32_small; lia.
Qed.

(** ** Partial reads and bytes read ahead *)

Lemma u32_add_l (a b : Z) : u32 (u32 a + b) = u32 (a + b).
Proof. unfold u32. apply Zplus_mod_idemp_l. Qed.

Lemma u32_add_r (a b : Z) : u32 (a + u32 b) = u32 (a + b).
Proof. unfold u32. apply Zplus_mod_idemp_r. Qed.

Lemma u32_sub_r (a b : Z) : u32 (a - u32 b) = u32 (a - b).
Proof. unfold u32. apply Zminus_mod_idemp_r. Qed.

Lemma u32_s32 (a : Z) : u32 (s32 a) = u32 a.
Proof.
  unfold u32, s32. rewrite Zminus_mod_idemp_l.
  f_equal. lia.
Qed.

Lemma u32_add_s32 (a b : Z) : u32 (a + s32 b) = u32 (a + b).
Proof. rewrite <- u32_add_r, u32_s32, u32_add_r. reflexivity. Qed.

Lemma u32_sub_s32 (a b : Z) : u32 (a - s32 b) = u32 (a - b).
Proof. rewrite <- u32_sub_r, u32_s32, u32_sub_r. reflexivity. Qed.

(** X6.  A read of only part of the data of an event leaves the end of that
    data where it was: after the updater has taken [bytes_read] bytes off a
    PES or section event, [base_offset + total_length] and
    [start_offset + actual_length] are what they were, and so is
    [offset + size] of a recording chunk, all in 32-bit arithmetic; what
    else the event says is untouched. *)
Theorem partial_update_keeps_end (bytes_read : Z) :
  0 < bytes_read < 2 ^ 31 ->
  (forall e : dmx_pes_event_info,
     bytes_read < pes_total_length e < 2 ^ 32 ->
     let e' := snd (dvb_dmxdev_update_pes_event e bytes_read) in
     u32 (pes_base_offset e' + pes_total_length e')
     = u32 (pes_base_offset e + pes_total_length e)
     /\ u32 (pes_start_offset e' + pes_actual_length e')
        = u32 (pes_start_offset e + pes_actual_length e)
     /\ pes_stc e' = pes_stc e /\ pes_flags e' = pes_flags e)
  /\ (forall e : dmx_section_event_info,
        bytes_read < section_total_length e < 2 ^ 32 ->
        let e' := snd (dvb_dmxdev_update_section_event e bytes_read) in
        u32 (section_base_offset e' + section_total_length e')
        = u32 (section_base_offset e + section_total_length e)
        /\ u32 (section_start_offset e' + section_actual_length e')
           = u32 (section_start_offset e + section_actual_length e)
        /\ section_flags e' = section_flags e)
  /\ (forall e : dmx_rec_chunk_event_info,
        bytes_read < recording_chunk_size e < 2 ^ 32 ->
        let e' := snd (dvb_dmxdev_update_rec_event e bytes_read) in
        recording_chunk_size e' = recording_chunk_size e - bytes_read
        /\ u32 (recording_chunk_offset e' + recording_chunk_size e')
           = u32 (recording_chunk_offset e + recording_chunk_size e)).
Proof.
  intros Hb. split; [|split].
  - intros e Ht e'. subst e'. unfold dvb_dmxdev_update_pes_event.
    rewrite (u32_small bytes_read) by lia.
    destruct (Z.leb_spec (pes_total_length e) bytes_read); [lia|].
    destruct (_ <=? _); cbn [snd pes_base_offset pes_total_length
                               pes_start_offset pes_actual_length pes_stc
                               pes_flags].
    + rewrite u32_add_l, u32_add_r. repeat split. f_equal. lia.
    + rewrite !u32_add_l, !u32_add_r. repeat split.
      * replace (pes_start_offset e
                 + s32 (bytes_read
                        - s32 (pes_start_offset e - pes_base_offset e))
                 + (pes_total_length e - bytes_read))
          with (pes_start_offset e + (pes_total_length e - bytes_read)
                + s32 (bytes_read
                       - s32 (pes_start_offset e - pes_base_offset e)))
          by lia.
        rewrite u32_add_s32.
        replace (pes_start_offset e + (pes_total_length e - bytes_read)
                 + (bytes_read
                    - s32 (pes_start_offset e - pes_base_offset e)))
          with (pes_start_offset e + pes_total_length e
                - s32 (pes_start_offset e - pes_base_offset e)) by lia.
        rewrite u32_sub_s32. f_equal. lia.
      * f_equal. lia.
  - intros e Ht e'. subst e'. unfold dvb_dmxdev_update_section_event.
    rewrite (u32_small bytes_read) by lia.
    destruct (Z.leb_spec (section_total_length e) bytes_read); [lia|].
    destruct (_ <=? _); cbn [snd section_base_offset section_total_length
                               section_start_offset section_actual_length
                               section_flags].
    + rewrite u32_add_l, u32_add_r. repeat split. f_equal. lia.
    + rewrite !u32_add_l, !u32_add_r. repeat split.
      * replace (section_start_offset e
                 + s32 (bytes_read
                        - s32 (section_start_offset e
                               - section_base_offset e))
                 + (section_total_length e - bytes_read))
          with (section_start_offset e
                + (section_total_length e - bytes_read)
                + s32 (bytes_read
                       - s32 (section_start_offset e
                              - section_base_offset e)))
          by lia.
        rewrite u32_add_s32.
        replace (section_start_offset e
                 + (section_total_length e - bytes_read)
                 + (bytes_read
                    - s32 (section_start_offset e - section_base_offset e)))
          with (section_start_offset e + section_total_length e
                - s32 (section_start_offset e - section_base_offset e))
          by lia.
        rewrite u32_sub_s32. f_equal. lia.
      * f_equal. lia.
  - intros e Ht e'. subst e'. unfold dvb_dmxdev_update_rec_event.
    rewrite (u32_small bytes_read) by lia.
    destruct (Z.leb_spec (recording_chunk_size e) bytes_read); [lia|].
    cbn [snd recording_chunk_offset recording_chunk_size].
    split; [apply u32_small; lia|].
    rewrite u32_add_l, u32_add_r. f_equal. lia.
Qed.

(** X7.  Bytes that the consumer reads before their event is there are
    taken off the event when it comes.  On a queue that stores no event, a
    reconciliation of [bytes_read] bytes records them as read ahead; a PES
    event of no more than that many bytes that is added next is dropped and
    uses its length up of the bytes read ahead, and a longer one is stored
    with the bytes read ahead taken off its [total_length]. *)
Theorem read_ahead_is_accounted (events : dmxdev_events_queue)
    (bytes_read : Z) (event : dmx_pes_event_info) :
  queue_wf events -> 1 < DMX_EVENT_QUEUE_SIZE ->
  data_read_event_masked events = 0 ->
  read_index events = write_index events ->
  notified_index events = write_index events ->
  bytes_read_no_event events = 0 ->
  0 < bytes_read < 2 ^ 31 ->
  mask_test (disable_mask (event_mask events)) DMX_EVENT_NEW_PES = false ->
  0 < pes_total_length event < 2 ^ 32 ->
  exists events1,
    dvb_dmxdev_update_events events bytes_read = Some events1
    /\ same_slots events events1
    /\ bytes_read_no_event events1 = bytes_read
    /\ fst (dvb_dmxdev_add_event events1 (EvNewPes event)) = 0
    /\ let events2 := snd (dvb_dmxdev_add_event events1 (EvNewPes event)) in
       if pes_total_length event <=? bytes_read then
         same_slots events events2
         /\ bytes_read_no_event events2
            = bytes_read - pes_total_length event
       else
         bytes_read_no_event events2 = 0
         /\ write_index events2
            = dvb_dmxdev_advance_event_idx (write_index events)
         /\ exists event',
              queue events2 !! Z.to_nat (write_index events)
              = Some (EvNewPes event')
              /\ pes_total_length event'
                 = pes_total_length event - bytes_read.
Proof.
  intros Hwf Hsize Hmasked Hrw Hnw Hcredit Hb Hmask Ht.
  pose proof Hwf as (Hr & Hw & Hn & Hl).
  unfold dvb_dmxdev_update_events. rewrite Hmasked.
  change (negb (0 =? 0)) with false. cbv iota.
  destruct (Z.to_nat DMX_EVENT_QUEUE_SIZE) as [|fuel] eqn:Hfuel; [lia|].
  cbn [update_events_notified]. rewrite Hrw, Hnw, Z.eqb_refl.
  cbn [negb andb mbind option_bind].
  destruct (Z.eqb_spec bytes_read 0); [lia|].
  cbn [update_events_pending]. rewrite Hnw, Z.eqb_refl.
  cbn [negb andb mbind option_bind].
  destruct (Z.eqb_spec bytes_read 0); [lia|]. cbn [negb].
  rewrite Hcredit, Z.add_0_l, u32_small by lia.
  eexists. split; [reflexivity|]. split; [repeat split|].
  split; [reflexivity|].
  unfold dvb_dmxdev_add_event, add_event_credit.
  cbn [event_mask set_bytes_read_no_event bytes_read_no_event ev_type].
  rewrite Hmask.
  destruct (Z.eqb_spec bytes_read 0); [lia|].
  cbn [update_data_event]. rewrite s32_small by lia.
  destruct (Z_lt_le_dec bytes_read (pes_total_length event)) as [Hlt|Hge].
  - destruct (update_pes_event_partial event bytes_read)
      as [Hres Hlen]; [lia..|].
    destruct (dvb_dmxdev_update_pes_event event bytes_read)
      as [res event'].
    simpl in Hres, Hlen. subst res. change (0 =? 0) with true. cbv iota.
    cbn [write_index read_index set_bytes_read_no_event].
    assert (dvb_dmxdev_advance_event_idx (write_index events)
            <> read_index events) as Hroom.
    { rewrite Hrw, advance_event_idx_spec by lia.
      destruct (Z.eqb_spec (write_index events + 1) DMX_EVENT_QUEUE_SIZE);
        lia. }
    destruct (Z.eqb_spec (dvb_dmxdev_advance_event_idx (write_index events))
                (read_index events)); [contradiction|].
    destruct (Z.leb_spec (pes_total_length event) bytes_read); [lia|].
    destruct (mask_test (no_wakeup_mask _) _); simpl;
      (split; [reflexivity|]); (split; [reflexivity|]);
      (split; [reflexivity|]); exists event';
      (split; [apply list_lookup_insert_eq; lia | exact Hlen]).
  - rewrite update_pes_event_retire by lia.
    destruct (Z.eqb_spec (pes_total_length event) 0); [lia|].
    destruct (Z.leb_spec (pes_total_length event) bytes_read); [|lia].
    simpl. split; [reflexivity|]. split; [repeat split|].
    apply u32_small. lia.
Qed.

(** ** Events and status for the consumer *)

Lemma skip_avail_empty (b : dvb_ringbuffer) :
  0 <= pwrite b < size b ->
  dvb_ringbuffer_empty (DVB_RINGBUFFER_SKIP b (dvb_ringbuffer_avail b)) = true.
Proof.
  intros Hpw.
  unfold dvb_ringbuffer_empty, DVB_RINGBUFFER_SKIP, dvb_ringbuffer_avail.
  cbn [pread pwrite]. apply Z.eqb_eq. rewrite Zplus_mod_idemp_r.
  replace (pread b + (pwrite b - pread b)) with (pwrite b) by lia.
  apply Z.mod_small. exact Hpw.
Qed.

Lemma empty_avail_0 (b : dvb_ringbuffer) :
  dvb_ringbuffer_empty b = true -> dvb_ringbuffer_avail b = 0.
Proof.
  unfold dvb_ringbuffer_empty, dvb_ringbuffer_avail. intros H.
  apply Z.eqb_eq in H. rewrite H, Z.sub_diag. apply Zmod_0_l.
Qed.

Lemma pending_events_flushed (events : dmxdev_events_queue) :
  pending_events (dvb_dmxdev_flush_events events) = [].
Proof.
  unfold pending_events, dvb_dmxdev_flush_events, slots_between. simpl.
  rewrite Zmod_0_l. reflexivity.
Qed.

(** What [dvb_dmxdev_flush_data] leaves of a filter whose output is not the
    DVR buffer. *)
Lemma flush_data_own (dev : dmxdev) (length : Z) :
  ~ (type (filter dev) = DMXDEV_TYPE_PES
     /\ pes_output (pes (filter dev)) = DMX_OUT_TS_TAP) ->
  dvb_dmxdev_flush_data dev length
  = with_filter dev
      (with_events
         (with_buffer (filter dev)
            (set_error (DVB_RINGBUFFER_SKIP (buffer (filter dev)) length) 0))
         (set_current_event_start_offset
            (dvb_dmxdev_flush_events (events (filter dev)))
            (u32 (pwrite (buffer (filter dev)))))).
Proof.
  intros Hown. unfold dvb_dmxdev_flush_data.
  destruct (type (filter dev)); destruct (pes_output (pes (filter dev)));
    try reflexivity.
  exfalso. apply Hown. split; reflexivity.
Qed.

(** X8.  A pending overflow comes before every queued event: on a filter
    with a buffer of its own, [dvb_dmxdev_get_event] returns the overflow
    event and clears the error, whatever the queue holds.  When
    [overflow_auto_flush] is set it also throws away what the buffer holds
    and every event of the queue, handed out or not; when it is not set,
    the bytes of the buffer and the queue stay as they are. *)
Theorem get_event_overflow_first (dev : dmxdev) :
  error (buffer (filter dev)) = - EOVERFLOW ->
  ~ (type (filter dev) = DMXDEV_TYPE_PES
     /\ pes_output (pes (filter dev)) = DMX_OUT_TS_TAP) ->
  0 <= pwrite (buffer (filter dev)) < size (buffer (filter dev)) ->
  exists dev',
    dvb_dmxdev_get_event dev = Some (0, Some EvBufferOverflow, dev')
    /\ error (buffer (filter dev')) = 0
    /\ pwrite (buffer (filter dev')) = pwrite (buffer (filter dev))
    /\ data (buffer (filter dev')) = data (buffer (filter dev))
    /\ state (filter dev') = state (filter dev)
    /\ (overflow_auto_flush <> 0 ->
        dvb_ringbuffer_empty (buffer (filter dev')) = true
        /\ pending_events (events (filter dev')) = []
        /\ read_index (events (filter dev'))
           = write_index (events (filter dev'))
        /\ bytes_read_no_event (events (filter dev')) = 0)
    /\ (overflow_auto_flush = 0 ->
        buffer (filter dev') = set_error (buffer (filter dev)) 0
        /\ events (filter dev') = events (filter dev)).
Proof.
  intros Herr Hown Hpw. unfold dvb_dmxdev_get_event.
  rewrite Herr, Z.eqb_refl. cbn [mbind option_bind ev_type].
  rewrite bool_decide_eq_true_2 by reflexivity. cbn [orb negb andb].
  unfold dvb_dmxdev_auto_flush_buffer.
  destruct (Z.eqb_spec overflow_auto_flush 0) as [Hoff|Hon]; cbn [negb].
  - eexists. split; [reflexivity|].
    cbn [filter with_filter buffer with_buffer events with_events error
           set_error].
    do 4 (split; [reflexivity|]).
    split; [intros Hon; contradiction | intros _; split; reflexivity].
  - rewrite flush_data_own by exact Hown.
    eexists. split; [reflexivity|].
    cbn [filter with_filter buffer with_buffer events with_events error
           set_error].
    do 4 (split; [reflexivity|]).
    split; [intros _ | intros Hoff; contradiction].
    split.
    { apply (skip_avail_empty (set_error (buffer (filter dev)) 0)).
      exact Hpw. }
    split; [exact (pending_events_flushed (events (filter dev)))|].
    split; reflexivity.
Qed.

(** X9.  Without a pending overflow, [dvb_dmxdev_get_event] hands out the
    oldest of the waiting events, or fails with [-ENODATA] and changes
    nothing when none waits.  For a section-timeout event it clears the
    error of the buffer, for any other event it leaves the buffer alone;
    and it frees the slot of the event at once, by an advance of
    [read_index], exactly when reads do not reconcile the queue
    ([data_read_event_masked]). *)
Theorem get_event_takes_oldest (dev : dmxdev) :
  error (buffer (filter dev)) <> - EOVERFLOW ->
  queue_ordered (events (filter dev)) ->
  match pending_events (events (filter dev)) with
  | [] => dvb_dmxdev_get_event dev = Some (- ENODATA, None, dev)
  | event :: rest =>
      ev_type event <> DMX_EVENT_BUFFER_OVERFLOW ->
      exists dev',
        dvb_dmxdev_get_event dev = Some (0, Some event, dev')
        /\ pending_events (events (filter dev')) = rest
        /\ buffer (filter dev')
           = (if bool_decide (ev_type event = DMX_EVENT_SECTION_TIMEOUT)
              then set_error (buffer (filter dev)) 0
              else buffer (filter dev))
        /\ read_index (events (filter dev'))
           = (if data_read_event_masked (events (filter dev)) =? 0
              then read_index (events (filter dev))
              else dvb_dmxdev_advance_event_idx
                     (read_index (events (filter dev))))
        /\ write_index (events (filter dev'))
           = write_index (events (filter dev))
        /\ state (filter dev') = state (filter dev)
  end.
Proof.
  intros Herr Hord.
  pose proof (remove_event_pending (events (filter dev)) Hord) as Hrem.
  unfold dvb_dmxdev_get_event.
  destruct (Z.eqb_spec (error (buffer (filter dev))) (- EOVERFLOW));
    [contradiction|].
  destruct (pending_events (events (filter dev))) as [|event rest].
  { rewrite Hrem. reflexivity. }
  intros Hty.
  destruct Hrem as (events' & -> & Hp & _ & Hr & Hw & Hq & Hmasked & _).
  cbn [mbind option_bind].
  rewrite (bool_decide_eq_false_2 _ Hty). cbn [orb negb andb].
  eexists. split; [reflexivity|].
  destruct (bool_decide (ev_type event = DMX_EVENT_SECTION_TIMEOUT));
    cbn [filter with_filter events with_events buffer with_buffer state];
    rewrite Hmasked;
    destruct (data_read_event_masked (events (filter dev)) =? 0);
    cbn [negb filter with_filter events with_events buffer with_buffer
           state read_index write_index set_read_index];
    repeat split; auto; rewrite Hr; reflexivity.
Qed.

(** Whether the output of a filter is the DVR buffer can be told. *)
Lemma classic_ts_tap (f : dmxdev_filter) :
  (type f = DMXDEV_TYPE_PES /\ pes_output (pes f) = DMX_OUT_TS_TAP)
  \/ ~ (type f = DMXDEV_TYPE_PES /\ pes_output (pes f) = DMX_OUT_TS_TAP).
Proof.
  destruct (type f); destruct (pes_output (pes f));
    first [left; split; reflexivity
          | right; intros [H1 H2]; discriminate].
Qed.

(** X10.  [dvb_dmxdev_get_buffer_status].  For a PES filter whose output is
    the decoder it hands back what the engine says about the decoder's
    buffer, or fails with [-ENODEV] when the engine has nothing to say, and
    changes nothing.  For any other filter it fails with [-EINVAL] when the
    filter has no storage and leaves the caller's structure alone; with
    storage it reports the pending error together with the fullness and
    clears the error, so that a second call reports no error.  After an
    error other than an overflow, or with [overflow_auto_flush] not set,
    the filter is otherwise as it was and the fullness is reported again.
    After an overflow with [overflow_auto_flush] set, a filter with a
    buffer of its own has its buffer emptied and its queue flushed, and the
    second call reports a fullness of zero; for a TS tap it is the DVR
    buffer that skips as many bytes as the filter's buffer holds and the
    DVR queue that is flushed, while the buffer and queue of the filter
    keep what they hold. *)
Theorem buffer_status_reports_error_once
    (get_decoder_buff_status : option (Z * dmx_buffer_status))
    (dev : dmxdev) (st0 : dmx_buffer_status) :
  let f := filter dev in
  let decoder :=
    type f = DMXDEV_TYPE_PES /\ pes_output (pes f) = DMX_OUT_DECODER in
  let ts_tap :=
    type f = DMXDEV_TYPE_PES /\ pes_output (pes f) = DMX_OUT_TS_TAP in
  (decoder ->
   dvb_dmxdev_get_buffer_status get_decoder_buff_status dev st0
   = match get_decoder_buff_status with
     | Some (ret, st) => (ret, st, dev)
     | None => (- ENODEV, st0, dev)
     end)
  /\ (~ decoder -> data (buffer f) = None ->
      dvb_dmxdev_get_buffer_status get_decoder_buff_status dev st0
      = (- EINVAL, st0, dev))
  /\ (~ decoder -> is_Some (data (buffer f)) ->
      exists st1 dev1 st2,
        dvb_dmxdev_get_buffer_status get_decoder_buff_status dev st0
        = (0, st1, dev1)
        /\ status_error st1 = error (buffer f)
        /\ status_fullness st1 = u32 (dvb_ringbuffer_avail (buffer f))
        /\ error (buffer (filter dev1)) = 0
        /\ dvb_dmxdev_get_buffer_status get_decoder_buff_status dev1 st1
           = (0, st2, dev1)
        /\ status_error st2 = 0
        /\ (error (buffer f) <> - EOVERFLOW \/ overflow_auto_flush = 0 ->
            dev1 = with_filter dev (with_buffer f (set_error (buffer f) 0))
            /\ status_fullness st2 = status_fullness st1)
        /\ (error (buffer f) = - EOVERFLOW -> overflow_auto_flush <> 0 ->
            ~ ts_tap -> 0 <= pwrite (buffer f) < size (buffer f) ->
            status_fullness st2 = 0
            /\ pending_events (events (filter dev1)) = []
            /\ read_index (events (filter dev1))
               = write_index (events (filter dev1)))
        /\ (error (buffer f) = - EOVERFLOW -> overflow_auto_flush <> 0 ->
            ts_tap ->
            buffer (filter dev1) = set_error (buffer f) 0
            /\ events (filter dev1) = events f
            /\ status_fullness st2 = status_fullness st1
            /\ dvr_buffer dev1
               = set_error
                   (DVB_RINGBUFFER_SKIP (dvr_buffer dev)
                      (dvb_ringbuffer_avail (buffer f))) 0
            /\ pending_events (dvr_output_events dev1) = [])).
Proof.
  intros f decoder ts_tap.
  assert (forall d : dmxdev,
            type (filter d) = type f -> pes (filter d) = pes f ->
            ~ decoder ->
            forall st,
            dvb_dmxdev_get_buffer_status get_decoder_buff_status d st
            = if negb (bool_decide (is_Some (data (buffer (filter d)))))
              then (- EINVAL, st, d)
              else
                (0,
                 {| status_error := error (buffer (filter d));
                    status_fullness :=
                      u32 (dvb_ringbuffer_avail (buffer (filter d)));
                    status_free_bytes :=
                      u32 (dvb_ringbuffer_free (buffer (filter d)));
                    status_read_offset := u32 (pread (buffer (filter d)));
                    status_write_offset := u32 (pwrite (buffer (filter d)));
                    status_size := u32 (size (buffer (filter d))) |},
                 if error (buffer (filter d)) =? - EOVERFLOW
                 then
                   dvb_dmxdev_auto_flush_buffer
                     (with_filter d
                        (with_buffer (filter d)
                           (set_error (buffer (filter d)) 0)))
                     (set_error (buffer (filter d)) 0)
                 else
                   with_filter d
                     (with_buffer (filter d)
                        (set_error (buffer (filter d)) 0))))
    as Hcall.
  { intros d Hty Hpes Hown st. unfold dvb_dmxdev_get_buffer_status.
    rewrite Hty, Hpes.
    destruct (type f) eqn:Htype; destruct (pes_output (pes f)) eqn:Hout;
      try reflexivity.
    exfalso. apply Hown. split; reflexivity. }
  split; [|split].
  { intros [Hty Hout]. unfold dvb_dmxdev_get_buffer_status. fold f.
    rewrite Hty, Hout. destruct get_decoder_buff_status as [[ret st]|];
      reflexivity. }
  { intros Hown Hnone. rewrite Hcall by (reflexivity || exact Hown). fold f.
    rewrite Hnone.
    rewrite bool_decide_eq_false_2 by (intros [? ?]; discriminate).
    reflexivity. }
  intros Hown Hdata. rewrite Hcall by (reflexivity || exact Hown). fold f.
  rewrite (bool_decide_eq_true_2 _ Hdata). cbn [negb].
  destruct (Z.eqb_spec (error (buffer f)) (- EOVERFLOW)) as [Hover|Hother].
  - unfold dvb_dmxdev_auto_flush_buffer.
    destruct (Z.eqb_spec overflow_auto_flush 0) as [Hoff|Hon]; cbn [negb].
    + eexists _, _, _. split; [reflexivity|].
      do 3 (split; [reflexivity|]). split.
      { rewrite Hcall by (reflexivity || exact Hown).
        cbn [filter with_filter buffer with_buffer data set_error error].
        rewrite (bool_decide_eq_true_2 _ Hdata). cbn [negb].
        change (0 =? - EOVERFLOW) with false. cbv iota.
        f_equal. }
      split; [reflexivity|].
      split; [intros _; split; reflexivity|].
      split; intros _ Hon; contradiction.
    + destruct (classic_ts_tap f) as [Htap|Hnotap].
      * destruct Htap as [Hty Hout].
        unfold dvb_dmxdev_flush_data.
        cbn [filter with_filter type pes with_buffer].
        fold f. rewrite Hty, Hout.
        eexists _, _, _. split; [reflexivity|].
        do 3 (split; [reflexivity|]). split.
        { rewrite Hcall by (reflexivity || exact Hown).
          cbn [filter with_filter buffer with_buffer data set_error error
                 with_dvr_buffer with_dvr_output_events].
          rewrite (bool_decide_eq_true_2 _ Hdata). cbn [negb].
          change (0 =? - EOVERFLOW) with false. cbv iota.
          f_equal. }
        split; [reflexivity|].
        split; [intros [H|H]; contradiction|].
        split; [intros _ _ Hno; exfalso; apply Hno; split; assumption|].
        intros _ _ _.
        do 4 (split; [reflexivity|]).
        exact (pending_events_flushed (dvr_output_events dev)).
      * rewrite flush_data_own by exact Hnotap.
        cbn [filter with_filter buffer with_buffer events with_events].
        eexists _, _, _. split; [reflexivity|].
        do 3 (split; [reflexivity|]). split.
        { rewrite Hcall by (reflexivity || exact Hown).
          cbn [filter with_filter buffer with_buffer events with_events
                 data set_error DVB_RINGBUFFER_SKIP error].
          rewrite (bool_decide_eq_true_2 _ Hdata). cbn [negb].
          change (0 =? - EOVERFLOW) with false. cbv iota.
          f_equal. }
        split; [reflexivity|].
        split; [intros [H|H]; contradiction|].
        split; [|intros _ _ Htap; contradiction].
        intros _ _ _ Hpw.
        pose proof (skip_avail_empty (set_error (buffer f) 0) Hpw) as Hempty.
        split.
        { cbn [status_fullness].
          match goal with
          | |- u32 (dvb_ringbuffer_avail ?b) = 0 =>
              rewrite (empty_avail_0 b Hempty)
          end.
          reflexivity. }
        split; [exact (pending_events_flushed (events f)) | reflexivity].
  - eexists _, _, _. split; [reflexivity|].
    do 3 (split; [reflexivity|]). split.
    { rewrite Hcall by (reflexivity || exact Hown).
      cbn [filter with_filter buffer with_buffer data set_error error].
      rewrite (bool_decide_eq_true_2 _ Hdata). cbn [negb].
      change (0 =? - EOVERFLOW) with false. cbv iota.
      f_equal. }
    split; [reflexivity|].
    split; [intros _; split; reflexivity|].
    split; intros H; contradiction.
Qed.

(** X11.  [dvb_dmxdev_flush_buffer] fails with [-EINVAL] on a filter that
    is not running and changes nothing.  On a running filter it returns
    what the engine returns.  A filter with a buffer of its own is left
    with the buffer empty and without error, the queue without events and
    without bytes read ahead, and the window of the current event empty at
    the write cursor; a non-blocking read that follows finds nothing
    ([-EWOULDBLOCK]).  For a TS tap the filter itself, with the bytes in
    its buffer, is left as it is: the DVR buffer skips as many bytes as the
    buffer of the filter holds and loses its error, and the DVR queue is
    flushed. *)
Theorem flush_buffer_empties (flush_result : Z) (dev : dmxdev) :
  let f := filter dev in
  let dev' := snd (dvb_dmxdev_flush_buffer flush_result dev) in
  (state f <> DMXDEV_STATE_GO ->
   dvb_dmxdev_flush_buffer flush_result dev = (- EINVAL, dev))
  /\ (state f = DMXDEV_STATE_GO ->
      fst (dvb_dmxdev_flush_buffer flush_result dev) = flush_result)
  /\ (state f = DMXDEV_STATE_GO ->
      ~ (type f = DMXDEV_TYPE_PES /\ pes_output (pes f) = DMX_OUT_TS_TAP) ->
      0 <= pwrite (buffer f) < size (buffer f) ->
      dvb_ringbuffer_empty (buffer (filter dev')) = true
      /\ error (buffer (filter dev')) = 0
      /\ pwrite (buffer (filter dev')) = pwrite (buffer f)
      /\ pending_events (events (filter dev')) = []
      /\ read_index (events (filter dev'))
         = write_index (events (filter dev'))
      /\ bytes_read_no_event (events (filter dev')) = 0
      /\ current_event_data_size (events (filter dev')) = 0
      /\ current_event_start_offset (events (filter dev'))
         = u32 (pwrite (buffer f))
      /\ forall count env,
           0 < count -> is_Some (data (buffer f)) ->
           dvb_dmxdev_buffer_read FromFilter true count env dev'
           = Some {| ret := - EWOULDBLOCK; user_buf := [];
                     dev_after := dev'; env_after := env |})
  /\ (state f = DMXDEV_STATE_GO ->
      type f = DMXDEV_TYPE_PES -> pes_output (pes f) = DMX_OUT_TS_TAP ->
      filter dev' = f
      /\ dvr_buffer dev'
         = set_error
             (DVB_RINGBUFFER_SKIP (dvr_buffer dev)
                (dvb_ringbuffer_avail (buffer f))) 0
      /\ pending_events (dvr_output_events dev') = []
      /\ read_index (dvr_output_events dev')
         = write_index (dvr_output_events dev')
      /\ current_event_start_offset (dvr_output_events dev')
         = u32 (pwrite (dvr_buffer dev))).
Proof.
  intros f dev'. subst dev'. unfold dvb_dmxdev_flush_buffer. fold f.
  split; [|split; [|split]].
  { intros Hstate. rewrite bool_decide_eq_false_2 by exact Hstate.
    reflexivity. }
  { intros Hstate. rewrite (bool_decide_eq_true_2 _ Hstate). reflexivity. }
  { intros Hstate Hown Hpw.
    rewrite (bool_decide_eq_true_2 _ Hstate). cbn [negb fst snd].
    rewrite flush_data_own by exact Hown. fold f.
    cbn [filter with_filter buffer with_buffer events with_events].
    pose proof (skip_avail_empty (buffer f) Hpw) as Hempty.
    split; [exact Hempty|].
    do 2 (split; [reflexivity|]).
    split; [exact (pending_events_flushed (events f))|].
    do 4 (split; [reflexivity|]).
    intros count env Hcount Hdata.
    unfold dvb_dmxdev_buffer_read.
    cbn [read_src filter with_filter buffer with_buffer data set_error
           DVB_RINGBUFFER_SKIP error].
    rewrite (bool_decide_eq_true_2 _ Hdata). cbn [negb Z.eqb].
    destruct (Z.to_nat count) as [|fuel] eqn:Hfuel; [lia|].
    cbn [buffer_read_loop read_src filter with_filter buffer with_buffer].
    destruct (Z.leb_spec count 0); [lia|].
    match goal with
    | |- context [dvb_ringbuffer_empty ?b] =>
        replace (dvb_ringbuffer_empty b) with true
          by (symmetry; exact Hempty)
    end.
    cbn [andb]. unfold read_return.
    rewrite Z.sub_diag. reflexivity. }
  intros Hstate Hty Hout.
  rewrite (bool_decide_eq_true_2 _ Hstate). cbn [negb fst snd].
  unfold dvb_dmxdev_flush_data. fold f. rewrite Hty, Hout.
  cbn [filter with_dvr_output_events with_dvr_buffer dvr_buffer
         dvr_output_events].
  do 2 (split; [reflexivity|]).
  split; [exact (pending_events_flushed (dvr_output_events dev))|].
  split; reflexivity.
Qed.

(** X12.  The overflow event cannot be masked.  Whatever mask
    [dvb_dmxdev_set_event_mask] accepts, the mask that the filter then has,
    and that [dvb_dmxdev_get_event_mask] hands back, neither disables the
    overflow event nor keeps it from waking the consumer up; the wake-up
    threshold is the one that was given and is below the number of slots. *)
Theorem overflow_event_stays_enabled (dmxdevfilter f' : dmxdev_filter)
    (mask : dmx_events_mask) :
  0 <= event_bit DMX_EVENT_BUFFER_OVERFLOW < 2 ^ 32 ->
  dvb_dmxdev_set_event_mask dmxdevfilter (Some mask) = (0, f') ->
  mask_test (disable_mask (event_mask (events f'))) DMX_EVENT_BUFFER_OVERFLOW
  = false
  /\ mask_test (no_wakeup_mask (event_mask (events f')))
       DMX_EVENT_BUFFER_OVERFLOW = false
  /\ wakeup_threshold (event_mask (events f')) = wakeup_threshold mask
  /\ wakeup_threshold mask < DMX_EVENT_QUEUE_SIZE
  /\ dvb_dmxdev_get_event_mask f' (Some mask)
     = (0, Some (event_mask (events f')))
  /\ state f' = state dmxdevfilter
  /\ state dmxdevfilter <> DMXDEV_STATE_GO.
Proof.
  intros Hbit. unfold dvb_dmxdev_set_event_mask.
  destruct (Z.leb_spec DMX_EVENT_QUEUE_SIZE (wakeup_threshold mask))
    as [Hbig|Hthreshold]; [intros [= Hret]; discriminate Hret|].
  case_bool_decide as Hstate; [intros [= Hret]; discriminate Hret|].
  intros [= <-]. cbn [events with_events event_mask set_event_mask
                        disable_mask no_wakeup_mask wakeup_threshold state].
  rewrite u32_small by exact Hbit.
  assert (forall m, mask_test
                      (Z.land m
                         (Z.lnot (event_bit DMX_EVENT_BUFFER_OVERFLOW)))
                      DMX_EVENT_BUFFER_OVERFLOW = false) as Hclear.
  { intros m. unfold mask_test.
    rewrite <- Z.land_assoc, (Z.land_comm (Z.lnot _)), Z.land_lnot_diag,
      Z.land_0_r. reflexivity. }
  repeat split; auto.
Qed.

(** ** Polling *)

Lemma nonempty_avail (b : dvb_ringbuffer) :
  0 <= pread b < size b -> 0 <= pwrite b < size b ->
  dvb_ringbuffer_empty b = false -> 0 < dvb_ringbuffer_avail b.
Proof.
  unfold dvb_ringbuffer_empty, dvb_ringbuffer_avail. intros Hpr Hpw Hne.
  apply Z.eqb_neq in Hne.
  destruct (Z_le_gt_dec (pread b) (pwrite b)).
  - rewrite Z.mod_small; lia.
  - rewrite <- (Z.mod_add _ 1), Z.mul_1_l by lia.
    rewrite Z.mod_small; lia.
Qed.

Lemma poll_bit_in (a bit : Z) : bit <> 0 -> Z.land (Z.lor a bit) bit <> 0.
Proof.
  clear queue_size_range.
  intros Hbit. rewrite Z.land_lor_distr_l, Z.land_diag.
  intros H. apply Z.lor_eq_0_iff in H. tauto.
Qed.

(** X13.  On a running filter with mapped storage, [dvb_demux_poll] reports
    [POLLIN] exactly when a non-blocking read has something to give: when
    the bit is not set the read returns [-EWOULDBLOCK] and changes nothing;
    when it is set the read returns the pending error, which it clears, or
    else as many bytes as were asked for or as the buffer holds, at least
    one.  The poll bits are taken to be distinct. *)
Theorem poll_agrees_with_read (vb2_poll count : Z) (env : list wakeup)
    (dev : dmxdev) :
  let f := filter dev in
  let mask := dvb_demux_poll vb2_poll (Some f) in
  POLLIN <> 0 -> Z.land POLLPRI POLLIN = 0 ->
  vb2_streaming f = false -> state f = DMXDEV_STATE_GO ->
  is_Some (data (buffer f)) ->
  0 <= pread (buffer f) < size (buffer f) ->
  0 <= pwrite (buffer f) < size (buffer f) ->
  0 < count ->
  (Z.land mask POLLIN = 0 ->
   dvb_dmxdev_buffer_read FromFilter true count env dev
   = Some {| ret := - EWOULDBLOCK; user_buf := []; dev_after := dev;
             env_after := env |})
  /\ (Z.land mask POLLIN <> 0 ->
      exists r,
        dvb_dmxdev_buffer_read FromFilter true count env dev = Some r
        /\ env_after r = env
        /\ if error (buffer f) =? 0 then
             ret r = Z.min count (dvb_ringbuffer_avail (buffer f))
             /\ 0 < ret r
             /\ Z.of_nat (length (user_buf r)) = ret r
           else
             ret r = error (buffer f) /\ user_buf r = []
             /\ error (buffer (filter (dev_after r))) = 0).
Proof.
  clear queue_size_range.
  intros f mask Hin Hpri Hvb2 Hstate Hdata Hpr Hpw Hcount.
  assert (forall a, Z.land (Z.lor a (Z.lor POLLIN POLLRDNORM)) POLLIN <> 0)
    as Hin1.
  { intros a. rewrite (Z.lor_comm POLLIN), Z.lor_assoc.
    apply poll_bit_in. exact Hin. }
  assert (forall a,
            Z.land (Z.lor a (Z.lor (Z.lor POLLIN POLLRDNORM) POLLERR))
              POLLIN <> 0) as Hin2.
  { intros a.
    rewrite (Z.lor_comm POLLIN), <- (Z.lor_assoc POLLRDNORM),
      (Z.lor_comm POLLIN), !Z.lor_assoc.
    apply poll_bit_in. exact Hin. }
  assert (forall a, Z.land a POLLIN <> 0 ->
            Z.land (Z.lor a POLLPRI) POLLIN <> 0) as Hmore.
  { intros a Ha. rewrite Z.land_lor_distr_l, Hpri, Z.lor_0_r. exact Ha. }
  assert (forall a, Z.land a POLLIN <> 0 ->
            Z.land (if wakeup_threshold (event_mask (events f))
                       <=? wakeup_events_counter (events f)
                    then Z.lor a POLLPRI else a) POLLIN <> 0) as Hlast.
  { intros a Ha. destruct (_ <=? _); [apply Hmore|]; exact Ha. }
  subst mask. unfold dvb_demux_poll. rewrite Hvb2, Hstate.
  rewrite bool_decide_eq_true_2 by reflexivity. cbn [negb andb].
  unfold dvb_dmxdev_buffer_read. cbn [read_src]. fold f.
  rewrite (bool_decide_eq_true_2 _ Hdata). cbn [negb].
  destruct (Z.eqb_spec (error (buffer f)) 0) as [Herr|Herr]; cbn [negb].
  - destruct (dvb_ringbuffer_empty (buffer f)) eqn:Hempty; cbn [negb].
    + split; [|intros Hset; exfalso; apply Hset;
                destruct (_ <=? _);
                [rewrite Z.lor_0_l; exact Hpri | reflexivity]].
      intros _.
      destruct (Z.to_nat count) as [|fuel] eqn:Hfuel; [lia|].
      cbn [buffer_read_loop read_src]. fold f.
      destruct (Z.leb_spec count 0); [lia|].
      rewrite Hempty. cbn [andb]. unfold read_return.
      rewrite Z.sub_diag. reflexivity.
    + split; [intros Hclear; exfalso; revert Hclear; apply Hlast, Hin1|].
      intros _.
      pose proof (nonempty_avail (buffer f) Hpr Hpw Hempty) as Havail.
      destruct (Z_le_gt_dec count (dvb_ringbuffer_avail (buffer f)))
        as [Hle|Hgt].
      * pose proof (buffer_read_available true count env dev
                      ltac:(fold f; lia) Hdata Herr Hstate) as Hread.
        unfold dvb_dmxdev_buffer_read in Hread. cbn [read_src] in Hread.
        fold f in Hread.
        rewrite (bool_decide_eq_true_2 _ Hdata), Herr in Hread.
        cbn [negb Z.eqb] in Hread. rewrite Hread.
        eexists. split; [reflexivity|]. split; [reflexivity|].
        cbn [ret user_buf]. rewrite Z.min_l by lia.
        split; [reflexivity|]. split; [lia|].
        unfold ring_bytes. rewrite length_map, length_seq. lia.
      * pose proof (buffer_read_nonblocking_rest count env dev Hpw
                      ltac:(fold f; lia) Hdata Herr Hstate) as Hread.
        unfold dvb_dmxdev_buffer_read in Hread. cbn [read_src] in Hread.
        fold f in Hread.
        rewrite (bool_decide_eq_true_2 _ Hdata), Herr in Hread.
        cbn [negb Z.eqb] in Hread. rewrite Hread.
        eexists. split; [reflexivity|]. split; [reflexivity|].
        cbn [ret user_buf]. rewrite Z.min_r by lia.
        split; [reflexivity|]. split; [lia|].
        unfold ring_bytes. rewrite length_map, length_seq. lia.
  - split.
    + intros Hclear. exfalso. revert Hclear. apply Hlast.
      destruct (negb (dvb_ringbuffer_empty (buffer f)));
        [apply Hin1|].
      destruct (_ =? - EOVERFLOW); [apply Hmore|]; apply Hin2.
    + intros _. eexists. split; [reflexivity|]. split; [reflexivity|].
      cbn [ret user_buf dev_after]. repeat split.
Qed.

(** X14.  [dvb_demux_poll] reports nothing on a filter that is neither
    running, done nor timed out.  On the others it reports [POLLPRI]
    exactly when an overflow is pending or [wakeup_events_counter] has
    reached the wake-up threshold, and [POLLERR] exactly when an error is
    pending.  The poll bits are taken to be distinct. *)
Theorem poll_reports_events (vb2_poll : Z) (f : dmxdev_filter) :
  let mask := dvb_demux_poll vb2_poll (Some f) in
  POLLPRI <> 0 -> POLLERR <> 0 ->
  Z.land POLLIN POLLPRI = 0 -> Z.land POLLRDNORM POLLPRI = 0 ->
  Z.land POLLERR POLLPRI = 0 ->
  Z.land POLLIN POLLERR = 0 -> Z.land POLLRDNORM POLLERR = 0 ->
  vb2_streaming f = false ->
  (state f <> DMXDEV_STATE_GO -> state f <> DMXDEV_STATE_DONE ->
   state f <> DMXDEV_STATE_TIMEDOUT -> mask = 0)
  /\ (state f = DMXDEV_STATE_GO \/ state f = DMXDEV_STATE_DONE
      \/ state f = DMXDEV_STATE_TIMEDOUT ->
      (Z.land mask POLLPRI <> 0 <->
       error (buffer f) = - EOVERFLOW
       \/ wakeup_threshold (event_mask (events f))
          <= wakeup_events_counter (events f))
      /\ (Z.land mask POLLERR <> 0 <-> error (buffer f) <> 0)).
Proof.
  clear queue_size_range.
  intros mask Hpri Herr Hip Hrp Hep Hie Hre Hvb2.
  subst mask. unfold dvb_demux_poll. rewrite Hvb2. split.
  { intros H1 H2 H3. rewrite !bool_decide_eq_false_2 by assumption.
    reflexivity. }
  intros Hstate.
  assert (negb (bool_decide (state f = DMXDEV_STATE_GO))
          && negb (bool_decide (state f = DMXDEV_STATE_DONE))
          && negb (bool_decide (state f = DMXDEV_STATE_TIMEDOUT)) = false)
    as ->.
  { destruct Hstate as [-> | [-> | ->]]; reflexivity. }
  assert (Z.land (Z.lor POLLIN POLLRDNORM) POLLPRI = 0) as Hdata_pri
    by (rewrite Z.land_lor_distr_l, Hip, Hrp; reflexivity).
  assert (Z.land (Z.lor POLLIN POLLRDNORM) POLLERR = 0) as Hdata_err
    by (rewrite Z.land_lor_distr_l, Hie, Hre; reflexivity).
  assert (Z.land POLLPRI POLLERR = 0) as Hpe
    by (rewrite Z.land_comm; exact Hep).
  destruct (Z.eqb_spec (error (buffer f)) 0) as [He0|He0]; cbn [negb];
    destruct (Z.eqb_spec (error (buffer f)) (- EOVERFLOW)) as [Hov|Hov];
    destruct (negb (dvb_ringbuffer_empty (buffer f)));
    destruct (Z.leb_spec (wakeup_threshold (event_mask (events f)))
                (wakeup_events_counter (events f))) as [Hth|Hth];
    rewrite ?Z.lor_0_l, ?Z.land_lor_distr_l, ?Z.land_diag, ?Hip, ?Hrp, ?Hep,
      ?Hie, ?Hre, ?Hpe, ?Z.lor_0_l, ?Z.lor_0_r, ?Z.land_0_l;
    try (rewrite He0 in Hov; discriminate Hov);
    (split; split; intros H; try tauto; try lia; try congruence;
     try (intros H'; apply Z.lor_eq_0_iff in H'; tauto)).
Qed.

(** ** Sections, the timeout and one-shot filters *)

(** X15.  A section that arrives at a running section filter and is not
    turned away for want of a slot in the queue cancels the timeout:
    whether its bytes fit in the buffer or make it overflow,
    [dvb_dmxdev_section_callback] returns 0 and leaves no timer pending, so
    that the timer function does not run any more.  When the bytes do not
    fit, the error of the buffer is [-EOVERFLOW] and the filter goes on
    running, with its queue as it was; when they fit, a section event of
    their length at the write cursor has been handed to the queue, and the
    filter is done if it is a one-shot filter and goes on running if not.
    A section that finds the section event enabled and the queue full is
    dropped before any of this: the callback returns 0 and changes
    nothing, and a timer that is pending stays pending and fires. *)
Theorem section_cancels_timeout (buffer1 buffer2 : option (list Z))
    (dev : dmxdev) :
  let f := filter dev in
  let len := seg_len buffer1 + seg_len buffer2 in
  state f = DMXDEV_STATE_GO -> error (buffer f) = 0 -> eos_state f = 0 ->
  vb2_streaming f = false ->
  0 < len ->
  (mask_test (disable_mask (event_mask (events f))) DMX_EVENT_NEW_SECTION
   = false ->
   dvb_dmxdev_events_is_full (events f) <> 0 ->
   dvb_dmxdev_section_callback buffer1 buffer2 (Some dev) = (0, Some dev)
   /\ forall now expires,
        timer f = Some expires -> expires <= now ->
        run_timer now f
        = Some (dvb_dmxdev_filter_timeout (with_timer f None)))
  /\ (mask_test (disable_mask (event_mask (events f))) DMX_EVENT_NEW_SECTION
      = true
      \/ dvb_dmxdev_events_is_full (events f) = 0 ->
      exists dev',
        dvb_dmxdev_section_callback buffer1 buffer2 (Some dev)
        = (0, Some dev')
        /\ timer (filter dev') = None
        /\ (forall now, run_timer now (filter dev') = None)
        /\ if u64 (dvb_ringbuffer_free (buffer f)) <? len then
             error (buffer (filter dev')) = - EOVERFLOW
             /\ state (filter dev') = DMXDEV_STATE_GO
             /\ events (filter dev') = events f
             /\ data (buffer (filter dev')) = data (buffer f)
             /\ pwrite (buffer (filter dev')) = pwrite (buffer f)
           else
             events (filter dev')
             = snd (dvb_dmxdev_add_event (events f)
                      (EvNewSection
                         {| section_base_offset := u32 (pwrite (buffer f));
                            section_start_offset := u32 (pwrite (buffer f));
                            section_total_length := u32 len;
                            section_actual_length := u32 len;
                            section_flags := None |}))
             /\ state (filter dev')
                = (if Z.land (sec_flags (sec f)) DMX_ONESHOT =? 0
                   then DMXDEV_STATE_GO else DMXDEV_STATE_DONE)).
Proof.
  intros f len Hstate Herr Heos Hvb2 Hlen.
  unfold dvb_dmxdev_section_callback. fold f. fold len.
  rewrite Hvb2, Herr, Heos, Hstate.
  rewrite bool_decide_eq_true_2 by reflexivity.
  cbn [negb andb orb Z.eqb]. split.
  - intros Hmask Hfull. rewrite Hmask.
    destruct (Z.eqb_spec (dvb_dmxdev_events_is_full (events f)) 0);
      [contradiction|].
    cbn [negb andb]. split; [reflexivity|].
    intros now expires Htimer Hdue. unfold run_timer.
    rewrite Htimer.
    destruct (Z.leb_spec expires now); [reflexivity | lia].
  - intros Hroom.
    assert (negb (mask_test (disable_mask (event_mask (events f)))
                    DMX_EVENT_NEW_SECTION)
            && negb (dvb_dmxdev_events_is_full (events f) =? 0) = false)
      as ->.
    { destruct Hroom as [-> | ->]; [reflexivity | apply andb_false_r]. }
    destruct (Z.eqb_spec len 0); [lia|].
    cbn [buffer with_timer error].
    destruct (u64 (dvb_ringbuffer_free (buffer f)) <? len);
      eexists; (split; [reflexivity|]); unfold run_timer; simpl;
      destruct (Z.land (sec_flags (sec f)) DMX_ONESHOT =? 0); simpl;
      rewrite ?Hstate; repeat split.
Qed.

(** X16.  A one-shot filter is done after its section: on a filter that is
    done the two section callbacks return 0 and change nothing, and a
    blocking read that finds the buffer empty returns 0 at once, without a
    wait, while a non-blocking one returns [-EWOULDBLOCK]. *)
Theorem done_filter_is_at_rest (dev : dmxdev) :
  state (filter dev) = DMXDEV_STATE_DONE ->
  (forall buffer1 buffer2,
     dvb_dmxdev_section_callback buffer1 buffer2 (Some dev) = (0, Some dev))
  /\ (forall dmx_data_ready,
        dvb_dmxdev_section_event_cb (Some dev) dmx_data_ready
        = (0, Some dev))
  /\ (forall non_blocking count env,
        is_Some (data (buffer (filter dev))) ->
        error (buffer (filter dev)) = 0 ->
        dvb_ringbuffer_empty (buffer (filter dev)) = true ->
        0 < count ->
        dvb_dmxdev_buffer_read FromFilter non_blocking count env dev
        = Some {| ret := if non_blocking then - EWOULDBLOCK else 0;
                  user_buf := []; dev_after := dev; env_after := env |}).
Proof.
  intros Hstate. split; [|split].
  - intros buffer1 buffer2. unfold dvb_dmxdev_section_callback.
    rewrite Hstate.
    rewrite (bool_decide_eq_false_2 (DMXDEV_STATE_DONE = DMXDEV_STATE_GO))
      by discriminate.
    cbn [negb]. rewrite orb_true_r. cbn [orb].
    destruct (_ && _); reflexivity.
  - intros dmx_data_ready. unfold dvb_dmxdev_section_event_cb.
    rewrite Hstate.
    rewrite (bool_decide_eq_false_2 (DMXDEV_STATE_DONE = DMXDEV_STATE_GO))
      by discriminate.
    cbn [negb]. rewrite orb_true_r. reflexivity.
  - intros non_blocking count env Hdata Herr Hempty Hcount.
    unfold dvb_dmxdev_buffer_read. cbn [read_src].
    rewrite (bool_decide_eq_true_2 _ Hdata), Herr. cbn [negb Z.eqb].
    destruct (Z.to_nat count) as [|fuel] eqn:Hfuel; [lia|].
    cbn [buffer_read_loop read_src].
    destruct (Z.leb_spec count 0); [lia|].
    rewrite Hempty, Hstate, andb_true_r.
    rewrite bool_decide_eq_true_2 by reflexivity.
    unfold read_return. rewrite Z.sub_diag.
    destruct non_blocking; reflexivity.
Qed.

(** X17.  A filter whose timeout has fired takes no more data and tells the
    reader once: the section callbacks return 0 and change nothing, the
    first read returns [-ETIMEDOUT] and clears the error, and a blocking
    read after that returns [-ENODEV] without a wait. *)
Theorem timed_out_filter_reads (dev : dmxdev) (count : Z)
    (env : list wakeup) :
  let f := dvb_dmxdev_filter_timeout (filter dev) in
  let dev' := with_filter dev f in
  is_Some (data (buffer (filter dev))) -> 0 < count ->
  state f = DMXDEV_STATE_TIMEDOUT
  /\ (forall buffer1 buffer2,
        dvb_dmxdev_section_callback buffer1 buffer2 (Some dev')
        = (0, Some dev'))
  /\ (forall dmx_data_ready,
        dvb_dmxdev_section_event_cb (Some dev') dmx_data_ready
        = (0, Some dev'))
  /\ exists dev'',
       (forall non_blocking,
          dvb_dmxdev_buffer_read FromFilter non_blocking count env dev'
          = Some {| ret := - ETIMEDOUT; user_buf := []; dev_after := dev'';
                    env_after := env |})
       /\ error (buffer (filter dev'')) = 0
       /\ dvb_dmxdev_buffer_read FromFilter false count env dev''
          = Some {| ret := - ENODEV; user_buf := []; dev_after := dev'';
                    env_after := env |}.
Proof.
  intros f dev' Hdata Hcount. subst dev' f.
  split; [reflexivity|]. split; [|split].
  - intros buffer1 buffer2. unfold dvb_dmxdev_section_callback. simpl.
    destruct (vb2_streaming (filter dev)); reflexivity.
  - intros dmx_data_ready. unfold dvb_dmxdev_section_event_cb. simpl.
    reflexivity.
  - eexists. split; [|split].
    + intros non_blocking. unfold dvb_dmxdev_buffer_read. simpl.
      rewrite (bool_decide_eq_true_2 _ Hdata). reflexivity.
    + reflexivity.
    + unfold dvb_dmxdev_buffer_read. simpl.
      rewrite (bool_decide_eq_true_2 _ Hdata). cbn [negb].
      destruct (Z.to_nat count) as [|fuel] eqn:Hfuel; [lia|].
      cbn [buffer_read_loop read_src andb].
      destruct (Z.leb_spec count 0); [lia|].
      cbn [filter with_filter state with_buffer with_events with_state].
      rewrite (bool_decide_eq_false_2
                 (DMXDEV_STATE_TIMEDOUT = DMXDEV_STATE_DONE))
        by discriminate.
      cbn [andb].
      rewrite wait_event_ready.
      2:{ unfold dvb_dmxdev_check_data, filter_not_running. simpl.
          rewrite !orb_true_r. reflexivity. }
      cbn [mbind option_bind]. unfold filter_not_running. simpl.
      reflexivity.
Qed.

(** ** Buffer mode, stopping, PIDs *)

(** X18.  [dvb_dmxdev_set_buffer_mode] refuses a filter that was started
    ([-EBUSY]), a mode that is neither internal nor external, and the
    external mode on a demux that cannot map buffers ([-EINVAL]), and
    changes nothing then, nor when the mode is the one the filter has.  A
    switch of mode leaves the filter without storage, its buffer size
    untouched: until a buffer is set, a read returns 0 and data cannot be
    released ([-EINVAL]); the buffer has no status ([-EINVAL]), unless the
    filter is a PES filter whose output is the decoder, for which the
    status is the engine's answer about the decoder's buffer, or
    [-ENODEV]. *)
Theorem mode_switch_leaves_no_storage (can_map : bool) (dev : dmxdev)
    (mode : option dmx_buffer_mode)
    (get_decoder_buff_status : option (Z * dmx_buffer_status)) :
  let f := filter dev in
  (state_value DMXDEV_STATE_GO <= state_value (state f) ->
   dvb_dmxdev_set_buffer_mode can_map f mode = (- EBUSY, f))
  /\ (state_value (state f) < state_value DMXDEV_STATE_GO ->
      (mode = None \/ (mode = Some DMX_BUFFER_MODE_EXTERNAL /\ can_map = false)
       -> dvb_dmxdev_set_buffer_mode can_map f mode = (- EINVAL, f))
      /\ (mode = Some (buffer_mode f) ->
          (buffer_mode f = DMX_BUFFER_MODE_EXTERNAL -> can_map = true) ->
          dvb_dmxdev_set_buffer_mode can_map f mode = (0, f))
      /\ forall m,
           mode = Some m -> m <> buffer_mode f ->
           (m = DMX_BUFFER_MODE_EXTERNAL -> can_map = true) ->
           exists f',
             dvb_dmxdev_set_buffer_mode can_map f mode = (0, f')
             /\ buffer_mode f' = m
             /\ data (buffer f') = None
             /\ size (buffer f') = size (buffer f)
             /\ state f' = state f
             /\ (forall non_blocking count env,
                   dvb_dmxdev_buffer_read FromFilter non_blocking count env
                     (with_filter dev f')
                   = Some {| ret := 0; user_buf := [];
                             dev_after := with_filter dev f';
                             env_after := env |})
             /\ (forall bytes_count,
                   dvb_dmxdev_release_data f' bytes_count
                   = Some (- EINVAL, f'))
             /\ (forall st,
                   ~ (type f = DMXDEV_TYPE_PES
                      /\ pes_output (pes f) = DMX_OUT_DECODER) ->
                   dvb_dmxdev_get_buffer_status get_decoder_buff_status
                     (with_filter dev f') st
                   = (- EINVAL, st, with_filter dev f'))
             /\ (forall st,
                   type f = DMXDEV_TYPE_PES ->
                   pes_output (pes f) = DMX_OUT_DECODER ->
                   dvb_dmxdev_get_buffer_status get_decoder_buff_status
                     (with_filter dev f') st
                   = match get_decoder_buff_status with
                     | Some (ret, st') => (ret, st', with_filter dev f')
                     | None => (- ENODEV, st, with_filter dev f')
                     end)).
Proof.
  intros f. unfold dvb_dmxdev_set_buffer_mode. split.
  { intros Hgo. destruct (Z.leb_spec (state_value DMXDEV_STATE_GO)
                            (state_value (state f))); [reflexivity | lia]. }
  intros Hstopped.
  destruct (Z.leb_spec (state_value DMXDEV_STATE_GO)
              (state_value (state f))); [lia|].
  split; [|split].
  - intros [-> | [-> ->]]; reflexivity.
  - intros -> Hmap.
    assert (bool_decide (buffer_mode f = DMX_BUFFER_MODE_EXTERNAL)
            && negb can_map = false) as ->.
    { destruct (buffer_mode f); [reflexivity|]. rewrite Hmap by reflexivity.
      reflexivity. }
    rewrite bool_decide_eq_true_2 by reflexivity. reflexivity.
  - intros m -> Hne Hmap. rewrite (bool_decide_eq_false_2 _ Hne).
    assert (bool_decide (m = DMX_BUFFER_MODE_EXTERNAL) && negb can_map
            = false) as ->.
    { destruct m; [reflexivity|]. rewrite Hmap by reflexivity.
      reflexivity. }
    eexists. split; [reflexivity|]. do 4 (split; [reflexivity|]).
    split; [|split; [|split]].
    + intros non_blocking count env. reflexivity.
    + intros bytes_count. reflexivity.
    + intros st Hdec. unfold dvb_dmxdev_get_buffer_status.
      cbv zeta.
      change (type (filter (with_filter dev ?[g]))) with (type f).
      change (pes_output (pes (filter (with_filter dev ?[h]))))
        with (pes_output (pes f)).
      destruct (type f) eqn:Hty; destruct (pes_output (pes f)) eqn:Hout;
        try reflexivity.
      exfalso. apply Hdec. split; reflexivity.
    + intros st Hty Hout. unfold dvb_dmxdev_get_buffer_status.
      cbv zeta.
      change (type (filter (with_filter dev ?[g]))) with (type f).
      change (pes_output (pes (filter (with_filter dev ?[h]))))
        with (pes_output (pes f)).
      rewrite Hty, Hout.
      destruct get_decoder_buff_status as [[ret st']|]; reflexivity.
Qed.

(** X19.  [dvb_dmxdev_filter_stop] leaves a filter that was not started as
    it is.  A running section filter whose feed is set, and a running PES
    filter, it brings back to [DMXDEV_STATE_SET] with the buffer reset
    (both cursors at 0, no error, the storage kept), the queue without
    events and, for a section filter, no timer pending, so that the timeout
    cannot fire any more; the producer callbacks then change nothing, and a
    blocking reader of the mapped buffer gets [-ENODEV]. *)
Theorem stopped_filter_is_quiet (dev : dmxdev) :
  let f := filter dev in
  (state_value (state f) < state_value DMXDEV_STATE_GO ->
   forall sec_feed, dvb_dmxdev_filter_stop sec_feed f = (0, f))
  /\ (state_value DMXDEV_STATE_GO <= state_value (state f) ->
      type f <> DMXDEV_TYPE_NONE ->
      exists f',
        dvb_dmxdev_filter_stop true f = (0, f')
        /\ state f' = DMXDEV_STATE_SET
        /\ pread (buffer f') = 0 /\ pwrite (buffer f') = 0
        /\ error (buffer f') = 0
        /\ data (buffer f') = data (buffer f)
        /\ size (buffer f') = size (buffer f)
        /\ pending_events (events f') = []
        /\ read_index (events f') = write_index (events f')
        /\ event_mask (events f') = event_mask (events f)
        /\ (type f = DMXDEV_TYPE_SEC ->
            timer f' = None /\ forall now, run_timer now f' = None)
        /\ (forall buffer1 buffer2,
              dvb_dmxdev_section_callback buffer1 buffer2
                (Some (with_filter dev f'))
              = (0, Some (with_filter dev f'))
              /\ dvb_dmxdev_ts_callback buffer1 buffer2
                   (Some (with_filter dev f'))
                 = (0, Some (with_filter dev f')))
        /\ (forall count env,
              0 < count -> is_Some (data (buffer f)) ->
              dvb_dmxdev_buffer_read FromFilter false count env
                (with_filter dev f')
              = Some {| ret := - ENODEV; user_buf := [];
                        dev_after := with_filter dev f';
                        env_after := env |})).
Proof.
  intros f. unfold dvb_dmxdev_filter_stop. split.
  { intros Hstopped sec_feed.
    destruct (Z.ltb_spec (state_value (state f))
                (state_value DMXDEV_STATE_GO)); [reflexivity | lia]. }
  intros Hgo Htype.
  destruct (Z.ltb_spec (state_value (state f))
              (state_value DMXDEV_STATE_GO)); [lia|].
  unfold dvb_dmxdev_feed_stop, dvb_dmxdev_flush_output.
  cbn [type with_state].
  destruct (type f) eqn:Hty; [contradiction | |];
    (eexists; split; [reflexivity|]);
    cbn [snd state buffer events with_buffer with_events with_timer
           with_state pread pwrite error data size dvb_ringbuffer_reset
           dvb_ringbuffer_flush timer];
    (do 6 (split; [reflexivity|]));
    (split; [exact (pending_events_flushed (events f))|]);
    (do 2 (split; [reflexivity|]));
    (split; [intros Hsec;
             first [discriminate
                   | split; [reflexivity | intros now; reflexivity]]|]);
    (split;
     [intros buffer1 buffer2; split;
      [unfold dvb_dmxdev_section_callback; simpl;
       rewrite ?orb_true_r; destruct (vb2_streaming f); reflexivity
      |unfold dvb_dmxdev_ts_callback; simpl; rewrite ?orb_true_r;
       reflexivity]|]);
    intros count env Hcount Hdata;
    unfold dvb_dmxdev_buffer_read; simpl;
    rewrite (bool_decide_eq_true_2 _ Hdata); cbn [negb];
    (destruct (Z.to_nat count) as [|fuel] eqn:Hfuel; [lia|]);
    cbn [buffer_read_loop read_src andb];
    (destruct (Z.leb_spec count 0); [lia|]);
    simpl;
    (rewrite wait_event_ready;
     [|unfold dvb_dmxdev_check_data, filter_not_running; simpl;
       rewrite !orb_true_r; reflexivity]);
    cbn [mbind option_bind]; unfold filter_not_running; simpl;
    reflexivity.
Qed.

(** X20.  The PIDs of a PES filter.  On a TS-demux tap that is set but not
    started, [dvb_dmxdev_add_pid] puts the new PID in front of the list,
    and [dvb_dmxdev_remove_pid] of that PID gives the list back as it was
    when the PID was not in it before.  [dvb_dmxdev_remove_pid] fails with
    [-EINVAL] on a list of at most one PID; when it succeeds no entry with
    that PID is left and the other entries keep their order.
    [dvb_dmxdev_add_pid] fails with [-EINVAL] on a filter with another
    output that has a PID already. *)
Theorem add_then_remove_pid (start_feed : dmxdev_feed -> Z * dmxdev_feed)
    (f : dmxdev_filter) (feeds : list dmxdev_feed) (pid : Z) :
  type f = DMXDEV_TYPE_PES -> state f = DMXDEV_STATE_SET ->
  (pes_output (pes f) = DMX_OUT_TSDEMUX_TAP ->
   feeds <> [] -> Forall (fun feed => feed_pid feed <> pid) feeds ->
   dvb_dmxdev_add_pid true start_feed f feeds pid
   = (0, {| feed_pid := pid; feed_ts := false |} :: feeds)
   /\ dvb_dmxdev_remove_pid f
        (snd (dvb_dmxdev_add_pid true start_feed f feeds pid)) pid
      = (0, feeds))
  /\ ((length feeds <= 1)%nat ->
      dvb_dmxdev_remove_pid f feeds pid = (- EINVAL, feeds))
  /\ ((1 < length feeds)%nat ->
      fst (dvb_dmxdev_remove_pid f feeds pid) = 0
      /\ Forall (fun feed => feed_pid feed <> pid)
           (snd (dvb_dmxdev_remove_pid f feeds pid))
      /\ snd (dvb_dmxdev_remove_pid f feeds pid)
         = List.filter (fun feed => negb (feed_pid feed =? pid)) feeds)
  /\ (pes_output (pes f) <> DMX_OUT_TSDEMUX_TAP -> feeds <> [] ->
      forall kzalloc,
      dvb_dmxdev_add_pid kzalloc start_feed f feeds pid = (- EINVAL, feeds)).
Proof.
  intros Hty Hstate.
  split; [|split; [|split]].
  - intros Hout Hne Hnew.
    assert (dvb_dmxdev_add_pid true start_feed f feeds pid
            = (0, {| feed_pid := pid; feed_ts := false |} :: feeds))
      as Hadd.
    { unfold dvb_dmxdev_add_pid. rewrite Hty, Hstate.
      rewrite (bool_decide_eq_true_2 _ Hout). reflexivity. }
    split; [exact Hadd|]. rewrite Hadd. cbn [snd].
    unfold dvb_dmxdev_remove_pid. rewrite Hty, Hstate.
    cbn [orb state_value Z.ltb Z.leb Z.compare].
    assert (0 < length feeds)%nat as Hlen
      by (destruct feeds; [contradiction | simpl; lia]).
    cbn [length].
    destruct (Z.leb_spec (Z.of_nat (S (length feeds))) 1) as [|Hmore];
      [lia|].
    f_equal. cbn [List.filter feed_pid]. rewrite Z.eqb_refl. cbn [negb].
    clear Hne Hadd Hlen Hmore.
    induction Hnew as [|x l Hx Hl IH]; [reflexivity|].
    simpl. destruct (Z.eqb_spec (feed_pid x) pid); [contradiction|].
    simpl. f_equal. exact IH.
  - intros Hlen. unfold dvb_dmxdev_remove_pid. rewrite Hty, Hstate.
    cbn [orb state_value Z.ltb Z.leb Z.compare].
    destruct (Z.leb_spec (Z.of_nat (length feeds)) 1); [reflexivity | lia].
  - intros Hlen. unfold dvb_dmxdev_remove_pid. rewrite Hty, Hstate.
    cbn [orb state_value Z.ltb Z.leb Z.compare].
    destruct (Z.leb_spec (Z.of_nat (length feeds)) 1); [lia|].
    cbn [fst snd]. split; [reflexivity|]. split; [|reflexivity].
    apply List.Forall_forall. intros x Hx.
    apply List.filter_In in Hx as [_ Hx].
    destruct (Z.eqb_spec (feed_pid x) pid); [discriminate | assumption].
  - intros Hout Hne kzalloc. unfold dvb_dmxdev_add_pid.
    rewrite Hty, Hstate.
    rewrite (bool_decide_eq_false_2 _ Hout), (bool_decide_eq_false_2 _ Hne).
    reflexivity.
Qed.

(** X21.  [invert_mode] turns every bit of every byte of the mode array
    over: applied twice it gives the array back, and in between the array
    holds as many bytes, the complement of each to 255. *)
Theorem invert_mode_twice (mode : list Z) :
  Forall (fun m => 0 <= m < 2 ^ 8) mode ->
  invert_mode (invert_mode mode) = mode
  /\ length (invert_mode mode) = length mode
  /\ Forall (fun m => 0 <= m < 2 ^ 8) (invert_mode mode)
  /\ forall i m, mode !! i = Some m -> invert_mode mode !! i = Some (255 - m).
Proof.
  intros Hbytes.
  assert (forall m, 0 <= m < 2 ^ 8 -> Z.lxor m 255 mod 2 ^ 8 = 255 - m)
    as Hcompl.
  { intros m Hm.
    assert (forallb (fun k : nat =>
                       Z.lxor (Z.of_nat k) 255 mod 2 ^ 8
                       =? 255 - Z.of_nat k) (seq 0 256) = true) as Hall
      by (vm_compute; reflexivity).
    rewrite List.forallb_forall in Hall.
    specialize (Hall (Z.to_nat m)). rewrite Z2Nat.id in Hall by lia.
    apply Z.eqb_eq, Hall, in_seq. lia. }
  unfold invert_mode. split; [|split; [|split]].
  - rewrite map_map. rewrite <- (map_id mode) at 2.
    apply map_ext_Forall. eapply Forall_impl; [exact Hbytes|].
    intros m Hm. cbv beta in Hm. simpl. rewrite (Hcompl m Hm).
    change (2 ^ 8) with 256 in Hm. rewrite Hcompl by (change (2 ^ 8) with 256; lia). lia.
  - apply length_map.
  - apply Forall_fmap. eapply Forall_impl; [exact Hbytes|].
    intros m Hm. simpl. apply Z.mod_pos_bound. lia.
  - intros i m Hi. rewrite list_lookup_fmap, Hi. simpl.
    rewrite Hcompl; [reflexivity|].
    eapply (Forall_lookup_1 _ _ _ _ Hbytes). exact Hi.
Qed.

(** ** Recording chunks *)

(** [dvb_dmxdev_add_event] leaves the accumulation window and the masks
    alone. *)
Lemma add_event_window (events : dmxdev_events_queue)
    (event : dmx_filter_event) :
  let events' := snd (dvb_dmxdev_add_event events event) in
  current_event_data_size events' = current_event_data_size events
  /\ current_event_start_offset events' = current_event_start_offset events
  /\ event_mask events' = event_mask events.
Proof.
  unfold dvb_dmxdev_add_event, add_event_credit.
  destruct (mask_test (disable_mask _) _); [simpl; auto|].
  destruct (bytes_read_no_event events =? 0).
  { destruct (_ =? read_index _); [simpl; auto|].
    destruct (mask_test _ _); simpl; auto. }
  destruct (update_data_event _ _) as [[res ev]|]; [|simpl; auto].
  destruct (res =? 0); [|simpl; auto].
  destruct (_ =? read_index _); [simpl; auto|].
  destruct (mask_test _ _); simpl; auto.
Qed.

Lemma rec_chunk_loop_tiles (chunk buffer_size : Z) :
  0 < chunk ->
  forall (fuel : nat) (events : dmxdev_events_queue),
  queue_ordered events ->
  0 <= current_event_data_size events < 2 ^ 32 ->
  current_event_data_size events / chunk <= Z.of_nat fuel ->
  exists events',
    rec_chunk_loop fuel events chunk buffer_size = Some events'
    /\ current_event_data_size events'
       = current_event_data_size events mod chunk
    /\ queue_ordered events'
    /\ read_index events' = read_index events
    /\ notified_index events' = notified_index events
    /\ event_mask events' = event_mask events
    /\ (mask_test (disable_mask (event_mask events)) DMX_EVENT_NEW_REC_CHUNK
        = false ->
        bytes_read_no_event events = 0 ->
        stored_events events + current_event_data_size events / chunk
        < DMX_EVENT_QUEUE_SIZE ->
        exists chunks,
          pending_events events' = pending_events events ++ chunks
          /\ Z.of_nat (length chunks) = current_event_data_size events / chunk
          /\ Forall (fun e =>
                       exists offset,
                         e = EvNewRecChunk
                               {| recording_chunk_offset := offset;
                                  recording_chunk_size := chunk |}) chunks)
    /\ (mask_test (disable_mask (event_mask events)) DMX_EVENT_NEW_REC_CHUNK
        = true ->
        pending_events events' = pending_events events).
Proof.
  intros Hchunk.
  assert (forall events : dmxdev_events_queue,
            queue_ordered events ->
            0 <= current_event_data_size events < chunk ->
            exists events',
              Some events = Some events'
              /\ current_event_data_size events'
                 = current_event_data_size events mod chunk
              /\ queue_ordered events'
              /\ read_index events' = read_index events
              /\ notified_index events' = notified_index events
              /\ event_mask events' = event_mask events
              /\ (mask_test (disable_mask (event_mask events))
                    DMX_EVENT_NEW_REC_CHUNK = false ->
                  bytes_read_no_event events = 0 ->
                  stored_events events + current_event_data_size events / chunk
                  < DMX_EVENT_QUEUE_SIZE ->
                  exists chunks,
                    pending_events events' = pending_events events ++ chunks
                    /\ Z.of_nat (length chunks)
                       = current_event_data_size events / chunk
                    /\ Forall (fun e =>
                                 exists offset,
                                   e = EvNewRecChunk
                                         {| recording_chunk_offset := offset;
                                            recording_chunk_size := chunk |})
                         chunks)
              /\ (mask_test (disable_mask (event_mask events))
                    DMX_EVENT_NEW_REC_CHUNK = true ->
                  pending_events events' = pending_events events)) as Hend.
  { intros events Hord Hacc. exists events.
    split; [reflexivity|]. split; [rewrite Z.mod_small by lia; reflexivity|].
    split; [exact Hord|]. do 3 (split; [reflexivity|]).
    split; [|intros _; reflexivity].
    intros _ _ _. exists []. rewrite app_nil_r, Z.div_small by lia.
    split; [reflexivity|]. split; [reflexivity | constructor]. }
  induction fuel as [|fuel IH]; intros events Hord Hacc Hfuel.
  - assert (current_event_data_size events < chunk) as Hless.
    { destruct (Z.lt_ge_cases (current_event_data_size events) chunk)
        as [|Hge]; [assumption|].
      pose proof (Z.div_le_mono chunk (current_event_data_size events) chunk
                    Hchunk Hge) as Hd.
      rewrite Z.div_same in Hd by lia. lia. }
    cbn [rec_chunk_loop].
    destruct (Z.leb_spec chunk (current_event_data_size events)); [lia|].
    apply Hend; [exact Hord | lia].
  - cbn [rec_chunk_loop].
    destruct (Z.leb_spec chunk (current_event_data_size events))
      as [Hge|Hless]; [|apply Hend; [exact Hord | lia]].
    set (ev := EvNewRecChunk
                 {| recording_chunk_offset := current_event_start_offset events;
                    recording_chunk_size := chunk |}).
    set (events1 :=
           set_current_event_start_offset
             (set_current_event_data_size events
                (u32 (current_event_data_size events - chunk)))
             (u32 (u32 (current_event_start_offset
                          (set_current_event_data_size events
                             (u32 (current_event_data_size events - chunk)))
                        + chunk) mod buffer_size))).
    assert (same_slots events events1) as Hsame by (repeat split).
    pose proof (same_slots_ordered _ _ Hsame Hord) as Hord1.
    pose proof (same_slots_pending _ _ Hsame) as Hpend1.
    destruct (add_event_window events1 ev) as (Hsize2 & _ & Hmask2).
    destruct (add_event_pending events1 ev Hord1)
      as (Hord2 & Hr2 & Hn2 & Hstored & Hkept).
    assert (current_event_data_size events1
            = current_event_data_size events - chunk) as Hsize1
      by (apply u32_small; lia).
    assert ((current_event_data_size events - chunk) / chunk
            = current_event_data_size events / chunk - 1) as Hdiv.
    { replace (current_event_data_size events - chunk)
        with (current_event_data_size events + (-1) * chunk) by lia.
      rewrite Z.div_add by lia. lia. }
    assert ((current_event_data_size events - chunk) mod chunk
            = current_event_data_size events mod chunk) as Hmod.
    { replace (current_event_data_size events - chunk)
        with (current_event_data_size events + (-1) * chunk) by lia.
      apply Z.mod_add. lia. }
    destruct (IH (snd (dvb_dmxdev_add_event events1 ev)))
      as (events' & Hrun & Hsize' & Hord' & Hr' & Hn' & Hmask' & Hadd'
          & Hkept');
      [exact Hord2 | rewrite Hsize2, Hsize1; lia
      | rewrite Hsize2, Hsize1, Hdiv; lia |].
    rewrite Hsize2, Hsize1 in Hsize', Hadd'. rewrite Hmask2 in Hadd', Hkept'.
    change (event_mask events1) with (event_mask events)
      in Hmask2, Hadd', Hkept', Hstored, Hkept.
    change (ev_type ev) with DMX_EVENT_NEW_REC_CHUNK in Hstored, Hkept.
    exists events'. split; [exact Hrun|].
    split; [rewrite Hsize', Hmod; reflexivity|]. split; [exact Hord'|].
    split; [rewrite Hr', Hr2; reflexivity|].
    split; [rewrite Hn', Hn2; reflexivity|].
    split; [rewrite Hmask', Hmask2; reflexivity|]. split.
    + intros Hmask Hcredit Hroom.
      pose proof Hord1 as (Hwf1 & _).
      assert (0 < current_event_data_size events / chunk) as Hpos
        by (apply Z.div_str_pos; lia).
      assert (dvb_dmxdev_advance_event_idx (write_index events1)
              <> read_index events1) as Hfree.
      { apply room_to_store; [exact Hwf1|].
        change (stored_events events1) with (stored_events events). lia. }
      destruct (add_event_stores events1 ev Hwf1 Hmask Hcredit Hfree)
        as (_ & _ & Hw2 & _ & _ & Hcredit2 & _).
      destruct (Hstored events1 ev Hmask) as (_ & Hp2).
      { unfold add_event_credit.
        change (bytes_read_no_event events1) with (bytes_read_no_event events).
        rewrite Hcredit. reflexivity. }
      { unfold dvb_dmxdev_events_is_full.
        destruct (Z.eqb_spec
                    (dvb_dmxdev_advance_event_idx (write_index events1))
                    (read_index events1)); [contradiction | reflexivity]. }
      destruct (ordered_room events1 Hord1 Hfree) as (_ & _ & Hdr).
      destruct Hadd' as (chunks & Hp' & Hlen & Hall);
        [exact Hmask | exact Hcredit2 | |].
      { unfold stored_events. rewrite Hw2, Hr2.
        change ((dvb_dmxdev_advance_event_idx (write_index events1)
                 - read_index events1) mod DMX_EVENT_QUEUE_SIZE)
          with (slots_between (read_index events1)
                  (dvb_dmxdev_advance_event_idx (write_index events1))).
        rewrite Hdr, Hdiv. unfold stored_events, slots_between in *.
        change (write_index events1) with (write_index events).
        change (read_index events1) with (read_index events). lia. }
      exists (ev :: chunks).
      split; [rewrite Hp', Hp2, Hpend1, <- app_assoc; reflexivity|].
      split; [cbn [length]; rewrite Hdiv in Hlen; lia|].
      constructor; [eexists; reflexivity | exact Hall].
    + intros Hmask. rewrite (Hkept' Hmask), Hkept by (left; exact Hmask).
      exact Hpend1.
Qed.

(** X22.  The [while] loop of [dvb_dmxdev_ts_event_cb] cuts the bytes of
    the accumulation window into recording chunks.  With a chunk size above
    0 it comes to its end within [size / chunk] turns and leaves less than
    a chunk, [size mod chunk] bytes, in the window; when the chunk event is
    enabled, no read-ahead is outstanding and the queue has room, the
    pending events grow by [size / chunk] chunk events of the chunk size
    each, and when the event is disabled they stay as they are.  With a
    chunk size of 0 the loop does not come to an end. *)
Theorem recording_chunks_tile (events : dmxdev_events_queue)
    (chunk buffer_size : Z) (fuel : nat) :
  queue_ordered events ->
  0 <= current_event_data_size events < 2 ^ 32 ->
  (0 < chunk ->
   current_event_data_size events / chunk <= Z.of_nat fuel ->
   exists events',
     rec_chunk_loop fuel events chunk buffer_size = Some events'
     /\ current_event_data_size events'
        = current_event_data_size events mod chunk
     /\ current_event_data_size events' < chunk
     /\ queue_ordered events'
     /\ read_index events' = read_index events
     /\ notified_index events' = notified_index events
     /\ (mask_test (disable_mask (event_mask events)) DMX_EVENT_NEW_REC_CHUNK
         = false ->
         bytes_read_no_event events = 0 ->
         stored_events events + current_event_data_size events / chunk
         < DMX_EVENT_QUEUE_SIZE ->
         exists chunks,
           pending_events events' = pending_events events ++ chunks
           /\ Z.of_nat (length chunks)
              = current_event_data_size events / chunk
           /\ Forall (fun e =>
                        exists offset,
                          e = EvNewRecChunk
                                {| recording_chunk_offset := offset;
                                   recording_chunk_size := chunk |}) chunks)
     /\ (mask_test (disable_mask (event_mask events)) DMX_EVENT_NEW_REC_CHUNK
         = true ->
         pending_events events' = pending_events events))
  /\ rec_chunk_loop fuel events 0 buffer_size = None.
Proof.
  intros Hord Hacc. split.
  - intros Hchunk Hfuel.
    destruct (rec_chunk_loop_tiles chunk buffer_size Hchunk fuel events
                Hord Hacc Hfuel)
      as (events' & Hrun & Hsize & Hord' & Hr & Hn & _ & Hadd & Hkept).
    exists events'. split; [exact Hrun|]. split; [exact Hsize|].
    split; [rewrite Hsize; apply Z.mod_pos_bound; exact Hchunk|].
    split; [exact Hord'|]. split; [exact Hr|]. split; [exact Hn|].
    split; [exact Hadd | exact Hkept].
  - clear Hord. destruct Hacc as [Hacc _]. revert events Hacc.
    induction fuel as [|fuel IH]; intros events Hacc; cbn [rec_chunk_loop];
      destruct (Z.leb_spec 0 (current_event_data_size events)); try lia;
      [reflexivity|].
    apply IH.
    destruct (add_event_window
                (set_current_event_start_offset
                   (set_current_event_data_size events
                      (u32 (current_event_data_size events - 0)))
                   (u32 (u32 (current_event_start_offset
                                (set_current_event_data_size events
                                   (u32 (current_event_data_size events - 0)))
                              + 0) mod buffer_size)))
                (EvNewRecChunk
                   {| recording_chunk_offset :=
                        current_event_start_offset events;
                      recording_chunk_size := 0 |})) as (Hsize & _).
    rewrite Hsize. apply u32_range.
Qed.

(** X23.  [dvb_dmxdev_filter_start_pes] returns 0 and leaves a recording
    chunk size that is a whole number of packets (188 or 192 bytes, by the
    format of the filter) and below the size of the buffer.  A size asked
    for between the smallest chunk and the buffer size is kept, cut down to
    whole packets; the chunk size is at least one packet when the smallest
    chunk is and the buffer holds four packets, and it is 0 when the buffer
    is no larger than the smallest chunk and holds less than four packets.
    Buffer, state and pending events of the filter stay as they are. *)
Theorem start_pes_chunk_size (dev : dmxdev) :
  let f := filter dev in
  let dev' := snd (dvb_dmxdev_filter_start_pes dev) in
  let chunk := rec_chunk_size (pes (filter dev')) in
  let tsp_size := if dmx_tsp_format f =? DMX_TSP_FORMAT_188 then 188 else 192 in
  0 <= rec_chunk_size (pes f) < 2 ^ 32 ->
  0 <= DMX_REC_BUFF_CHUNK_MIN_SIZE < 2 ^ 32 ->
  0 < size (buffer f) ->
  fst (dvb_dmxdev_filter_start_pes dev) = 0
  /\ chunk mod tsp_size = 0
  /\ 0 <= chunk < size (buffer f)
  /\ (DMX_REC_BUFF_CHUNK_MIN_SIZE <= rec_chunk_size (pes f)
      < size (buffer f) ->
      chunk = rec_chunk_size (pes f) / tsp_size * tsp_size)
  /\ (tsp_size <= DMX_REC_BUFF_CHUNK_MIN_SIZE ->
      4 * tsp_size <= size (buffer f) < 2 ^ 34 -> tsp_size <= chunk)
  /\ (size (buffer f) <= DMX_REC_BUFF_CHUNK_MIN_SIZE ->
      size (buffer f) < 4 * tsp_size -> chunk = 0)
  /\ buffer (filter dev') = buffer f
  /\ state (filter dev') = state f
  /\ pes_output (pes (filter dev')) = pes_output (pes f)
  /\ pending_events (events (filter dev')) = pending_events (events f).
Proof.
  intros f dev' chunk tsp_size Hchunk Hmin Hsize.
  set (chunk1 := if rec_chunk_size (pes f) <? DMX_REC_BUFF_CHUNK_MIN_SIZE
                 then u32 DMX_REC_BUFF_CHUNK_MIN_SIZE
                 else rec_chunk_size (pes f)).
  set (chunk2 := if size (buffer f) <=? chunk1
                 then u32 (Z.shiftr (size (buffer f)) 2) else chunk1).
  assert (chunk = u32 (u32 (chunk2 / tsp_size) * tsp_size)) as Hc.
  { subst chunk dev' chunk2 chunk1 tsp_size.
    unfold dvb_dmxdev_filter_start_pes. fold f. cbv zeta.
    cbn [pes_output pes with_pes].
    destruct (pes_output (pes f)); reflexivity. }
  assert (0 < tsp_size /\ (tsp_size = 188 \/ tsp_size = 192)) as (Htsp & Hval)
    by (subst tsp_size; destruct (_ =? _); lia).
  assert (0 <= chunk1 < 2 ^ 32
          /\ DMX_REC_BUFF_CHUNK_MIN_SIZE <= chunk1
          /\ (DMX_REC_BUFF_CHUNK_MIN_SIZE <= rec_chunk_size (pes f) ->
              chunk1 = rec_chunk_size (pes f))) as (H1 & H1min & H1kept).
  { subst chunk1.
    destruct (Z.ltb_spec (rec_chunk_size (pes f))
                DMX_REC_BUFF_CHUNK_MIN_SIZE);
      [rewrite u32_small by lia|]; lia. }
  assert (Z.shiftr (size (buffer f)) 2 = size (buffer f) / 4) as Hshift
    by (rewrite Z.shiftr_div_pow2 by lia; reflexivity).
  assert (0 <= size (buffer f) / 4 < size (buffer f)) as Hquarter.
  { split; [apply Z.div_pos; lia|]. apply Z.div_lt; lia. }
  assert (0 <= chunk2 < 2 ^ 32 /\ chunk2 < size (buffer f)) as (H2 & H2size).
  { subst chunk2. rewrite Hshift.
    destruct (Z.leb_spec (size (buffer f)) chunk1); [|lia].
    pose proof (u32_range (size (buffer f) / 4)).
    assert (u32 (size (buffer f) / 4) <= size (buffer f) / 4)
      by (apply Z.mod_le; lia).
    lia. }
  assert (0 <= chunk2 / tsp_size * tsp_size <= chunk2) as Hdown.
  { split; [apply Z.mul_nonneg_nonneg; [apply Z.div_pos|]; lia|].
    rewrite Z.mul_comm. apply Z.mul_div_le. lia. }
  assert (0 <= chunk2 / tsp_size <= chunk2) as Hd.
  { split; [apply Z.div_pos; lia|]. apply Z.div_le_upper_bound; nia. }
  assert (chunk = chunk2 / tsp_size * tsp_size) as Hc'.
  { rewrite Hc, (u32_small (chunk2 / tsp_size)) by lia.
    apply u32_small. lia. }
  assert (dvb_dmxdev_filter_start_pes dev = (0, dev')) as Hrun.
  { subst dev'. unfold dvb_dmxdev_filter_start_pes. cbv zeta.
    cbn [pes_output pes with_pes].
    destruct (pes_output (pes (filter dev))); reflexivity. }
  split; [rewrite Hrun; reflexivity|].
  split; [rewrite Hc'; apply Z.mod_mul; lia|].
  split; [lia|].
  split.
  { intros Hasked. rewrite Hc'. subst chunk2.
    rewrite H1kept by lia.
    destruct (Z.leb_spec (size (buffer f)) (rec_chunk_size (pes f)));
      [lia | reflexivity]. }
  split.
  { intros Hpacket Hfour.
    assert (tsp_size <= chunk2) as Hfits.
    { subst chunk2. rewrite Hshift.
      destruct (Z.leb_spec (size (buffer f)) chunk1); [|lia].
      rewrite u32_small.
      - apply Z.div_le_lower_bound; lia.
      - split; [lia|]. apply Z.div_lt_upper_bound; lia. }
    assert (1 <= chunk2 / tsp_size)
      by (apply Z.div_le_lower_bound; lia).
    rewrite Hc'. nia. }
  split.
  { intros Hsmall Hfour. rewrite Hc'.
    assert (chunk2 / tsp_size = 0) as ->; [|reflexivity].
    apply Z.div_small. split; [lia|]. subst chunk2. rewrite Hshift.
    destruct (Z.leb_spec (size (buffer f)) chunk1); [|lia].
    rewrite u32_small.
    - apply Z.div_lt_upper_bound; lia.
    - split; [lia|]. apply Z.div_lt_upper_bound; lia. }
  subst dev'. unfold dvb_dmxdev_filter_start_pes. cbv zeta.
  cbn [pes_output pes with_pes]. fold f.
  destruct (pes_output (pes f)) eqn:Hout; cbn; rewrite ?Hout;
    repeat split; reflexivity.
Qed.

(** ** From the producer to the reader *)

Lemma ring_slots_differ (sz pos j k : Z) :
  0 <= j < k -> k < sz -> (pos + j) mod sz <> (pos + k) mod sz.
Proof.
  intros Hj Hk Heq.
  assert (((pos + k) - (pos + j)) mod sz = 0) as Hdiff
    by (rewrite Zminus_mod, Heq, Z.sub_diag; apply Zmod_0_l).
  replace (pos + k - (pos + j)) with (k - j) in Hdiff by lia.
  rewrite Z.mod_small in Hdiff by lia. lia.
Qed.

Lemma ring_store_length (src : list Z) :
  forall (d : list Z) (sz pos : Z),
  length (ring_store d sz pos src) = length d.
Proof.
  induction src as [|b src IH]; intros d sz pos; [reflexivity|].
  cbn [ring_store]. rewrite IH. apply length_insert.
Qed.

Lemma ring_store_other (src : list Z) :
  forall (d : list Z) (sz pos : Z) (i : nat),
  (forall k : nat, (k < length src)%nat ->
                   Z.to_nat ((pos + Z.of_nat k) mod sz) <> i) ->
  ring_store d sz pos src !! i = d !! i.
Proof.
  induction src as [|b src IH]; intros d sz pos i Hi; [reflexivity|].
  cbn [ring_store]. rewrite IH.
  - apply list_lookup_insert_ne. specialize (Hi 0%nat).
    rewrite Z.add_0_r in Hi. apply Hi. simpl. lia.
  - intros k Hk. specialize (Hi (S k)).
    replace (pos + 1 + Z.of_nat k) with (pos + Z.of_nat (S k)) by lia.
    apply Hi. simpl. lia.
Qed.

Lemma ring_store_stored (src : list Z) :
  forall (d : list Z) (sz pos : Z) (k : nat),
  Z.of_nat (length d) = sz -> Z.of_nat (length src) <= sz ->
  (k < length src)%nat ->
  ring_store d sz pos src !! Z.to_nat ((pos + Z.of_nat k) mod sz) = src !! k.
Proof.
  induction src as [|b src IH]; intros d sz pos k Hd Hlen Hk;
    [simpl in Hk; lia|].
  cbn [length] in Hlen, Hk. cbn [ring_store].
  assert (0 < sz) as Hsz by lia.
  destruct k as [|k].
  - rewrite ring_store_other.
    + rewrite Z.add_0_r. apply list_lookup_insert_eq.
      pose proof (Z.mod_pos_bound pos sz Hsz). lia.
    + intros j Hj Heq. apply Z2Nat.inj in Heq;
        try (apply Z.mod_pos_bound; exact Hsz).
      replace (pos + 1 + Z.of_nat j) with (pos + Z.of_nat (S j)) in Heq
        by lia.
      symmetry in Heq. revert Heq. apply ring_slots_differ; lia.
  - replace (pos + Z.of_nat (S k)) with (pos + 1 + Z.of_nat k) by lia.
    apply IH; [rewrite length_insert; exact Hd | lia | lia].
Qed.

Lemma ring_bytes_stored (src d : list Z) (sz pos : Z) :
  Z.of_nat (length d) = sz -> Z.of_nat (length src) <= sz ->
  ring_bytes (ring_store d sz pos src) sz pos (length src) = src.
Proof.
  intros Hd Hlen. apply list_eq. intros i. unfold ring_bytes.
  change (map ?f ?l) with (f <$> l). rewrite list_lookup_fmap.
  destruct (Nat.lt_ge_cases i (length src)) as [Hi|Hi].
  - rewrite lookup_seq_lt by exact Hi. cbn [fmap option_fmap option_map].
    rewrite Nat.add_0_l, ring_store_stored by assumption.
    destruct (src !! i) eqn:Hsrc; [reflexivity|].
    apply lookup_ge_None in Hsrc. lia.
  - rewrite lookup_seq_ge by exact Hi.
    symmetry. apply lookup_ge_None. exact Hi.
Qed.

Lemma ring_store_mod (src : list Z) :
  forall (d : list Z) (sz pos pos' : Z),
  pos mod sz = pos' mod sz ->
  ring_store d sz pos src = ring_store d sz pos' src.
Proof.
  induction src as [|b src IH]; intros d sz pos pos' Heq; [reflexivity|].
  cbn [ring_store]. rewrite Heq. apply IH.
  rewrite (Zplus_mod pos), (Zplus_mod pos'), Heq. reflexivity.
Qed.

Lemma ring_store_app (s1 s2 : list Z) :
  forall (d : list Z) (sz pos : Z),
  ring_store d sz pos (s1 ++ s2)
  = ring_store (ring_store d sz pos s1) sz
      ((pos + Z.of_nat (length s1)) mod sz) s2.
Proof.
  induction s1 as [|b s1 IH]; intros d sz pos.
  - cbn [app length ring_store]. apply ring_store_mod.
    rewrite Z.add_0_r, Zmod_mod. reflexivity.
  - cbn [app length ring_store]. rewrite IH. do 2 f_equal. lia.
Qed.

(** What [dvb_dmxdev_buffer_write] leaves of a mapped buffer that has the
    room. *)
Lemma buffer_write_fits (buf : dvb_ringbuffer) (d src : list Z) :
  data buf = Some d -> 0 <= pwrite buf < size buf ->
  Z.of_nat (length src) <= u64 (dvb_ringbuffer_free buf) ->
  snd (dvb_dmxdev_buffer_write buf src)
  = {| data := Some (ring_store d (size buf) (pwrite buf) src);
       size := size buf; pread := pread buf;
       pwrite := (pwrite buf + Z.of_nat (length src)) mod size buf;
       error := error buf |}.
Proof.
  intros Hdata Hpw Hfree. unfold dvb_dmxdev_buffer_write.
  destruct (Z.eqb_spec (Z.of_nat (length src)) 0) as [Hnil|Hsome].
  - destruct src; [|simpl in Hnil; lia]. cbn [snd length ring_store].
    rewrite Z.add_0_r, Z.mod_small by exact Hpw.
    rewrite <- Hdata. destruct buf. reflexivity.
  - rewrite Hdata. rewrite bool_decide_eq_true_2 by (eexists; reflexivity).
    cbn [negb].
    destruct (Z.ltb_spec (u64 (dvb_ringbuffer_free buf))
                (Z.of_nat (length src))); [lia|].
    unfold dvb_ringbuffer_write. rewrite Hdata. reflexivity.
Qed.

(** A read of no more than what the buffer of a running or done filter
    holds, as [buffer_read_available]. *)
Lemma buffer_read_available_done (non_blocking : bool) (count : Z)
    (env : list wakeup) (dev : dmxdev) :
  let src := buffer (filter dev) in
  0 < count <= dvb_ringbuffer_avail src ->
  is_Some (data src) -> error src = 0 ->
  state (filter dev) = DMXDEV_STATE_DONE ->
  dvb_dmxdev_buffer_read FromFilter non_blocking count env dev
  = Some {| ret := count;
            user_buf := ring_bytes (default [] (data src)) (size src)
                          (pread src) (Z.to_nat count);
            dev_after :=
              with_filter dev
                (with_buffer (filter dev) (DVB_RINGBUFFER_SKIP src count));
            env_after := env |}.
Proof.
  intros src Hcount Hdata Herr Hstate.
  assert (dvb_ringbuffer_empty src = false) as Hne.
  { unfold dvb_ringbuffer_empty. apply Z.eqb_neq. intros Heq.
    unfold dvb_ringbuffer_avail in Hcount. rewrite Heq, Z.sub_diag in Hcount.
    rewrite Zmod_0_l in Hcount. lia. }
  unfold dvb_dmxdev_buffer_read. cbn [read_src]. fold src.
  rewrite (bool_decide_eq_true_2 _ Hdata), Herr. cbn [negb Z.eqb].
  destruct (Z.to_nat count) as [|fuel] eqn:Hfuel; [lia|].
  cbn [buffer_read_loop read_src]. fold src.
  destruct (Z.leb_spec count 0); [lia|].
  rewrite Hne, !andb_false_r.
  rewrite wait_event_ready.
  2:{ unfold dvb_dmxdev_check_data. cbn [read_src]. fold src.
      rewrite Hne. cbn [negb]. apply orb_true_iff. left.
      apply orb_true_iff. left. apply orb_true_r. }
  cbn [mbind option_bind read_src]. fold src.
  unfold filter_not_running. rewrite Hstate.
  cbn [Z.ltb Z.compare negb andb bool_decide decide_rel
       dmxdev_state_eq_dec].
  rewrite (bool_decide_eq_true_2 _ Hdata), Herr. cbn [negb Z.eqb].
  destruct (Z.ltb_spec count (dvb_ringbuffer_avail src)) as [Hlt|Hge].
  - unfold dvb_ringbuffer_read_user.
    destruct (Z.ltb_spec count 0); [lia|].
    rewrite Z.sub_diag.
    destruct fuel; cbn [buffer_read_loop Z.leb Z.compare];
      unfold read_return; rewrite Z.sub_0_r;
      (destruct (Z.eqb_spec count 0); [lia|]); rewrite Hfuel; reflexivity.
  - assert (dvb_ringbuffer_avail src = count) as -> by lia.
    unfold dvb_ringbuffer_read_user.
    destruct (Z.ltb_spec count 0); [lia|].
    rewrite Z.sub_diag.
    destruct fuel; cbn [buffer_read_loop Z.leb Z.compare];
      unfold read_return; rewrite Z.sub_0_r;
      (destruct (Z.eqb_spec count 0); [lia|]); rewrite Hfuel; reflexivity.
Qed.

(** X24.  What [dvb_dmxdev_section_callback] writes, [dvb_dmxdev_buffer_read]
    reads.  On a running section filter with an empty, mapped buffer and
    room for the section in the buffer and in the queue, the callback
    returns 0 and leaves the bytes of the two segments available; a read of
    that many bytes, blocking or not, then returns their number and hands
    out the bytes of the first segment followed by those of the second, and
    the buffer is empty again.  This holds for a one-shot filter, which is
    done after the callback, as for the others. *)
Theorem section_is_read_back (buffer1 buffer2 : option (list Z))
    (d : list Z) (non_blocking : bool) (env : list wakeup) (dev : dmxdev) :
  let f := filter dev in
  let len := seg_len buffer1 + seg_len buffer2 in
  state f = DMXDEV_STATE_GO -> error (buffer f) = 0 -> eos_state f = 0 ->
  vb2_streaming f = false ->
  (mask_test (disable_mask (event_mask (events f))) DMX_EVENT_NEW_SECTION
   = false -> dvb_dmxdev_events_is_full (events f) = 0) ->
  data (buffer f) = Some d -> Z.of_nat (length d) = size (buffer f) ->
  0 <= pwrite (buffer f) < size (buffer f) ->
  pread (buffer f) = pwrite (buffer f) ->
  0 < len < size (buffer f) ->
  len <= u64 (dvb_ringbuffer_free (buffer f)) ->
  seg_len buffer2
  <= u64 (dvb_ringbuffer_free
            (snd (dvb_dmxdev_buffer_write (buffer f) (default [] buffer1)))) ->
  exists dev1 dev2,
    dvb_dmxdev_section_callback buffer1 buffer2 (Some dev) = (0, Some dev1)
    /\ dvb_ringbuffer_avail (buffer (filter dev1)) = len
    /\ dvb_dmxdev_buffer_read FromFilter non_blocking len env dev1
       = Some {| ret := len;
                 user_buf := default [] buffer1 ++ default [] buffer2;
                 dev_after := dev2; env_after := env |}
    /\ dvb_ringbuffer_empty (buffer (filter dev2)) = true
    /\ error (buffer (filter dev2)) = 0.
Proof.
  intros f len Hstate Herr Heos Hvb2 Hroom Hdata Hd Hpw Hpr Hlen Hfree1
    Hfree2.
  set (s1 := default [] buffer1) in *. set (s2 := default [] buffer2) in *.
  assert (len = Z.of_nat (length s1) + Z.of_nat (length s2)) as Hlen'
    by reflexivity.
  assert (seg_len buffer2 = Z.of_nat (length s2)) as Hs2 by reflexivity.
  rewrite Hs2 in Hfree2.
  pose proof (buffer_write_fits (buffer f) d s1 Hdata Hpw ltac:(lia)) as Hb1.
  rewrite Hb1 in Hfree2.
  set (b1 := {| data := Some (ring_store d (size (buffer f))
                                (pwrite (buffer f)) s1);
                size := size (buffer f); pread := pread (buffer f);
                pwrite := (pwrite (buffer f) + Z.of_nat (length s1))
                          mod size (buffer f);
                error := error (buffer f) |}) in *.
  assert (0 < size (buffer f)) as Hsz by lia.
  pose proof (buffer_write_fits b1 _ s2 eq_refl
                (Z.mod_pos_bound _ _ Hsz) Hfree2) as Hb2.
  cbn [size pwrite pread error b1] in Hb2.
  rewrite <- ring_store_app, Zplus_mod_idemp_l, <- Z.add_assoc, <- Hlen'
    in Hb2.
  set (b2 := {| data := Some (ring_store d (size (buffer f))
                                (pwrite (buffer f)) (s1 ++ s2));
                size := size (buffer f); pread := pread (buffer f);
                pwrite := (pwrite (buffer f) + len) mod size (buffer f);
                error := error (buffer f) |}) in *.
  assert (dvb_ringbuffer_avail b2 = len) as Havail.
  { unfold dvb_ringbuffer_avail. cbn [pwrite pread size b2].
    rewrite Hpr, Zminus_mod_idemp_l.
    replace (pwrite (buffer f) + len - pwrite (buffer f)) with len by lia.
    apply Z.mod_small. lia. }
  assert (ring_bytes (ring_store d (size (buffer f)) (pwrite (buffer f))
                        (s1 ++ s2)) (size (buffer f)) (pread (buffer f))
            (Z.to_nat len) = s1 ++ s2) as Hbytes.
  { rewrite Hpr, Hlen', <- Nat2Z.inj_add, Nat2Z.id, <- length_app.
    apply ring_bytes_stored; [exact Hd|]. rewrite length_app. lia. }
  assert (dvb_ringbuffer_empty (DVB_RINGBUFFER_SKIP b2 len) = true) as Hempty.
  { rewrite <- Havail. apply skip_avail_empty. cbn [pwrite size b2].
    apply Z.mod_pos_bound. exact Hsz. }
  unfold dvb_dmxdev_section_callback. fold f. fold len.
  rewrite Hvb2, Herr, Heos, Hstate.
  rewrite bool_decide_eq_true_2 by reflexivity.
  cbn [negb andb orb Z.eqb].
  assert (negb (mask_test (disable_mask (event_mask (events f)))
                  DMX_EVENT_NEW_SECTION)
          && negb (dvb_dmxdev_events_is_full (events f) =? 0) = false) as ->.
  { destruct (mask_test _ _); [reflexivity|]. rewrite (Hroom eq_refl).
    reflexivity. }
  destruct (Z.eqb_spec len 0); [lia|].
  cbn [buffer with_timer]. fold s1 s2.
  destruct (Z.ltb_spec (u64 (dvb_ringbuffer_free (buffer f))) len); [lia|].
  rewrite Hb1, Hb2. cbn [sec with_events with_buffer with_timer].
  destruct (Z.land (sec_flags (sec f)) DMX_ONESHOT =? 0) eqn:Hone.
  - eexists. eexists. split; [reflexivity|].
    cbn [negb filter with_filter buffer with_events with_buffer].
    split; [exact Havail|]. split.
    { rewrite buffer_read_available;
        [| cbn [filter with_filter buffer with_events with_buffer];
           rewrite Havail; lia
         | eexists; reflexivity | exact Herr | exact Hstate].
      cbn [filter with_filter buffer with_events with_buffer data size pread
             b2 default].
      unfold id. rewrite Hbytes. reflexivity. }
    split; [exact Hempty | exact Herr].
  - eexists. eexists. split; [reflexivity|].
    cbn [negb filter with_filter buffer with_events with_buffer with_state].
    split; [exact Havail|]. split.
    { rewrite buffer_read_available_done;
        [| cbn [filter with_filter buffer with_events with_buffer with_state];
           rewrite Havail; lia
         | eexists; reflexivity | exact Herr | reflexivity].
      cbn [filter with_filter buffer with_events with_buffer with_state data
             size pread b2 default].
      unfold id. rewrite Hbytes. reflexivity. }
    split; [exact Hempty | exact Herr].
Qed.

End dmxdev.

(** * The statements at concrete inputs *)

Lemma queue_size_32_range : 0 < queue_size_32 < 2 ^ 32.
Proof. unfold queue_size_32. lia. Qed.

Lemma queue_at_open_wf : queue_wf queue_size_32 queue_at_open.
Proof. unfold queue_wf, queue_size_32. simpl. lia. Qed.

(** A PES event of 100 bytes is still queued, with 40 bytes left, after
    chunks of 30 and 30 bytes, and retired by a third chunk of 50, of which
    it takes 100 - 60 bytes.  In the queue, reads of 30, 30 and 40 bytes
    move [read_index] from its slot to the next. *)
Lemma update_pes_event_converges_witness :
  (exists e, pes_event_drain pes_event_100 [30; 30] = (60, Some e)
             /\ pes_total_length e = 40)
  /\ pes_event_drain pes_event_100 [30; 30; 50] = (100, None)
  /\ (exists events',
        update_events_chunks queue_size_32 event_bit_in_order queue_with_pes
          [30; 30; 40] = Some events'
        /\ read_index events' = 1).
Proof.
  split; [|split].
  - exact (proj1 (proj2 (proj2
             (update_pes_event_converges queue_size_32 event_bit_in_order
                queue_size_32_range pes_event_100 [30; 30] queue_with_pes
                ltac:(simpl; lia) ltac:(repeat constructor; lia))))).
  - exact (proj1 (proj2 (proj2
             (update_pes_event_converges queue_size_32 event_bit_in_order
                queue_size_32_range pes_event_100 [30; 30; 50] queue_with_pes
                ltac:(simpl; lia) ltac:(repeat constructor; lia))))).
  - destruct (proj2 (proj2 (proj2
               (update_pes_event_converges queue_size_32 event_bit_in_order
                  queue_size_32_range pes_event_100 [30; 30; 40]
                  queue_with_pes
                  ltac:(simpl; lia) ltac:(repeat constructor; lia))))
               ltac:(unfold queue_wf, queue_size_32; simpl; lia)
               eq_refl ltac:(simpl; lia) eq_refl
               ltac:(compute; discriminate))
      as (events' & Hrun & _ & _ & _ & Hread).
    exists events'. split; [exact Hrun | exact Hread].
Defined.

(** An EOS event added to the empty queue of a fresh filter is stored and
    makes the count of stored events one.  Added to a full queue it is
    refused with [-EOVERFLOW] and the queue keeps its slots. *)
Lemma add_event_bounded_witness :
  stored_events queue_size_32
    (snd (dvb_dmxdev_add_event queue_size_32 event_bit_in_order
            queue_at_open EvEos)) = 1
  /\ fst (dvb_dmxdev_add_event queue_size_32 event_bit_in_order queue_full
            EvEos) = - EOVERFLOW
  /\ same_slots queue_full
       (snd (dvb_dmxdev_add_event queue_size_32 event_bit_in_order
               queue_full EvEos)).
Proof.
  split.
  - pose proof (add_event_bounded queue_size_32 event_bit_in_order
                  queue_size_32_range queue_at_open EvEos queue_at_open_wf)
      as (_ & _ & _ & Hstore & _).
    destruct (Hstore eq_refl eq_refl queue_at_open EvEos eq_refl)
      as (_ & _ & Hcount).
    exact Hcount.
  - pose proof (add_event_bounded queue_size_32 event_bit_in_order
                  queue_size_32_range queue_full EvEos
                  ltac:(unfold queue_wf, queue_size_32; simpl; lia))
      as (_ & _ & _ & _ & Hfull).
    destruct (Hfull eq_refl) as (Hsame & Hover & _).
    split; [|exact Hsame].
    exact (Hover eq_refl
             (ex_intro _ queue_full (ex_intro _ EvEos eq_refl))).
Defined.

(** C2, as stated, fails: on a full queue, adding an event whose type is
    disabled, or a non-data event while bytes were read ahead of events,
    returns 0, not [-EOVERFLOW]. *)
Lemma add_event_on_full_queue_returns_0 :
  let masked :=
    set_event_mask queue_full
      {| disable_mask := 64; no_wakeup_mask := 0; wakeup_threshold := 1 |} in
  let ahead := set_bytes_read_no_event queue_full 10 in
  dvb_dmxdev_events_is_full queue_size_32 masked = 1
  /\ dvb_dmxdev_add_event queue_size_32 event_bit_in_order masked EvEos
     = (0, masked)
  /\ dvb_dmxdev_events_is_full queue_size_32 ahead = 1
  /\ dvb_dmxdev_add_event queue_size_32 event_bit_in_order ahead EvEos
     = (0, ahead).
Proof. repeat split. Qed.

(** A non-blocking read of a filter whose buffer carries [-EOVERFLOW]
    returns it and clears it; so does a blocking read that is woken by the
    error before it has transferred anything.  A blocking read that is
    woken by the timeout returns [-ENODEV], and the read after it returns
    [-ETIMEDOUT]. *)
Lemma buffer_read_sticky_error_witness :
  let dev := device_of (section_filter_16 4 4) buffer_at_open in
  let fire :=
    fun d : dmxdev =>
      with_filter d
        (dvb_dmxdev_filter_timeout queue_size_32 event_bit_in_order
           (filter d)) in
  dvb_dmxdev_buffer_read FromFilter true 8 [] (overflow_now dev)
  = Some {| ret := - EOVERFLOW; user_buf := []; dev_after := dev;
            env_after := [] |}
  /\ dvb_dmxdev_buffer_read FromFilter false 8 [Activity overflow_now] dev
     = Some {| ret := - EOVERFLOW; user_buf := []; dev_after := dev;
               env_after := [] |}
  /\ dvb_dmxdev_buffer_read FromFilter false 8 [Activity fire] dev
     = Some {| ret := - ENODEV; user_buf := []; dev_after := fire dev;
               env_after := [] |}
  /\ exists dev',
       dvb_dmxdev_buffer_read FromFilter false 8 [] (fire dev)
       = Some {| ret := - ETIMEDOUT; user_buf := []; dev_after := dev';
                 env_after := [] |}.
Proof.
  intros dev fire. split; [|split].
  - exact (proj1 (buffer_read_sticky_error queue_size_32 event_bit_in_order
                    FromFilter true 8 []
                    (overflow_now dev) (- EOVERFLOW)
                    ltac:(discriminate) ltac:(simpl; eauto))
             eq_refl).
  - exact (proj1 (proj2 (proj2
             (buffer_read_sticky_error queue_size_32 event_bit_in_order
                FromFilter false 8
                [Activity overflow_now] dev (- EOVERFLOW)
                ltac:(discriminate) ltac:(simpl; eauto))))
             (overflow_now dev) [] ltac:(lia)
             ltac:(repeat split) eq_refl eq_refl
             ltac:(simpl; eauto) eq_refl).
  - destruct (proj2 (proj2 (proj2 (proj2 (proj2
                (buffer_read_sticky_error queue_size_32 event_bit_in_order
                   FromFilter false 8 [] dev (- ETIMEDOUT)
                   ltac:(discriminate) ltac:(simpl; eauto))))))
                ltac:(lia) ltac:(repeat split))
      as (Hwoken & _ & Hnext).
    split; [exact Hwoken|].
    eexists. exact (Hnext false 8 []).
Defined.

(** C3, as stated, fails: a blocking read of 8 bytes finds 4, transfers
    them and sleeps; the producer records [-EOVERFLOW]; the read wakes up,
    observes the error and clears it, and returns 4, not the error.  No
    later read returns it. *)
Lemma sticky_error_cleared_but_not_returned :
  let dev := device_of (section_filter_16 0 4) buffer_at_open in
  exists r,
    dvb_dmxdev_buffer_read FromFilter false 8 [Activity overflow_now] dev
    = Some r
    /\ ret r = 4 /\ user_buf r = [0; 1; 2; 3]
    /\ error (buffer (filter (overflow_now (dev_after r)))) = - EOVERFLOW
    /\ error (buffer (filter (dev_after r))) = 0
    /\ env_after r = [].
Proof. eexists. repeat split. Qed.



(** A section filter with a timeout of 100 ms started at tick 1000, at 250
    ticks per second: the timer is due at tick 1026, and when it fires the
    filter is timed out, its buffer carries [-ETIMEDOUT] and the timeout
    event is the first in its queue. *)
Lemma section_timeout_fires_witness :
  let f := filter_of DMXDEV_TYPE_SEC DMXDEV_STATE_GO (ring_16 0 0)
             queue_at_open 100 DMX_OUT_DECODER 0 in
  timer (dvb_dmxdev_filter_timer ticks_250 1000 f) = Some 1026
  /\ exists f',
       run_timer queue_size_32 event_bit_in_order 1026
         (dvb_dmxdev_filter_timer ticks_250 1000 f) = Some f'
       /\ state f' = DMXDEV_STATE_TIMEDOUT
       /\ error (buffer f') = - ETIMEDOUT
       /\ queue (events f') !! 0%nat = Some EvSectionTimeout.
Proof.
  intros f.
  destruct (section_timeout_fires queue_size_32 event_bit_in_order ticks_250
              queue_size_32_range 1000 f ltac:(discriminate))
    as (expires & Htimer & -> & Hfire).
  split; [exact Htimer|].
  destruct (Hfire 1026 ltac:(compute; discriminate))
    as (f' & Hrun & _ & Hstate & Herr & _ & Hstored & _).
  exists f'. split; [exact Hrun|]. split; [exact Hstate|].
  split; [exact Herr|].
  exact (proj1 (Hstored queue_at_open_wf eq_refl eq_refl eq_refl)).
Defined.

(** The same filter after its consumer has disabled the section-timeout
    event: when the timer fires the filter is timed out and its buffer
    carries [-ETIMEDOUT], but no event has come into the queue, which is
    empty as before. *)
Lemma section_timeout_event_not_added :
  let f := filter_of DMXDEV_TYPE_SEC DMXDEV_STATE_GO (ring_16 0 0)
             (queue_masked 1024) 100 DMX_OUT_DECODER 0 in
  exists f',
    run_timer queue_size_32 event_bit_in_order 1026
      (dvb_dmxdev_filter_timer ticks_250 1000 f) = Some f'
    /\ state f' = DMXDEV_STATE_TIMEDOUT
    /\ error (buffer f') = - ETIMEDOUT
    /\ events f' = events f
    /\ write_index (events f') = read_index (events f')
    /\ forall i : nat, queue (events f') !! i <> Some EvSectionTimeout.
Proof.
  intros f. eexists. split; [reflexivity|].
  do 4 (split; [reflexivity|]).
  intros i Hi.
  change (replicate 32 EvBufferOverflow !! i = Some EvSectionTimeout) in Hi.
  apply lookup_replicate in Hi. destruct Hi as [Hi _]. discriminate.
Qed.

(** On a running recording filter the TS output format cannot be set, nor
    the buffer size changed, nor the event mask set. *)
Lemma config_busy_when_running_witness :
  let f := recording_filter_16 0 0 queue_at_open in
  dvb_dmxdev_set_tsp_out_format f DMX_TSP_FORMAT_192_TAIL = (- EBUSY, f)
  /\ dvb_dmxdev_set_buffer_size vmalloc_zeroed f 32 = (- EBUSY, f)
  /\ dvb_dmxdev_set_event_mask queue_size_32 event_bit_in_order f
       (Some mask_at_open) = (- EBUSY, f).
Proof.
  intros f.
  destruct (config_busy_when_running queue_size_32 event_bit_in_order f
              ltac:(compute; discriminate)) as (Hfmt & Hsize & Hmask).
  split; [exact (Hfmt DMX_TSP_FORMAT_192_TAIL)|]. split.
  - destruct (Hsize vmalloc_zeroed 32) as (Hsame & Hbusy).
    apply injective_projections; simpl;
      [exact (Hbusy ltac:(discriminate) ltac:(discriminate) eq_refl)
      | exact Hsame].
  - destruct (Hmask eq_refl (Some mask_at_open)) as (Hsame & Hbusy).
    apply injective_projections; simpl;
      [exact (Hbusy mask_at_open eq_refl ltac:(reflexivity)) | exact Hsame].
Defined.

(** C6, as stated, fails: on a filter in [DMXDEV_STATE_GO], setting the
    buffer size to the size it has returns 0, and setting a size of zero
    returns [-EINVAL]; on a filter in [DMXDEV_STATE_DONE], setting the
    event mask returns 0 and replaces the mask. *)
Lemma config_not_busy_when_running :
  let f := recording_filter_16 0 0 queue_at_open in
  let done := with_state f DMXDEV_STATE_DONE in
  let m := {| disable_mask := 64; no_wakeup_mask := 0;
              wakeup_threshold := 1 |} in
  dvb_dmxdev_set_buffer_size vmalloc_zeroed f 16 = (0, f)
  /\ dvb_dmxdev_set_buffer_size vmalloc_zeroed f 0 = (- EINVAL, f)
  /\ dvb_dmxdev_set_event_mask queue_size_32 event_bit_in_order done (Some m)
     = (0, with_events done (set_event_mask (events done) m))
  /\ event_mask (events done) <> m.
Proof. repeat split. discriminate. Qed.



(** The section of 303 bytes in [section_ring], which wraps around the end
    of the storage, read 8 bytes at a time: 38 reads hand out 303 bytes,
    and a 39th has nothing of it. *)
Lemma read_sec_in_8_byte_reads_witness :
  let dev := device_of (filter_of DMXDEV_TYPE_SEC DMXDEV_STATE_GO
                          section_ring queue_at_open 0 DMX_OUT_DECODER 0)
               buffer_at_open in
  exists rs dev',
    read_sec_calls 38 true 8 [] dev = Some (rs, dev', [])
    /\ length rs = 38%nat
    /\ sum_bytes (map fst rs) = 303
    /\ length (concat (map snd rs)) = 303%nat
    /\ exists r,
         dvb_dmxdev_read_sec true 8 [] dev' = Some r
         /\ ret r = - EWOULDBLOCK /\ user_buf r = [].
Proof.
  intros dev.
  destruct (read_sec_in_8_byte_reads true [] dev section_storage 400 200 103
              66 1 44 ltac:(lia) ltac:(lia) ltac:(lia)
              ltac:(compute; discriminate) eq_refl eq_refl eq_refl eq_refl
              eq_refl eq_refl)
    as (rs & dev' & Hcalls & Hrets & Hsum & Hbytes & _ & _ & Hnext).
  exists rs, dev'. split; [exact Hcalls|]. split.
  { rewrite <- (length_map fst), Hrets. reflexivity. }
  split; [exact Hsum|]. split.
  { rewrite Hbytes. reflexivity. }
  exact (Hnext eq_refl).
Defined.

(** Releasing 5 of the 12 bytes of a filter moves the read cursor from 0
    to 5; releasing 13 fails and changes nothing. *)
Lemma release_data_spec_witness :
  let f := recording_filter_16 0 12 queue_at_open in
  (exists f',
     dvb_dmxdev_release_data queue_size_32 event_bit_in_order f 5
     = Some (0, f')
     /\ pread (buffer f') = 5)
  /\ dvb_dmxdev_release_data queue_size_32 event_bit_in_order f 13
     = Some (- EINVAL, f).
Proof.
  intros f.
  destruct (release_data_spec queue_size_32 event_bit_in_order
              queue_size_32_range f (device_of f buffer_at_open) O_RDONLY 5
              queue_at_open_wf queue_at_open_wf)
    as (_ & Hmapped & _).
  destruct (Hmapped ltac:(simpl; eauto)) as (_ & _ & Hrelease).
  destruct (Hrelease ltac:(compute; split; [reflexivity | discriminate])
              ltac:(reflexivity))
    as (events' & _ & Hret & Hcursor).
  split.
  - eexists. split; [exact Hret|]. exact Hcursor.
  - destruct (release_data_spec queue_size_32 event_bit_in_order
                queue_size_32_range f (device_of f buffer_at_open) O_RDONLY
                13 queue_at_open_wf queue_at_open_wf)
      as (_ & Hmapped' & _).
    destruct (Hmapped' ltac:(simpl; eauto)) as (_ & Hfail & _).
    exact (Hfail ltac:(reflexivity) ltac:(discriminate)).
Defined.

(** C9, as stated, fails: on a filter that was just opened, whose buffer
    has no storage yet, and on the DVR device opened for writing,
    ReleaseData of zero bytes fails with [-EINVAL]. *)
Lemma release_data_of_nothing_fails :
  dvb_dmxdev_release_data queue_size_32 event_bit_in_order filter_at_open 0
  = Some (- EINVAL, filter_at_open)
  /\ dvb_dvr_release_data queue_size_32 event_bit_in_order
       (device_of filter_at_open (ring_16 0 12)) O_WRONLY 0
     = Some (- EINVAL, device_of filter_at_open (ring_16 0 12)).
Proof. split; reflexivity. Qed.

(** A read of the DVR buffer without storage returns 0 at once; a blocking
    read of the empty DVR buffer whose storage is unmapped while the
    reader sleeps returns 0.  A blocking read of a running filter returns
    [-ENODEV] when the filter is stopped and unmapped while the reader
    sleeps, and [-ERESTARTSYS] when a signal ends the wait. *)
Lemma buffer_read_unmapped_witness :
  let dev := device_of filter_at_open (ring_16 4 4) in
  let dev_go := device_of (section_filter_16 4 4) buffer_at_open in
  dvb_dmxdev_buffer_read FromDvr false 8 [] (unmap_dvr dev)
  = Some {| ret := 0; user_buf := []; dev_after := unmap_dvr dev;
            env_after := [] |}
  /\ dvb_dmxdev_buffer_read FromDvr false 8 [Activity unmap_dvr] dev
     = Some {| ret := 0; user_buf := []; dev_after := unmap_dvr dev;
               env_after := [] |}
  /\ dvb_dmxdev_buffer_read FromFilter false 8 [Activity stop_and_unmap]
       dev_go
     = Some {| ret := - ENODEV; user_buf := [];
               dev_after := stop_and_unmap dev_go; env_after := [] |}
  /\ dvb_dmxdev_buffer_read FromFilter false 8 [Signal false] dev_go
     = Some {| ret := - ERESTARTSYS; user_buf := []; dev_after := dev_go;
               env_after := [] |}.
Proof.
  intros dev dev_go. split; [|split; [|split]].
  - exact (proj1 (buffer_read_unmapped FromDvr false 8 [] (unmap_dvr dev))
             eq_refl).
  - exact (proj1 (proj2 (proj2 (buffer_read_unmapped FromDvr false 8
                                  [Activity unmap_dvr] dev)))
             (unmap_dvr dev) [] ltac:(lia) ltac:(repeat split) eq_refl
             eq_refl eq_refl).
  - exact (proj1 (proj2 (proj2 (proj2 (proj2
             (buffer_read_unmapped FromFilter false 8
                [Activity stop_and_unmap] dev_go)))))
             (stop_and_unmap dev_go) [] ltac:(lia) ltac:(repeat split)
             eq_refl eq_refl).
  - exact (proj2 (proj2 (proj2 (proj2 (proj2 (proj2
             (buffer_read_unmapped FromFilter false 8 [Signal false]
                dev_go))))))
             false [] ltac:(lia) ltac:(repeat split) eq_refl).
Defined.

(** C10, as stated, fails: a blocking read of a running filter sleeps on
    the empty buffer; the filter is stopped and its storage unmapped; the
    read returns [-ENODEV], not 0. *)
Lemma read_of_unmapped_filter_returns_nodev :
  let dev := device_of (section_filter_16 4 4) buffer_at_open in
  dvb_dmxdev_buffer_read FromFilter false 8 [Activity stop_and_unmap] dev
  = Some {| ret := - ENODEV; user_buf := [];
            dev_after := stop_and_unmap dev; env_after := [] |}
  /\ data (buffer (filter (stop_and_unmap dev))) = None
  /\ - ENODEV <> 0.
Proof. repeat split. discriminate. Qed.

(** ** The further properties at concrete inputs *)

Lemma queue_at_open_ordered : queue_ordered queue_size_32 queue_at_open.
Proof.
  split; [exact queue_at_open_wf|]. unfold slots_between, queue_size_32.
  simpl. lia.
Qed.

Lemma queue_pes_pending_ordered :
  queue_ordered queue_size_32 queue_pes_pending.
Proof.
  split; [unfold queue_wf, queue_size_32; simpl; lia|].
  apply Z.leb_le. reflexivity.
Qed.

(** An EOS event added to the queue of a fresh filter is the one pending
    event. *)
Lemma add_event_appends_witness :
  pending_events queue_size_32
    (snd (dvb_dmxdev_add_event queue_size_32 event_bit_in_order
            queue_at_open EvEos))
  = [EvEos].
Proof.
  pose proof (add_event_appends queue_size_32 event_bit_in_order
                queue_size_32_range queue_at_open EvEos
                queue_at_open_ordered) as (_ & _ & _ & Hstore & _).
  destruct (Hstore queue_at_open EvEos eq_refl eq_refl eq_refl)
    as (_ & Hpending).
  exact Hpending.
Defined.

(** The PES event that is pending is handed out, and none is left. *)
Lemma remove_event_takes_oldest_witness :
  exists events',
    dvb_dmxdev_remove_event queue_size_32 event_bit_in_order
      queue_pes_pending
    = Some (0, Some (EvNewPes pes_event_100), events')
    /\ pending_events queue_size_32 events' = [].
Proof.
  destruct (remove_event_takes_oldest queue_size_32 event_bit_in_order
              queue_size_32_range queue_pes_pending
              queue_pes_pending_ordered)
    as (events' & Hrun & Hrest & _).
  exists events'. split; [exact Hrun | exact Hrest].
Defined.

(** An EOS event, a PES event and a section timeout added to the queue of a
    fresh filter come out in this order. *)
Lemma events_come_out_in_order_witness :
  exists events',
    remove_events queue_size_32 event_bit_in_order 3
      (add_events queue_size_32 event_bit_in_order queue_at_open
         [EvEos; EvNewPes pes_event_100; EvSectionTimeout])
    = Some ([EvEos; EvNewPes pes_event_100; EvSectionTimeout], events').
Proof.
  destruct (events_come_out_in_order queue_size_32 event_bit_in_order
              queue_size_32_range queue_at_open
              [EvEos; EvNewPes pes_event_100; EvSectionTimeout]
              queue_at_open_ordered eq_refl eq_refl
              ltac:(repeat constructor) ltac:(vm_compute; reflexivity))
    as (events' & Hrun & _).
  exists events'. exact Hrun.
Defined.

(** A read of 30 bytes with a PES event of 100 bytes pending leaves the
    queue in order, with its wake-up count right. *)
Lemma update_events_keeps_queue_witness :
  exists events',
    dvb_dmxdev_update_events queue_size_32 event_bit_in_order
      queue_pes_pending 30 = Some events'
    /\ queue_ordered queue_size_32 events'
    /\ wakeup_counted queue_size_32 event_bit_in_order events'.
Proof.
  destruct (update_events_keeps_queue queue_size_32 event_bit_in_order
              queue_size_32_range queue_pes_pending 30
              queue_pes_pending_ordered ltac:(reflexivity))
    as (events' & Hrun & Hord & Hcount & _).
  exists events'. split; [exact Hrun|]. split; [exact Hord | exact Hcount].
Defined.

(** The wake-up count is right after an EOS event joins the pending PES
    event. *)
Lemma wakeup_counter_counts_witness :
  wakeup_counted queue_size_32 event_bit_in_order
    (snd (dvb_dmxdev_add_event queue_size_32 event_bit_in_order
            queue_pes_pending EvEos)).
Proof.
  exact (proj1 (wakeup_counter_counts queue_size_32 event_bit_in_order
                  queue_size_32_range queue_pes_pending EvEos
                  queue_pes_pending_ordered ltac:(reflexivity))).
Defined.

(** After 30 of its 100 bytes were read, the PES event still ends at
    offset 100. *)
Lemma partial_update_keeps_end_witness :
  let e' := snd (dvb_dmxdev_update_pes_event pes_event_100 30) in
  u32 (pes_base_offset e' + pes_total_length e') = u32 (0 + 100).
Proof.
  exact (proj1 (proj1 (partial_update_keeps_end 30 ltac:(lia))
                  pes_event_100 ltac:(simpl; lia))).
Defined.

(** 30 bytes read from a fresh filter before any event are held as
    read-ahead. *)
Lemma read_ahead_is_accounted_witness :
  exists events1,
    dvb_dmxdev_update_events queue_size_32 event_bit_in_order queue_at_open 30
    = Some events1
    /\ bytes_read_no_event events1 = 30.
Proof.
  destruct (read_ahead_is_accounted queue_size_32 event_bit_in_order
              queue_size_32_range queue_at_open 30 pes_event_100
              queue_at_open_wf ltac:(unfold queue_size_32; lia)
              eq_refl eq_refl eq_refl eq_refl ltac:(lia) eq_refl
              ltac:(simpl; lia))
    as (events1 & Hrun & _ & Hcredit & _).
  exists events1. split; [exact Hrun | exact Hcredit].
Defined.

(** With an overflow recorded on its buffer, the filter hands out the
    overflow event and the error is gone; the 4 bytes of the buffer are
    thrown away when [overflow_auto_flush] is set, and stay when it is
    not. *)
Lemma get_event_overflow_first_witness :
  let dev :=
    overflow_now (device_of (section_filter_16 0 4) buffer_at_open) in
  (exists dev',
     dvb_dmxdev_get_event queue_size_32 event_bit_in_order auto_flush_on dev
     = Some (0, Some EvBufferOverflow, dev')
     /\ error (buffer (filter dev')) = 0
     /\ dvb_ringbuffer_empty (buffer (filter dev')) = true)
  /\ (exists dev',
        dvb_dmxdev_get_event queue_size_32 event_bit_in_order auto_flush_off
          dev
        = Some (0, Some EvBufferOverflow, dev')
        /\ error (buffer (filter dev')) = 0
        /\ buffer (filter dev') = ring_16 0 4).
Proof.
  intros dev. split.
  - destruct (get_event_overflow_first queue_size_32 event_bit_in_order
                auto_flush_on dev
                eq_refl ltac:(intros [H _]; discriminate H)
                ltac:(simpl; lia))
      as (dev' & Hrun & Herr & _ & _ & _ & Hflush & _).
    exists dev'. split; [exact Hrun|]. split; [exact Herr|].
    exact (proj1 (Hflush ltac:(discriminate))).
  - destruct (get_event_overflow_first queue_size_32 event_bit_in_order
                auto_flush_off dev
                eq_refl ltac:(intros [H _]; discriminate H)
                ltac:(simpl; lia))
      as (dev' & Hrun & Herr & _ & _ & _ & _ & Hkeep).
    exists dev'. split; [exact Hrun|]. split; [exact Herr|].
    exact (proj1 (Hkeep eq_refl)).
Defined.

(** The pending PES event is what [dvb_dmxdev_get_event] hands out. *)
Lemma get_event_takes_oldest_witness :
  let dev :=
    device_of
      (filter_of DMXDEV_TYPE_SEC DMXDEV_STATE_GO (ring_16 0 4)
         queue_pes_pending 0 DMX_OUT_DECODER 0) buffer_at_open in
  exists dev',
    dvb_dmxdev_get_event queue_size_32 event_bit_in_order auto_flush_on dev
    = Some (0, Some (EvNewPes pes_event_100), dev')
    /\ pending_events queue_size_32 (events (filter dev')) = [].
Proof.
  intros dev.
  destruct (get_event_takes_oldest queue_size_32 event_bit_in_order
              auto_flush_on queue_size_32_range dev ltac:(discriminate)
              queue_pes_pending_ordered ltac:(discriminate))
    as (dev' & Hrun & Hrest & _).
  exists dev'. split; [exact Hrun | exact Hrest].
Defined.

(** The status of a buffer with an overflow recorded reports the overflow
    once; the second call reports a fullness of 0 when
    [overflow_auto_flush] is set.  A decoder filter gets [-ENODEV] when the
    engine has no answer. *)
Lemma buffer_status_reports_error_once_witness :
  let dev :=
    overflow_now (device_of (section_filter_16 0 4) buffer_at_open) in
  let decoder :=
    device_of
      (filter_of DMXDEV_TYPE_PES DMXDEV_STATE_GO (ring_16 0 4) queue_at_open
         0 DMX_OUT_DECODER 0) buffer_at_open in
  let st0 :=
    {| status_error := 0; status_fullness := 0; status_free_bytes := 0;
       status_read_offset := 0; status_write_offset := 0;
       status_size := 0 |} in
  (exists st1 dev1 st2,
     dvb_dmxdev_get_buffer_status ring_free_by_spec auto_flush_on None dev
       st0
     = (0, st1, dev1)
     /\ status_error st1 = - EOVERFLOW
     /\ status_fullness st1 = 4
     /\ dvb_dmxdev_get_buffer_status ring_free_by_spec auto_flush_on None
          dev1 st1
        = (0, st2, dev1)
     /\ status_error st2 = 0
     /\ status_fullness st2 = 0)
  /\ dvb_dmxdev_get_buffer_status ring_free_by_spec auto_flush_on None
       decoder st0
     = (- ENODEV, st0, decoder).
Proof.
  intros dev decoder st0. split.
  - destruct (proj2 (proj2
                (buffer_status_reports_error_once queue_size_32
                   ring_free_by_spec auto_flush_on None dev st0))
                ltac:(intros [H _]; discriminate H) ltac:(simpl; eauto))
      as (st1 & dev1 & st2 & Hfirst & Herr & Hfull & _ & Hsecond & Hclear
          & _ & Hflush & _).
    exists st1, dev1, st2.
    split; [exact Hfirst|]. split; [exact Herr|]. split; [exact Hfull|].
    split; [exact Hsecond|]. split; [exact Hclear|].
    exact (proj1 (Hflush eq_refl ltac:(discriminate)
                    ltac:(intros [H _]; discriminate H)
                    ltac:(simpl; lia))).
  - exact (proj1 (buffer_status_reports_error_once queue_size_32
                    ring_free_by_spec auto_flush_on None decoder st0)
             (conj eq_refl eq_refl)).
Defined.

(** A flush of a running section filter that holds 4 bytes leaves its
    buffer empty. *)
Lemma flush_buffer_empties_witness :
  let dev := device_of (section_filter_16 0 4) buffer_at_open in
  dvb_ringbuffer_empty
    (buffer (filter (snd (dvb_dmxdev_flush_buffer 0 dev))))
  = true.
Proof.
  intros dev.
  exact (proj1 (proj1 (proj2 (proj2
                  (flush_buffer_empties queue_size_32 0 dev)))
                  eq_refl ltac:(intros [H _]; discriminate H)
                  ltac:(simpl; lia))).
Defined.

(** A mask that asks for the overflow event to be disabled is taken with
    the event enabled. *)
Lemma overflow_event_stays_enabled_witness :
  let mask :=
    {| disable_mask := 80; no_wakeup_mask := 16; wakeup_threshold := 2 |} in
  mask_test event_bit_in_order
    (disable_mask
       (event_mask
          (events
             (snd (dvb_dmxdev_set_event_mask queue_size_32 event_bit_in_order
                     filter_at_open (Some mask))))))
    DMX_EVENT_BUFFER_OVERFLOW
  = false.
Proof.
  intros mask.
  exact (proj1 (overflow_event_stays_enabled queue_size_32 event_bit_in_order
                  filter_at_open
                  (snd (dvb_dmxdev_set_event_mask queue_size_32
                          event_bit_in_order filter_at_open (Some mask)))
                  mask ltac:(simpl; lia) eq_refl)).
Defined.

(** With the poll bits 1, 2, 8 and 64: nothing to read is reported for an
    empty buffer, and a non-blocking read of it would block. *)
Lemma poll_agrees_with_read_witness :
  let dev := device_of (section_filter_16 4 4) buffer_at_open in
  Z.land (dvb_demux_poll 1 2 8 64 0 (Some (filter dev))) 1 = 0
  /\ dvb_dmxdev_buffer_read FromFilter true 8 [] dev
     = Some {| ret := - EWOULDBLOCK; user_buf := []; dev_after := dev;
               env_after := [] |}.
Proof.
  intros dev. split; [reflexivity|].
  exact (proj1 (poll_agrees_with_read 1 2 8 64 0 8 [] dev
                  ltac:(discriminate) eq_refl eq_refl eq_refl
                  ltac:(simpl; eauto) ltac:(simpl; lia) ltac:(simpl; lia)
                  ltac:(lia))
           eq_refl).
Defined.

(** An overflow recorded on the buffer is reported as [POLLPRI]. *)
Lemma poll_reports_events_witness :
  let dev :=
    overflow_now (device_of (section_filter_16 0 4) buffer_at_open) in
  Z.land (dvb_demux_poll 1 2 8 64 0 (Some (filter dev))) 2 <> 0.
Proof.
  intros dev.
  exact (proj2 (proj1 (proj2 (poll_reports_events 1 2 8 64 0 (filter dev)
                                ltac:(discriminate) ltac:(discriminate)
                                eq_refl eq_refl eq_refl eq_refl eq_refl
                                eq_refl)
                         (or_introl eq_refl)))
           (or_introl eq_refl)).
Defined.

(** A section of 3 bytes for a section filter whose timer is pending: the
    callback returns 0 and no timer is left.  With the queue full the
    callback changes nothing, and the timer fires when its time has
    come. *)
Lemma section_cancels_timeout_witness :
  let dev :=
    device_of (with_timer (section_filter_16 0 4) (Some 500))
      buffer_at_open in
  let dev_full :=
    device_of
      (with_timer
         (filter_of DMXDEV_TYPE_SEC DMXDEV_STATE_GO (ring_16 0 4) queue_full
            0 DMX_OUT_DECODER 0) (Some 500)) buffer_at_open in
  (exists dev',
     dvb_dmxdev_section_callback queue_size_32 event_bit_in_order
       ring_free_by_spec (Some [1; 2; 3]) None (Some dev)
     = (0, Some dev')
     /\ timer (filter dev') = None)
  /\ dvb_dmxdev_section_callback queue_size_32 event_bit_in_order
       ring_free_by_spec (Some [1; 2; 3]) None (Some dev_full)
     = (0, Some dev_full)
  /\ run_timer queue_size_32 event_bit_in_order 500 (filter dev_full)
     = Some (dvb_dmxdev_filter_timeout queue_size_32 event_bit_in_order
               (with_timer (filter dev_full) None)).
Proof.
  intros dev dev_full. split.
  - destruct (proj2 (section_cancels_timeout queue_size_32
                       event_bit_in_order ring_free_by_spec
                       (Some [1; 2; 3]) None dev
                       eq_refl eq_refl eq_refl eq_refl ltac:(reflexivity))
                (or_intror eq_refl))
      as (dev' & Hrun & Htimer & _).
    exists dev'. split; [exact Hrun | exact Htimer].
  - destruct (proj1 (section_cancels_timeout queue_size_32
                       event_bit_in_order ring_free_by_spec
                       (Some [1; 2; 3]) None dev_full
                       eq_refl eq_refl eq_refl eq_refl ltac:(reflexivity))
                eq_refl ltac:(discriminate))
      as (Hdropped & Hfires).
    split; [exact Hdropped|].
    exact (Hfires 500 500 eq_refl ltac:(lia)).
Defined.

(** A section for a filter that is done changes nothing. *)
Lemma done_filter_is_at_rest_witness :
  let dev :=
    device_of
      (filter_of DMXDEV_TYPE_SEC DMXDEV_STATE_DONE (ring_16 4 4)
         queue_at_open 0 DMX_OUT_DECODER 0) buffer_at_open in
  dvb_dmxdev_section_callback queue_size_32 event_bit_in_order
    ring_free_by_spec (Some [1; 2; 3]) None (Some dev)
  = (0, Some dev).
Proof.
  intros dev.
  exact (proj1 (done_filter_is_at_rest queue_size_32 event_bit_in_order
                  ring_free_by_spec dev eq_refl)
           (Some [1; 2; 3]) None).
Defined.

(** Once the timeout has run on a section filter, a read of 8 bytes returns
    [-ETIMEDOUT]. *)
Lemma timed_out_filter_reads_witness :
  let dev := device_of (section_filter_16 4 4) buffer_at_open in
  let dev' :=
    with_filter dev
      (dvb_dmxdev_filter_timeout queue_size_32 event_bit_in_order
         (filter dev)) in
  exists dev'',
    dvb_dmxdev_buffer_read FromFilter true 8 [] dev'
    = Some {| ret := - ETIMEDOUT; user_buf := []; dev_after := dev'';
              env_after := [] |}.
Proof.
  intros dev dev'.
  destruct (timed_out_filter_reads queue_size_32 event_bit_in_order
              ring_free_by_spec dev 8 [] ltac:(simpl; eauto) ltac:(lia))
    as (_ & _ & _ & dev'' & Hread & _).
  exists dev''. exact (Hread true).
Defined.

(** A section filter that is set and switches to the external mode has no
    storage afterwards. *)
Lemma mode_switch_leaves_no_storage_witness :
  let dev :=
    device_of
      (filter_of DMXDEV_TYPE_SEC DMXDEV_STATE_SET (ring_16 0 0)
         queue_at_open 0 DMX_OUT_DECODER 0) buffer_at_open in
  exists f',
    dvb_dmxdev_set_buffer_mode true (filter dev)
      (Some DMX_BUFFER_MODE_EXTERNAL) = (0, f')
    /\ data (buffer f') = None.
Proof.
  intros dev.
  destruct (proj2 (proj2 (proj2
              (mode_switch_leaves_no_storage queue_size_32
                 event_bit_in_order ring_free_by_spec auto_flush_on true dev
                 (Some DMX_BUFFER_MODE_EXTERNAL) None)
              ltac:(simpl; lia)))
              DMX_BUFFER_MODE_EXTERNAL eq_refl ltac:(discriminate)
              ltac:(reflexivity))
    as (f' & Hrun & _ & Hdata & _).
  exists f'. split; [exact Hrun | exact Hdata].
Defined.

(** A running section filter is set again after a stop. *)
Lemma stopped_filter_is_quiet_witness :
  let dev := device_of (section_filter_16 0 4) buffer_at_open in
  exists f',
    dvb_dmxdev_filter_stop true (filter dev) = (0, f')
    /\ state f' = DMXDEV_STATE_SET
    /\ pread (buffer f') = 0 /\ pwrite (buffer f') = 0.
Proof.
  intros dev.
  destruct (proj2 (stopped_filter_is_quiet queue_size_32 event_bit_in_order
                     ring_free_by_spec dev)
              ltac:(simpl; lia) ltac:(discriminate))
    as (f' & Hrun & Hstate & Hpr & Hpw & _).
  exists f'. split; [exact Hrun|]. split; [exact Hstate|].
  split; [exact Hpr | exact Hpw].
Defined.

(** PID 257 added to a TS-demux tap that has PID 256, and removed again. *)
Lemma add_then_remove_pid_witness :
  let f :=
    filter_of DMXDEV_TYPE_PES DMXDEV_STATE_SET (ring_16 0 0) queue_at_open 0
      DMX_OUT_TSDEMUX_TAP 100 in
  let feeds := [{| feed_pid := 256; feed_ts := false |}] in
  let start_feed := fun feed : dmxdev_feed => (0, feed) in
  dvb_dmxdev_add_pid true start_feed f feeds 257
  = (0, {| feed_pid := 257; feed_ts := false |} :: feeds)
  /\ dvb_dmxdev_remove_pid f
       (snd (dvb_dmxdev_add_pid true start_feed f feeds 257)) 257
     = (0, feeds).
Proof.
  intros f feeds start_feed.
  exact (proj1 (add_then_remove_pid start_feed f feeds 257 eq_refl eq_refl)
           eq_refl ltac:(discriminate)
           ltac:(repeat constructor; discriminate)).
Defined.

(** The mode bytes 0x00, 0xAA and 0xFF, inverted twice. *)
Lemma invert_mode_twice_witness :
  invert_mode (invert_mode [0; 170; 255]) = [0; 170; 255].
Proof.
  exact (proj1 (invert_mode_twice [0; 170; 255]
                  ltac:(repeat constructor; simpl; lia))).
Defined.

(** 250 bytes accumulated, in chunks of 100: 50 bytes are left. *)
Lemma recording_chunks_tile_witness :
  exists events',
    rec_chunk_loop queue_size_32 event_bit_in_order 250
      (set_current_event_data_size queue_at_open 250) 100 1024
    = Some events'
    /\ current_event_data_size events' = 50.
Proof.
  destruct (proj1 (recording_chunks_tile queue_size_32 event_bit_in_order
                     queue_size_32_range
                     (set_current_event_data_size queue_at_open 250)
                     100 1024 250 queue_at_open_ordered
                     ltac:(simpl; lia))
              ltac:(lia) ltac:(vm_compute; discriminate))
    as (events' & Hrun & Hsize & _).
  exists events'. split; [exact Hrun | exact Hsize].
Defined.

(** With a smallest chunk of 18800 bytes and a buffer of 8192 bytes, a
    recording filter starts with chunks of whole packets. *)
Lemma start_pes_chunk_size_witness :
  let dev :=
    device_of
      (filter_of DMXDEV_TYPE_PES DMXDEV_STATE_SET buffer_at_open
         queue_at_open 0 DMX_OUT_TSDEMUX_TAP 100) buffer_at_open in
  rec_chunk_size
    (pes (filter (snd (dvb_dmxdev_filter_start_pes event_bit_in_order 18800
                         dev))))
  mod 188 = 0.
Proof.
  intros dev.
  exact (proj1 (proj2 (start_pes_chunk_size queue_size_32 event_bit_in_order
                         18800 dev ltac:(simpl; lia) ltac:(lia)
                         ltac:(simpl; lia)))).
Defined.

(** A section of 5 bytes in two segments, written to an empty buffer of 16
    bytes and read back. *)
Lemma section_is_read_back_witness :
  let dev := device_of (section_filter_16 4 4) buffer_at_open in
  exists dev1 dev2,
    dvb_dmxdev_section_callback queue_size_32 event_bit_in_order
      ring_free_by_spec (Some [1; 2; 3]) (Some [4; 5]) (Some dev)
    = (0, Some dev1)
    /\ dvb_dmxdev_buffer_read FromFilter true 5 [] dev1
       = Some {| ret := 5; user_buf := [1; 2; 3; 4; 5]; dev_after := dev2;
                 env_after := [] |}.
Proof.
  intros dev.
  destruct (section_is_read_back queue_size_32 event_bit_in_order
              ring_free_by_spec (Some [1; 2; 3]) (Some [4; 5])
              (map Z.of_nat (seq 0 16)) true [] dev
              eq_refl eq_refl eq_refl eq_refl ltac:(intros _; reflexivity)
              eq_refl eq_refl ltac:(simpl; lia) eq_refl
              ltac:(split; reflexivity) ltac:(vm_compute; discriminate)
              ltac:(vm_compute; discriminate))
    as (dev1 & dev2 & Hrun & _ & Hread & _).
  exists dev1, dev2. split; [exact Hrun | exact Hread].
Defined.
